(** * TrackNest: the REST handlers of [server/routes/api.js] over a relational store

    The handlers are parameterised SQL statements behind an authentication
    check.  Tables are lists of rows (a list keeps the duplicates and the
    order a table can have), a statement is the composition of the relational
    operators of [Module Sql] in the order the statement lists its clauses,
    and a handler is a function from the request and the store to a response
    (and the new store when it writes).

    Conventions of the embedding:
    - a column compared with [=] is compared as a string with [String.eqb];
    - DATE and TIMESTAMP columns, play counts and scores are integers;
    - a request field is [option string]: [None] is JavaScript's [undefined];
      a field that is neither absent nor a string (an array or an object
      from a repeated or bracketed query key, a JSON number) is outside
      the model;
    - the routes behind the [auth] middleware take the [req.user.id] it
      attaches as their [username] argument;
    - the library calls [bcrypt.compare], [jwt.sign], [jwt.verify], the
      [LIKE] operator of the store and the clock are Section variables;
    - a rejected store call (the [catch] branches answering 500) is outside
      the model: every statement of the model returns. *)

From Stdlib Require Import List String Ascii ZArith Bool Lia.
From Stdlib Require Import Sorting.Sorted Sorting.Permutation.
From Stdlib Require Import Relations.Relation_Definitions Classes.RelationClasses.
Import ListNotations.

Local Open Scope Z_scope.
Local Open Scope list_scope.

(* ================================================================== *)
(** * JavaScript values used by the handlers *)

Module JS.

(** Truthiness of a string-valued field: [undefined] and [''] are falsy. *)
Definition truthy (v : option string) : bool :=
  match v with
  | None => false
  | Some s => negb (String.eqb s EmptyString)
  end.

(** [v === 'lit'] for a field that may be [undefined]. *)
Definition strict_eq (v : option string) (lit : string) : bool :=
  match v with
  | None => false
  | Some s => String.eqb s lit
  end.

(** The string held by a field, read behind a truthiness guard only. *)
Definition value (v : option string) : string :=
  match v with
  | None => EmptyString
  | Some s => s
  end.

Definition upper_ascii (c : ascii) : ascii :=
  let n := nat_of_ascii c in
  if (Nat.leb 97 n && Nat.leb n 122)%bool then ascii_of_nat (n - 32) else c.

(** UTF-8 encoding of U+017F (long s), whose upper case is [S]. *)
Definition is_long_s (c1 c2 : ascii) : bool :=
  (Nat.eqb (nat_of_ascii c1) 197 && Nat.eqb (nat_of_ascii c2) 191)%bool.

(** [String.prototype.toUpperCase] on a UTF-8 string: ASCII letters are
    upper-cased and U+017F becomes [S]; the other bytes are kept.  U+017F
    is the only code point outside ASCII whose upper case is one of the
    letters [A], [S], [C], so the comparison of the result with ['ASC'] is
    decided as JavaScript decides it. *)
Fixpoint toUpperCase (s : string) : string :=
  match s with
  | EmptyString => EmptyString
  | String c t =>
      match t with
      | EmptyString => String (upper_ascii c) EmptyString
      | String c2 rest =>
          if is_long_s c c2 then String "S"%char (toUpperCase rest)
          else String (upper_ascii c) (toUpperCase t)
      end
  end.

End JS.

(* ================================================================== *)
(** * Relational operators *)

Module Sql.

(** [WHERE p] *)
Definition where_ {A} (p : A -> bool) (rows : list A) : list A := filter p rows.

(** [l JOIN r ON on] *)
Definition join {A B} (on : A -> B -> bool) (l : list A) (r : list B)
  : list (A * B) :=
  flat_map (fun a => map (pair a) (filter (on a) r)) l.

(** [l LEFT JOIN r ON on]: a left row without a match is kept once, with
    NULL on the right. *)
Definition left_join {A B} (on : A -> B -> bool) (l : list A) (r : list B)
  : list (A * option B) :=
  flat_map (fun a =>
              match filter (on a) r with
              | [] => [(a, None)]
              | ms => map (fun b => (a, Some b)) ms
              end) l.

(** [SELECT DISTINCT]: the first occurrence of each value is kept. *)
Fixpoint distinct {A} (eqb : A -> A -> bool) (rows : list A) : list A :=
  match rows with
  | [] => []
  | x :: t => x :: filter (fun y => negb (eqb x y)) (distinct eqb t)
  end.

(** The non-NULL values of a column. *)
Fixpoint non_null {A} (vals : list (option A)) : list A :=
  match vals with
  | [] => []
  | None :: t => non_null t
  | Some v :: t => v :: non_null t
  end.

(** [COUNT(DISTINCT col)] over the rows of one group. *)
Definition count_distinct {A} (eqb : A -> A -> bool) (vals : list (option A)) : Z :=
  Z.of_nat (List.length (distinct eqb (non_null vals))).

(** [GROUP BY key]: one group per distinct key, holding its rows. *)
Definition group_by {A K} (key : A -> K) (keqb : K -> K -> bool) (rows : list A)
  : list (K * list A) :=
  map (fun k => (k, filter (fun r => keqb k (key r)) rows))
      (distinct keqb (map key rows)).

(** [ORDER BY]: [leb x y] says that [x] may stand before [y]. *)
Fixpoint insert_by {A} (leb : A -> A -> bool) (x : A) (rows : list A) : list A :=
  match rows with
  | [] => [x]
  | y :: t => if leb x y then x :: y :: t else y :: insert_by leb x t
  end.

Fixpoint order_by {A} (leb : A -> A -> bool) (rows : list A) : list A :=
  match rows with
  | [] => []
  | x :: t => insert_by leb x (order_by leb t)
  end.

(** [ORDER BY col ASC] and [ORDER BY col DESC] on an integer column. *)
Definition asc {A} (col : A -> Z) (x y : A) : bool := col x <=? col y.
Definition desc {A} (col : A -> Z) (x y : A) : bool := col y <=? col x.

End Sql.

(* ================================================================== *)
(** * Schema: one module per table, fields named as the columns *)

Module User.
Record t := { username : string; email : string; password : string;
              bio : option string }.
End User.

Module Song.
Record t := { songTitle : string; artistName : string; albumTitle : string;
              duration : Z; plays : Z }.
End Song.

Module Artist.
Record t := { artistName : string }.
End Artist.

Module Album.
Record t := { albumTitle : string; artistName : string }.
End Album.

Module Genre.
Record t := { genreName : string }.
End Genre.

Module Classification.
Record t := { songTitle : string; artistName : string; albumTitle : string;
              genreName : string }.
End Classification.

Module Playlist.
Record t := { name : string; username : string; creationDate : Z }.
End Playlist.

Module UserLike.
Record t := { username : string; songTitle : string; artistName : string;
              albumTitle : string; likeDate : Z }.
End UserLike.

Module TopChart.
Record t := { chartName : string; chartDate : Z }.
End TopChart.

Module ChartEntry.
Record t := { chartName : string; chartDate : Z; songTitle : string;
              artistName : string; albumTitle : string }.
End ChartEntry.

(** The store [req.db]. *)
Module Db.
Record t := {
  tUser : list User.t;
  tSong : list Song.t;
  tArtist : list Artist.t;
  tAlbum : list Album.t;
  tGenre : list Genre.t;
  tClassification : list Classification.t;
  tPlaylist : list Playlist.t;
  tUserLike : list UserLike.t;
  tTopChart : list TopChart.t;
  tChartEntry : list ChartEntry.t
  }.

Definition empty : t :=
  {| tUser := []; tSong := []; tArtist := []; tAlbum := []; tGenre := [];
     tClassification := []; tPlaylist := []; tUserLike := [];
     tTopChart := []; tChartEntry := [] |}.

Definition with_UserLike (db : t) (rows : list UserLike.t) : t :=
  {| tUser := tUser db; tSong := tSong db; tArtist := tArtist db;
     tAlbum := tAlbum db; tGenre := tGenre db;
     tClassification := tClassification db; tPlaylist := tPlaylist db;
     tUserLike := rows;
     tTopChart := tTopChart db; tChartEntry := tChartEntry db |}.

Definition with_Playlist (db : t) (rows : list Playlist.t) : t :=
  {| tUser := tUser db; tSong := tSong db; tArtist := tArtist db;
     tAlbum := tAlbum db; tGenre := tGenre db;
     tClassification := tClassification db; tPlaylist := rows;
     tUserLike := tUserLike db;
     tTopChart := tTopChart db; tChartEntry := tChartEntry db |}.
End Db.

(* ================================================================== *)
(** * HTTP responses *)

Module Http.

(** [res.status(code).json(...)]: the body is either [{ message }] or the
    payload of the route. *)
Inductive body (A : Type) : Type :=
  | Message (message : string)
  | Json (payload : A).
Arguments Message {A} message.
Arguments Json {A} payload.

Record response (A : Type) : Type := { status : Z; content : body A }.
Arguments status {A} r.
Arguments content {A} r.

(** [res.status(code).json({ message })] *)
Definition send {A} (code : Z) (message : string) : response A :=
  {| status := code; content := Message message |}.

(** [res.json(payload)] *)
Definition ok {A} (payload : A) : response A :=
  {| status := 200; content := Json payload |}.

End Http.

(* ================================================================== *)
(** * Requests *)

(** [req.user], the [user] object of a verified token: [{ id, email }]. *)
Module Identity.
Record t := { id : string; email : string }.
End Identity.

(** [req.query] of [GET /api/search]. *)
Module Query.
(** [req.query] of the search route.  Each parameter is [undefined] (the
    key is absent) or a single string, which is what Express gives for a
    key written at most once and without brackets.  A repeated or
    bracketed key ([?sortOrder=a&sortOrder=b], [?sortOrder[x]=a]) gives an
    array or an object instead; for such a sortOrder the handler's call
    [sortOrder.toUpperCase()] is not a call of a function and throws
    before the statement is run and outside the handler's [try].  Those
    requests are not values of this record, and nothing below speaks of
    them. *)
Record t := { songTitle : option string; artistName : option string;
              albumTitle : option string; genreName : option string;
              sortOrder : option string; liked : option string }.

Definition none : t :=
  {| songTitle := None; artistName := None; albumTitle := None;
     genreName := None; sortOrder := None; liked := None |}.
End Query.

Module Request.
Record t := { x_auth_token : option string;   (* req.header('x-auth-token') *)
              user : option Identity.t;        (* req.user *)
              query : Query.t }.

Definition with_user (req : t) (u : option Identity.t) : t :=
  {| x_auth_token := x_auth_token req; user := u; query := query req |}.
End Request.

(** The song triple of a request body, [{ songTitle, artistName, albumTitle }]. *)
Module Triple.
Record t := { songTitle : option string; artistName : option string;
              albumTitle : option string }.

(** The body [{ songTitle: t, artistName: a, albumTitle: al }]. *)
Definition make (title artist album : string) : t :=
  {| songTitle := Some title; artistName := Some artist; albumTitle := Some album |}.
End Triple.

(** What [jwt.verify] returns: the payload, whose [user] may be absent. *)
Module Decoded.
Record t := { user : option Identity.t }.
End Decoded.

(* ================================================================== *)
(** * The routes of [server/routes/api.js] *)

Module Api.
Import Http.

(** Rows of the result sets. *)
Record SearchRow := { sr_songTitle : string; sr_artistName : string;
                      sr_albumTitle : string; sr_genreName : string;
                      sr_plays : Z; sr_duration : Z }.

Record SongRow := { so_songTitle : string; so_artistName : string;
                    so_albumTitle : string; so_duration : Z; so_plays : Z }.

Record RecRow := { rr_songTitle : string; rr_artistName : string;
                   rr_albumTitle : string; rr_duration : Z; rr_plays : Z;
                   rr_genreName : string; score : Z }.

Record PublicUser := { pu_username : string; pu_email : string;
                       pu_bio : option string }.

Record LoginOk := { token : string; lo_user : PublicUser; lo_message : string }.

Inductive direction := ASC | DESC.

(** The three key columns of a song, compared pairwise. *)
Definition same_triple (t1 a1 al1 t2 a2 al2 : string) : bool :=
  (String.eqb t1 t2 && String.eqb a1 a2 && String.eqb al1 al2)%bool.

Section Routes.

(** [text LIKE pattern] as the store evaluates it. *)
Variable sql_like : string -> string -> bool.
(** [bcrypt.compare(password, hash)] *)
Variable bcrypt_compare : string -> string -> bool.
(** [jwt.sign(payload, secret, { expiresIn })] *)
Variable jwt_sign : Identity.t -> string -> string -> string.
(** [jwt.verify(token, secret)]: the payload, or the message of the error
    it throws (bad signature, malformed or expired token). *)
Variable jwt_verify : string -> string -> string + Decoded.t.
(** [process.env.JWT_SECRET] *)
Variable JWT_SECRET : string.

(** ** authOptional *)

(** The console is the list of lines written with [console.error]; [next]
    is the rest of the route, run on the request as the middleware leaves it. *)
Definition authOptional {R : Type} (req : Request.t) (console : list string)
  (next : Request.t -> list string -> R) : R :=
  let token := Request.x_auth_token req in
  if negb (JS.truthy token) then next req console
  else
    match jwt_verify (JS.value token) JWT_SECRET with
    | inr decoded => next (Request.with_user req (Decoded.user decoded)) console
    | inl err_message =>
        next req (console ++ [("Invalid token: " ++ err_message)%string])
    end.

(** ** POST /api/login *)

Definition login (email password : option string) (db : Db.t) : response LoginOk :=
  if (negb (JS.truthy email) || negb (JS.truthy password))%bool then
    send 400 "Please provide email and password."
  else
    let users :=
      Sql.where_ (fun u => String.eqb (User.email u) (JS.value email)) (Db.tUser db) in
    match users with
    | [] => send 400 "Invalid email or password."
    | user :: _ =>
        let isMatch := bcrypt_compare (JS.value password) (User.password user) in
        if negb isMatch then send 400 "Invalid email or password."
        else
          let payload := {| Identity.id := User.username user;
                            Identity.email := User.email user |} in
          let token := jwt_sign payload JWT_SECRET "3h" in
          ok {| token := token;
                lo_user := {| pu_username := User.username user;
                              pu_email := User.email user;
                              pu_bio := User.bio user |};
                lo_message := "Login successful." |}
    end.

(** ** GET /api/search *)

(** The FROM clause: Song joined to Artist, Album, Classification, Genre. *)
Definition SearchFrom : Type :=
  Song.t * Artist.t * Album.t * Classification.t * Genre.t.

Definition search_from (db : Db.t) : list SearchFrom :=
  let j1 := Sql.join (fun s a => String.eqb (Song.artistName s) (Artist.artistName a))
                     (Db.tSong db) (Db.tArtist db) in
  let j2 := Sql.join (fun '(s, _) al =>
                        (String.eqb (Song.albumTitle s) (Album.albumTitle al)
                         && String.eqb (Song.artistName s) (Album.artistName al))%bool)
                     j1 (Db.tAlbum db) in
  let j3 := Sql.join (fun '(s, _, _) c =>
                        same_triple (Song.songTitle s) (Song.artistName s) (Song.albumTitle s)
                                    (Classification.songTitle c)
                                    (Classification.artistName c)
                                    (Classification.albumTitle c))
                     j2 (Db.tClassification db) in
  Sql.join (fun '(_, _, _, c) g =>
              String.eqb (Classification.genreName c) (Genre.genreName g))
           j3 (Db.tGenre db).

(** [if (v) { baseQuery += ' AND col LIKE ?'; params.push(`%${v}%`) }] *)
Definition like_filter (v : option string) (col : SearchFrom -> string)
  : list (SearchFrom -> bool) :=
  if JS.truthy v
  then [fun r => sql_like (col r) ("%" ++ JS.value v ++ "%")%string]
  else [].

(** [Song.songTitle IN (SELECT songTitle FROM UserLike WHERE username = ?)] *)
Definition liked_filter (db : Db.t) (username : string) (r : SearchFrom) : bool :=
  let '(s, _, _, _, _) := r in
  existsb (String.eqb (Song.songTitle s))
          (map UserLike.songTitle
               (Sql.where_ (fun ul => String.eqb (UserLike.username ul) username)
                           (Db.tUserLike db))).

Definition search_order (sortOrder : option string) : direction :=
  if (JS.truthy sortOrder
      && String.eqb (JS.toUpperCase (JS.value sortOrder)) "ASC")%bool
  then ASC else DESC.

Definition by_plays (order : direction) : SearchFrom -> SearchFrom -> bool :=
  let plays := fun r : SearchFrom => let '(s, _, _, _, _) := r in Song.plays s in
  match order with
  | ASC => Sql.asc plays
  | DESC => Sql.desc plays
  end.

Definition search_select (r : SearchFrom) : SearchRow :=
  let '(s, a, al, _, g) := r in
  {| sr_songTitle := Song.songTitle s; sr_artistName := Artist.artistName a;
     sr_albumTitle := Album.albumTitle al; sr_genreName := Genre.genreName g;
     sr_plays := Song.plays s; sr_duration := Song.duration s |}.

(** [req.user && req.user.id], the identity the liked filter needs. *)
Definition user_id (req : Request.t) : option string :=
  match Request.user req with
  | None => None
  | Some u => if JS.truthy (Some (Identity.id u)) then Some (Identity.id u) else None
  end.

Definition search (req : Request.t) (db : Db.t) : response (list SearchRow) :=
  let q := Request.query req in
  let conds :=
    like_filter (Query.songTitle q) (fun '(s, _, _, _, _) => Song.songTitle s)
    ++ like_filter (Query.artistName q) (fun '(_, a, _, _, _) => Artist.artistName a)
    ++ like_filter (Query.albumTitle q) (fun '(_, _, al, _, _) => Album.albumTitle al)
    ++ like_filter (Query.genreName q) (fun '(_, _, _, _, g) => Genre.genreName g) in
  let run (conds : list (SearchFrom -> bool)) : response (list SearchRow) :=
    let order := search_order (Query.sortOrder q) in
    let results :=
      Sql.order_by (by_plays order)
                   (Sql.where_ (fun r => forallb (fun c => c r) conds) (search_from db)) in
    ok (map search_select results) in
  if JS.strict_eq (Query.liked q) "true" then
    match user_id req with
    | None => send 401 "Authentication required to filter liked songs."
    | Some id => run (conds ++ [liked_filter db id])
    end
  else run conds.

(** [router.get('/search', authOptional, handler)] *)
Definition search_route (req : Request.t) (console : list string) (db : Db.t)
  : response (list SearchRow) * list string :=
  authOptional req console (fun req' console' => (search req' db, console')).

(** ** POST /api/playlists: [username] is [req.user.id], set by [auth];
    [now] is CURRENT_TIMESTAMP. *)

Definition create_playlist (username : string) (name : option string) (now : Z)
  (db : Db.t) : response unit * Db.t :=
  if negb (JS.truthy name) then
    (send 400 "Please provide a playlist name.", db)
  else
    let existingPlaylist :=
      Sql.where_ (fun p => (String.eqb (Playlist.name p) (JS.value name)
                            && String.eqb (Playlist.username p) username)%bool)
                 (Db.tPlaylist db) in
    if (0 <? Z.of_nat (List.length existingPlaylist)) then
      (send 400 "Playlist with this name already exists.", db)
    else
      let row := {| Playlist.name := JS.value name; Playlist.username := username;
                    Playlist.creationDate := now |} in
      (send 201 "Playlist created successfully.",
       Db.with_Playlist db (Db.tPlaylist db ++ [row])).

(** ** GET /api/top-charts *)

Definition top_charts (db : Db.t) : response (list string) :=
  ok (Sql.distinct String.eqb (map TopChart.chartName (Db.tTopChart db))).

(** ** GET /api/top-charts/:name/dates *)

Definition top_chart_dates (name : string) (db : Db.t) : response (list Z) :=
  let dates :=
    Sql.order_by (Sql.desc (fun d => d))
      (map TopChart.chartDate
           (Sql.where_ (fun c => String.eqb (TopChart.chartName c) name)
                       (Db.tTopChart db))) in
  if Nat.eqb (List.length dates) 0 then
    send 404 "Top chart not found or no dates available."
  else ok dates.

(** ** GET /api/top-charts/:name/:date/songs *)

Definition song_row (s : Song.t) : SongRow :=
  {| so_songTitle := Song.songTitle s; so_artistName := Song.artistName s;
     so_albumTitle := Song.albumTitle s; so_duration := Song.duration s;
     so_plays := Song.plays s |}.

Definition top_chart_songs (name : string) (date : Z) (db : Db.t)
  : response (list SongRow) :=
  let topChartRows :=
    Sql.where_ (fun c => (String.eqb (TopChart.chartName c) name
                          && Z.eqb (TopChart.chartDate c) date)%bool)
               (Db.tTopChart db) in
  if Nat.eqb (List.length topChartRows) 0 then
    send 404 "Top chart not found for the specified name and date."
  else
    let joined :=
      Sql.join (fun e s =>
                  same_triple (ChartEntry.songTitle e) (ChartEntry.artistName e)
                              (ChartEntry.albumTitle e)
                              (Song.songTitle s) (Song.artistName s) (Song.albumTitle s))
               (Db.tChartEntry db) (Db.tSong db) in
    let songs :=
      Sql.order_by (Sql.desc (fun '(_, s) => Song.plays s))
        (Sql.where_ (fun '(e, _) => (String.eqb (ChartEntry.chartName e) name
                                     && Z.eqb (ChartEntry.chartDate e) date)%bool)
                    joined) in
    ok (map (fun '(_, s) => song_row s) songs).

(** ** POST /api/likes and DELETE /api/likes *)

Definition triple_given (t : Triple.t) : bool :=
  (JS.truthy (Triple.songTitle t) && JS.truthy (Triple.artistName t)
   && JS.truthy (Triple.albumTitle t))%bool.

(** [WHERE username = ? AND songTitle = ? AND artistName = ? AND albumTitle = ?] *)
Definition like_matches (username : string) (t : Triple.t) (ul : UserLike.t) : bool :=
  (String.eqb (UserLike.username ul) username
   && String.eqb (UserLike.songTitle ul) (JS.value (Triple.songTitle t))
   && String.eqb (UserLike.artistName ul) (JS.value (Triple.artistName t))
   && String.eqb (UserLike.albumTitle ul) (JS.value (Triple.albumTitle t)))%bool.

(** [WHERE songTitle = ? AND artistName = ? AND albumTitle = ?] on Song. *)
Definition song_matches (t : Triple.t) (s : Song.t) : bool :=
  (String.eqb (Song.songTitle s) (JS.value (Triple.songTitle t))
   && String.eqb (Song.artistName s) (JS.value (Triple.artistName t))
   && String.eqb (Song.albumTitle s) (JS.value (Triple.albumTitle t)))%bool.

Definition like (username : string) (t : Triple.t) (now : Z) (db : Db.t)
  : response unit * Db.t :=
  if negb (triple_given t) then
    (send 400 "Please provide songTitle, artistName, and albumTitle.", db)
  else
    let songExists := Sql.where_ (song_matches t) (Db.tSong db) in
    if Nat.eqb (List.length songExists) 0 then (send 404 "Song not found.", db)
    else
      let alreadyLiked := Sql.where_ (like_matches username t) (Db.tUserLike db) in
      if (0 <? Z.of_nat (List.length alreadyLiked)) then
        (send 400 "Song is already liked.", db)
      else
        let row := {| UserLike.username := username;
                      UserLike.songTitle := JS.value (Triple.songTitle t);
                      UserLike.artistName := JS.value (Triple.artistName t);
                      UserLike.albumTitle := JS.value (Triple.albumTitle t);
                      UserLike.likeDate := now |} in
        (send 201 "Song liked successfully.",
         Db.with_UserLike db (Db.tUserLike db ++ [row])).

Definition unlike (username : string) (t : Triple.t) (db : Db.t)
  : response unit * Db.t :=
  if negb (triple_given t) then
    (send 400 "Please provide songTitle, artistName, and albumTitle.", db)
  else
    let likedSong := Sql.where_ (like_matches username t) (Db.tUserLike db) in
    if Nat.eqb (List.length likedSong) 0 then
      (send 404 "Song is not in your liked songs.", db)
    else
      (* DELETE FROM UserLike WHERE ... keeps the rows the condition rejects. *)
      (send 200 "Song unliked successfully.",
       Db.with_UserLike db
         (Sql.where_ (fun ul => negb (like_matches username t ul)) (Db.tUserLike db))).

(** ** GET /api/recommendations *)

(** [FROM UserLike WHERE username = ?] *)
Definition likes_of (username : string) (db : Db.t) : list UserLike.t :=
  Sql.where_ (fun ul => String.eqb (UserLike.username ul) username) (Db.tUserLike db).

(** Subquery [a]: [SELECT DISTINCT artistName FROM UserLike WHERE username = ?] *)
Definition liked_artists (username : string) (db : Db.t) : list string :=
  Sql.distinct String.eqb (map UserLike.artistName (likes_of username db)).

(** Subquery [al]: [SELECT DISTINCT albumTitle FROM UserLike WHERE username = ?] *)
Definition liked_albums (username : string) (db : Db.t) : list string :=
  Sql.distinct String.eqb (map UserLike.albumTitle (likes_of username db)).

(** Subquery [g]: the distinct genres of the Classification rows of the
    caller's likes. *)
Definition liked_genres (username : string) (db : Db.t) : list string :=
  Sql.distinct String.eqb
    (map (fun '(_, c2) => Classification.genreName c2)
         (Sql.where_ (fun '(ul, _) => String.eqb (UserLike.username ul) username)
            (Sql.join (fun ul c2 =>
                         same_triple (UserLike.songTitle ul) (UserLike.artistName ul)
                                     (UserLike.albumTitle ul)
                                     (Classification.songTitle c2)
                                     (Classification.artistName c2)
                                     (Classification.albumTitle c2))
                      (Db.tUserLike db) (Db.tClassification db)))).

(** A row of the FROM clause: [s], [c], and the columns [a.artistName],
    [al.albumTitle], [g.genreName] of the three left joins. *)
Definition RecFrom : Type :=
  Song.t * Classification.t * option string * option string * option string.

Definition rec_from (username : string) (db : Db.t) : list RecFrom :=
  let sc := Sql.join (fun s c =>
                        same_triple (Song.songTitle s) (Song.artistName s) (Song.albumTitle s)
                                    (Classification.songTitle c)
                                    (Classification.artistName c)
                                    (Classification.albumTitle c))
                     (Db.tSong db) (Db.tClassification db) in
  let j1 := Sql.left_join (fun '(s, _) a => String.eqb (Song.artistName s) a)
                          sc (liked_artists username db) in
  let j2 := Sql.left_join (fun '(s, _, _) al => String.eqb (Song.albumTitle s) al)
                          j1 (liked_albums username db) in
  Sql.left_join (fun '(_, c, _, _) g => String.eqb (Classification.genreName c) g)
                j2 (liked_genres username db).

(** [NOT EXISTS (SELECT 1 FROM UserLike ul2 WHERE ul2.username = ? AND ...)] *)
Definition not_liked (username : string) (db : Db.t) (r : RecFrom) : bool :=
  let '(s, _, _, _, _) := r in
  negb (existsb (fun ul2 =>
                   (String.eqb (UserLike.username ul2) username
                    && String.eqb (UserLike.songTitle ul2) (Song.songTitle s)
                    && String.eqb (UserLike.artistName ul2) (Song.artistName s)
                    && String.eqb (UserLike.albumTitle ul2) (Song.albumTitle s))%bool)
                (Db.tUserLike db)).

(** The GROUP BY columns. *)
Definition RecKey : Type := string * string * string * Z * Z * string.

Definition rec_key (r : RecFrom) : RecKey :=
  let '(s, c, _, _, _) := r in
  (Song.songTitle s, Song.artistName s, Song.albumTitle s, Song.duration s,
   Song.plays s, Classification.genreName c).

Definition rec_key_eqb (k1 k2 : RecKey) : bool :=
  let '(t1, a1, al1, d1, p1, g1) := k1 in
  let '(t2, a2, al2, d2, p2, g2) := k2 in
  (String.eqb t1 t2 && String.eqb a1 a2 && String.eqb al1 al2
   && Z.eqb d1 d2 && Z.eqb p1 p2 && String.eqb g1 g2)%bool.

Definition col_a (r : RecFrom) : option string := let '(_, _, a, _, _) := r in a.
Definition col_al (r : RecFrom) : option string := let '(_, _, _, al, _) := r in al.
Definition col_g (r : RecFrom) : option string := let '(_, _, _, _, g) := r in g.

(** The score expression over the rows of one group. *)
Definition rec_score (group : list RecFrom) : Z :=
  3 * Sql.count_distinct String.eqb (map col_a group)
  + 2 * Sql.count_distinct String.eqb (map col_al group)
  + 1 * Sql.count_distinct String.eqb (map col_g group).

Definition rec_select (kg : RecKey * list RecFrom) : RecRow :=
  let '((t, a, al, d, p, g), group) := kg in
  {| rr_songTitle := t; rr_artistName := a; rr_albumTitle := al;
     rr_duration := d; rr_plays := p; rr_genreName := g;
     score := rec_score group |}.

(** [ORDER BY score DESC, s.plays DESC] *)
Definition rec_order (r1 r2 : RecRow) : bool :=
  ((score r2 <? score r1)
   || (Z.eqb (score r1) (score r2) && (rr_plays r2 <=? rr_plays r1)))%bool.

(** FROM and WHERE, then GROUP BY. *)
Definition rec_groups (username : string) (db : Db.t) : list (RecKey * list RecFrom) :=
  let kept := Sql.where_ (not_liked username db) (rec_from username db) in
  Sql.group_by rec_key rec_key_eqb kept.

(** HAVING, SELECT and ORDER BY. *)
Definition recommendation_rows (username : string) (db : Db.t) : list RecRow :=
  let having :=
    Sql.where_ (fun '(_, group) => 0 <? rec_score group) (rec_groups username db) in
  Sql.order_by rec_order (map rec_select having).

Definition recommendations (username : string) (db : Db.t) : response (list RecRow) :=
  ok (recommendation_rows username db).

End Routes.
End Api.

(* ================================================================== *)
(** * Predicates on the store, used to state the theorems *)

Module Store.

(** The user has a playlist of that name. *)
Definition owns (db : Db.t) (username name : string) : Prop :=
  exists p, In p (Db.tPlaylist db)
            /\ Playlist.name p = name /\ Playlist.username p = username.

(** The catalog has a song with that triple. *)
Definition in_catalog (db : Db.t) (t a al : string) : Prop :=
  exists s, In s (Db.tSong db)
            /\ Song.songTitle s = t /\ Song.artistName s = a
            /\ Song.albumTitle s = al.

(** The row is the like of that song by that user. *)
Definition is_like (username t a al : string) (ul : UserLike.t) : Prop :=
  UserLike.username ul = username /\ UserLike.songTitle ul = t
  /\ UserLike.artistName ul = a /\ UserLike.albumTitle ul = al.

(** A body field that is missing ([undefined]) or the empty string. *)
Definition blank (field : option string) : Prop :=
  field = None \/ field = Some EmptyString.

(** The (user, song) pair is in UserLike. *)
Definition likes (db : Db.t) (username t a al : string) : Prop :=
  exists ul, In ul (Db.tUserLike db) /\ is_like username t a al ul.

(** Search rows ordered by play count. *)
Definition ascending (rows : list Api.SearchRow) : Prop :=
  StronglySorted (fun r1 r2 => Api.sr_plays r1 <= Api.sr_plays r2) rows.

Definition descending (rows : list Api.SearchRow) : Prop :=
  StronglySorted (fun r1 r2 => Api.sr_plays r1 >= Api.sr_plays r2) rows.

(** The number of entries of a list of liked names that a name matches. *)
Definition matches (x : string) (liked : list string) : Z :=
  Z.of_nat (List.length (filter (String.eqb x) liked)).

(** What a left join on string equality puts in the joined column. *)
Definition joined (x : string) (liked : list string) : option string :=
  if existsb (String.eqb x) liked then Some x else None.


End Store.

(* ================================================================== *)
(** * Sample stores and stand-ins for the library calls *)

Module Fixtures.
Local Open Scope string_scope.

(** A store with one account, and a stand-in for the hash comparison. *)
Definition alice : User.t :=
  {| User.username := "alice"; User.email := "alice@example.org";
     User.password := "hash-of-secret"; User.bio := None |}.

Definition one_user : Db.t :=
  {| Db.tUser := [alice]; Db.tSong := []; Db.tArtist := []; Db.tAlbum := [];
     Db.tGenre := []; Db.tClassification := []; Db.tPlaylist := [];
     Db.tUserLike := []; Db.tTopChart := []; Db.tChartEntry := [] |}.

Definition sample_compare (password hash : string) : bool :=
  String.eqb ("hash-of-" ++ password) hash.

Definition sample_sign (payload : Identity.t) (secret expiresIn : string) : string :=
  Identity.id payload ++ "." ++ secret ++ "." ++ expiresIn.

(** A stand-in for [LIKE] on the patterns the search builds, [%v%]: the
    text contains [v] (compared byte by byte). *)
Fixpoint contains (v text : string) : bool :=
  (String.prefix v text
   || match text with
      | EmptyString => false
      | String _ rest => contains v rest
      end)%bool.

Definition sample_like (text pattern : string) : bool :=
  contains (String.substring 1 (String.length pattern - 2) pattern) text.

(** A stand-in for [jwt.verify]: the tokens are [good:<username>]. *)
Definition sample_verify (token secret : string) : string + Decoded.t :=
  if String.prefix "good:" token
  then inr {| Decoded.user :=
                Some {| Identity.id := String.substring 5 (String.length token - 5) token;
                        Identity.email := "" |} |}
  else inl "jwt malformed".

(** A catalog with two songs of the same title, by different artists. *)
Definition hello_adele : Song.t :=
  {| Song.songTitle := "Hello"; Song.artistName := "Adele";
     Song.albumTitle := "25"; Song.duration := 295; Song.plays := 900 |}.

Definition hello_richie : Song.t :=
  {| Song.songTitle := "Hello"; Song.artistName := "Lionel Richie";
     Song.albumTitle := "Cant Slow Down"; Song.duration := 250; Song.plays := 400 |}.

Definition classified (s : Song.t) (genre : string) : Classification.t :=
  {| Classification.songTitle := Song.songTitle s;
     Classification.artistName := Song.artistName s;
     Classification.albumTitle := Song.albumTitle s;
     Classification.genreName := genre |}.

Definition album_of (s : Song.t) : Album.t :=
  {| Album.albumTitle := Song.albumTitle s; Album.artistName := Song.artistName s |}.

Definition artist_of (s : Song.t) : Artist.t :=
  {| Artist.artistName := Song.artistName s |}.

Definition like_of (username : string) (s : Song.t) (date : Z) : UserLike.t :=
  {| UserLike.username := username; UserLike.songTitle := Song.songTitle s;
     UserLike.artistName := Song.artistName s;
     UserLike.albumTitle := Song.albumTitle s; UserLike.likeDate := date |}.

Definition catalog : Db.t :=
  {| Db.tUser := [alice];
     Db.tSong := [hello_adele; hello_richie];
     Db.tArtist := [artist_of hello_adele; artist_of hello_richie];
     Db.tAlbum := [album_of hello_adele; album_of hello_richie];
     Db.tGenre := [{| Genre.genreName := "Pop" |}; {| Genre.genreName := "Soul" |}];
     Db.tClassification := [classified hello_adele "Pop"; classified hello_richie "Soul"];
     Db.tPlaylist := []; Db.tUserLike := [];
     Db.tTopChart := []; Db.tChartEntry := [] |}.

(** A store whose only song has its artist and album but no Classification row. *)
Definition unclassified : Db.t :=
  {| Db.tUser := []; Db.tSong := [hello_adele];
     Db.tArtist := [artist_of hello_adele]; Db.tAlbum := [album_of hello_adele];
     Db.tGenre := [{| Genre.genreName := "Pop" |}]; Db.tClassification := [];
     Db.tPlaylist := []; Db.tUserLike := [];
     Db.tTopChart := []; Db.tChartEntry := [] |}.

(** The same catalog once alice has liked Adele's song only. *)
Definition catalog_liked : Db.t :=
  Db.with_UserLike catalog [like_of "alice" hello_adele 7].

(** The store of the recommendation scenario: user A likes two songs by
    artist X and one song from album Y by artist Z. *)
Definition song (t a al : string) (plays : Z) : Song.t :=
  {| Song.songTitle := t; Song.artistName := a; Song.albumTitle := al;
     Song.duration := 180; Song.plays := plays |}.

Definition first := song "First" "X" "One" 10.
Definition second := song "Second" "X" "Two" 20.
Definition other := song "Other" "Z" "Y" 30.
Definition third := song "Third" "X" "Three" 40.
Definition fourth := song "Fourth" "X" "One" 50.
Definition fifth := song "Fifth" "W" "Y" 60.
Definition sixth := song "Sixth" "V" "Solo" 70.
Definition seventh := song "Seventh" "N" "Nil" 80.

Definition overlap : Db.t :=
  {| Db.tUser := [];
     Db.tSong := [first; second; other; third; fourth; fifth; sixth; seventh];
     Db.tArtist := []; Db.tAlbum := []; Db.tGenre := [];
     Db.tClassification :=
       [classified first "Rock"; classified second "Pop"; classified other "Folk";
        classified third "Jazz"; classified fourth "Jazz"; classified fifth "Blues";
        classified sixth "Folk"; classified seventh "Metal"];
     Db.tPlaylist := [];
     Db.tUserLike := [like_of "A" first 1; like_of "A" second 2; like_of "A" other 3];
     Db.tTopChart := []; Db.tChartEntry := [] |}.

(** Two charts: Weekly on days 10 and 17, Monthly on day 1. *)
Definition chart (name : string) (date : Z) : TopChart.t :=
  {| TopChart.chartName := name; TopChart.chartDate := date |}.

Definition entry (name : string) (date : Z) (s : Song.t) : ChartEntry.t :=
  {| ChartEntry.chartName := name; ChartEntry.chartDate := date;
     ChartEntry.songTitle := Song.songTitle s;
     ChartEntry.artistName := Song.artistName s;
     ChartEntry.albumTitle := Song.albumTitle s |}.

Definition charts : Db.t :=
  {| Db.tUser := []; Db.tSong := [hello_richie; hello_adele];
     Db.tArtist := []; Db.tAlbum := []; Db.tGenre := []; Db.tClassification := [];
     Db.tPlaylist := []; Db.tUserLike := [];
     Db.tTopChart := [chart "Weekly" 10; chart "Monthly" 1; chart "Weekly" 17];
     Db.tChartEntry := [entry "Weekly" 17 hello_richie; entry "Weekly" 17 hello_adele;
                        entry "Weekly" 10 hello_richie] |}.

(** Requests to [GET /api/search]. *)
Definition anonymous (q : Query.t) : Request.t :=
  {| Request.x_auth_token := None; Request.user := None; Request.query := q |}.

Definition with_token (token : string) (q : Query.t) : Request.t :=
  {| Request.x_auth_token := Some token; Request.user := None; Request.query := q |}.

Definition sorted_by (sortOrder : string) : Query.t :=
  {| Query.songTitle := None; Query.artistName := None; Query.albumTitle := None;
     Query.genreName := None; Query.sortOrder := Some sortOrder;
     Query.liked := None |}.

Definition by_artist (artistName : string) : Query.t :=
  {| Query.songTitle := None; Query.artistName := Some artistName;
     Query.albumTitle := None; Query.genreName := None; Query.sortOrder := None;
     Query.liked := None |}.

Definition liked_only : Query.t :=
  {| Query.songTitle := None; Query.artistName := None; Query.albumTitle := None;
     Query.genreName := None; Query.sortOrder := None;
     Query.liked := Some "true" |}.

End Fixtures.

(* ================================================================== *)
(** * The remaining tables and routes of [server/routes/api.js] *)

Module Inclusion.
Record t := { name : string; username : string; songTitle : string;
              artistName : string; albumTitle : string }.
End Inclusion.

(** The store together with its Inclusion table. *)
Module Tables.
Record t := { base : Db.t; tInclusion : list Inclusion.t }.

Definition with_base (tb : t) (db : Db.t) : t :=
  {| base := db; tInclusion := tInclusion tb |}.

Definition with_Inclusion (tb : t) (rows : list Inclusion.t) : t :=
  {| base := base tb; tInclusion := rows |}.
End Tables.

Module DbUpdate.
Definition with_User (db : Db.t) (rows : list User.t) : Db.t :=
  {| Db.tUser := rows; Db.tSong := Db.tSong db; Db.tArtist := Db.tArtist db;
     Db.tAlbum := Db.tAlbum db; Db.tGenre := Db.tGenre db;
     Db.tClassification := Db.tClassification db;
     Db.tPlaylist := Db.tPlaylist db; Db.tUserLike := Db.tUserLike db;
     Db.tTopChart := Db.tTopChart db; Db.tChartEntry := Db.tChartEntry db |}.

(** [UPDATE table SET ... WHERE p]: the rows [p] selects are rewritten in
    place, the others are kept. *)
Definition update {A} (p : A -> bool) (set : A -> A) (rows : list A) : list A :=
  map (fun r => if p r then set r else r) rows.

(** [DELETE FROM table WHERE p] *)
Definition delete {A} (p : A -> bool) (rows : list A) : list A :=
  Sql.where_ (fun r => negb (p r)) rows.
End DbUpdate.

(** ** Accounts: register, profile, bio, password, account deletion *)

Module Account.
Import Http Api.

Record PublicProfile := { pp_username : string; pp_bio : option string }.

Definition set_bio (bio : option string) (u : User.t) : User.t :=
  {| User.username := User.username u; User.email := User.email u;
     User.password := User.password u; User.bio := bio |}.

Definition set_password (hash : string) (u : User.t) : User.t :=
  {| User.username := User.username u; User.email := User.email u;
     User.password := hash; User.bio := User.bio u |}.

Section Routes.

(** [bcrypt.compare(password, hash)] *)
Variable bcrypt_compare : string -> string -> bool.
(** [bcrypt.hash(password, saltRounds)]; the third argument is the salt
    the library draws. *)
Variable bcrypt_hash : string -> Z -> string -> string.

(** POST /api/register *)
Definition register (username email password bio : option string) (salt : string)
  (db : Db.t) : response unit * Db.t :=
  if (negb (JS.truthy username) || negb (JS.truthy email)
      || negb (JS.truthy password))%bool then
    (send 400 "Please provide username, email, and password.", db)
  else
    let existingUsername :=
      Sql.where_ (fun u => String.eqb (User.username u) (JS.value username))
                 (Db.tUser db) in
    if (0 <? Z.of_nat (List.length existingUsername)) then
      (send 400 "Username already taken. Please choose another one.", db)
    else
      let existingEmail :=
        Sql.where_ (fun u => String.eqb (User.email u) (JS.value email))
                   (Db.tUser db) in
      if (0 <? Z.of_nat (List.length existingEmail)) then
        (send 400 "Email already registered. Please use a different email.", db)
      else
        let saltRounds := 10 in
        let hashedPassword := bcrypt_hash (JS.value password) saltRounds salt in
        let row := {| User.username := JS.value username;
                      User.email := JS.value email;
                      User.password := hashedPassword;
                      (* bio || null *)
                      User.bio := if JS.truthy bio then bio else None |} in
        (send 201 "User registered successfully. You can now log in.",
         DbUpdate.with_User db (Db.tUser db ++ [row])).

(** GET /api/profile *)
Definition get_profile (username : string) (db : Db.t) : response PublicUser :=
  let users :=
    Sql.where_ (fun u => String.eqb (User.username u) username) (Db.tUser db) in
  match users with
  | [] => send 404 "User not found."
  | user :: _ =>
      ok {| pu_username := User.username user; pu_email := User.email user;
            pu_bio := User.bio user |}
  end.

(** PUT /api/profile/bio *)
Definition update_bio (username : string) (bio : option string) (db : Db.t)
  : response unit * Db.t :=
  (send 200 "Bio updated successfully.",
   DbUpdate.with_User db
     (DbUpdate.update (fun u => String.eqb (User.username u) username)
                      (set_bio bio) (Db.tUser db))).

(** PUT /api/profile/password *)
Definition change_password (username : string)
  (currentPassword newPassword confirmNewPassword : option string)
  (salt : string) (db : Db.t) : response unit * Db.t :=
  if (negb (JS.truthy currentPassword) || negb (JS.truthy newPassword)
      || negb (JS.truthy confirmNewPassword))%bool then
    (send 400 "Please provide all required fields.", db)
  else if negb (String.eqb (JS.value newPassword) (JS.value confirmNewPassword)) then
    (send 400 "New passwords do not match.", db)
  else
    let users :=
      Sql.where_ (fun u => String.eqb (User.username u) username) (Db.tUser db) in
    match users with
    | [] => (send 404 "User not found.", db)
    | user :: _ =>
        let isMatch := bcrypt_compare (JS.value currentPassword) (User.password user) in
        if negb isMatch then (send 400 "Current password is incorrect.", db)
        else
          let saltRounds := 10 in
          let hashedNewPassword := bcrypt_hash (JS.value newPassword) saltRounds salt in
          (send 200
             "Password updated successfully. Please log in with your new password.",
           DbUpdate.with_User db
             (DbUpdate.update (fun u => String.eqb (User.username u) username)
                              (set_password hashedNewPassword) (Db.tUser db)))
    end.

(** DELETE /api/profile.  The result is the User table after the
    statement; what the schema attaches to the deletion in other tables is
    not in the source. *)
Definition delete_profile (username : string) (db : Db.t)
  : response unit * list User.t :=
  (send 200 "Your account has been deleted successfully.",
   DbUpdate.delete (fun u => String.eqb (User.username u) username) (Db.tUser db)).

(** GET /api/users/:username/profile *)
Definition public_profile (username : string) (db : Db.t) : response PublicProfile :=
  let users :=
    Sql.where_ (fun u => String.eqb (User.username u) username) (Db.tUser db) in
  match users with
  | [] => send 404 "User not found."
  | user :: _ => ok {| pp_username := User.username user; pp_bio := User.bio user |}
  end.

End Routes.
End Account.

(** ** Playlists: listing, deletion, songs of a playlist *)

Module Playlists.
Import Http Api.

Record PlaylistRow := { pl_name : string; pl_creationDate : Z }.

(** [WHERE name = ? AND username = ?] on Playlist. *)
Definition playlist_matches (name username : string) (p : Playlist.t) : bool :=
  (String.eqb (Playlist.name p) name && String.eqb (Playlist.username p) username)%bool.

(** [WHERE name = ? AND username = ?] on Inclusion. *)
Definition in_playlist (name username : string) (i : Inclusion.t) : bool :=
  (String.eqb (Inclusion.name i) name && String.eqb (Inclusion.username i) username)%bool.

(** [WHERE name = ? AND username = ? AND songTitle = ? AND artistName = ?
    AND albumTitle = ?] on Inclusion. *)
Definition inclusion_matches (name username : string) (t : Triple.t)
  (i : Inclusion.t) : bool :=
  (String.eqb (Inclusion.name i) name && String.eqb (Inclusion.username i) username
   && String.eqb (Inclusion.songTitle i) (JS.value (Triple.songTitle t))
   && String.eqb (Inclusion.artistName i) (JS.value (Triple.artistName t))
   && String.eqb (Inclusion.albumTitle i) (JS.value (Triple.albumTitle t)))%bool.

(** GET /api/playlists.  The SELECT has no ORDER BY, so the order of the
    rows in the answer is whatever the storage gives; the order of the
    list below stands for it and carries no meaning of its own. *)
Definition my_playlists (username : string) (db : Db.t) : response (list PlaylistRow) :=
  ok (map (fun p => {| pl_name := Playlist.name p;
                       pl_creationDate := Playlist.creationDate p |})
          (Sql.where_ (fun p => String.eqb (Playlist.username p) username)
                      (Db.tPlaylist db))).

(** GET /api/playlists/all.  No ORDER BY either: the rows of Playlist in
    the order the storage gives them. *)
Definition all_playlists (db : Db.t) : response (list Playlist.t) :=
  ok (Db.tPlaylist db).

(** DELETE /api/playlists/:name.  The source notes that the inclusions of
    the playlist are deleted with it, by ON DELETE CASCADE. *)
Definition delete_playlist (username name : string) (tb : Tables.t)
  : response unit * Tables.t :=
  let db := Tables.base tb in
  let playlist := Sql.where_ (playlist_matches name username) (Db.tPlaylist db) in
  if Nat.eqb (List.length playlist) 0 then (send 404 "Playlist not found.", tb)
  else
    (send 200 "Playlist deleted successfully.",
     {| Tables.base :=
          Db.with_Playlist db
            (DbUpdate.delete (playlist_matches name username) (Db.tPlaylist db));
        Tables.tInclusion :=
          DbUpdate.delete (in_playlist name username) (Tables.tInclusion tb) |}).

(** POST /api/playlists/:name/songs *)
Definition add_song (username name : string) (t : Triple.t) (tb : Tables.t)
  : response unit * Tables.t :=
  if negb (triple_given t) then
    (send 400 "Please provide songTitle, artistName, and albumTitle.", tb)
  else
    let db := Tables.base tb in
    let playlist := Sql.where_ (playlist_matches name username) (Db.tPlaylist db) in
    if Nat.eqb (List.length playlist) 0 then (send 404 "Playlist not found.", tb)
    else
      let song := Sql.where_ (song_matches t) (Db.tSong db) in
      if Nat.eqb (List.length song) 0 then (send 404 "Song not found.", tb)
      else
        let existingInclusion :=
          Sql.where_ (inclusion_matches name username t) (Tables.tInclusion tb) in
        if (0 <? Z.of_nat (List.length existingInclusion)) then
          (send 400 "Song is already in the playlist.", tb)
        else
          let row := {| Inclusion.name := name; Inclusion.username := username;
                        Inclusion.songTitle := JS.value (Triple.songTitle t);
                        Inclusion.artistName := JS.value (Triple.artistName t);
                        Inclusion.albumTitle := JS.value (Triple.albumTitle t) |} in
          (send 201 "Song added to playlist successfully.",
           Tables.with_Inclusion tb (Tables.tInclusion tb ++ [row])).

(** DELETE /api/playlists/:name/songs *)
Definition remove_song (username name : string) (t : Triple.t) (tb : Tables.t)
  : response unit * Tables.t :=
  if negb (triple_given t) then
    (send 400 "Please provide songTitle, artistName, and albumTitle.", tb)
  else
    let db := Tables.base tb in
    let playlist := Sql.where_ (playlist_matches name username) (Db.tPlaylist db) in
    if Nat.eqb (List.length playlist) 0 then (send 404 "Playlist not found.", tb)
    else
      let inclusion :=
        Sql.where_ (inclusion_matches name username t) (Tables.tInclusion tb) in
      if Nat.eqb (List.length inclusion) 0 then
        (send 404 "Song not found in the playlist.", tb)
      else
        (send 200 "Song removed from playlist successfully.",
         Tables.with_Inclusion tb
           (DbUpdate.delete (inclusion_matches name username t) (Tables.tInclusion tb))).

(** The second statement of both song listings. *)
Definition songs_of_playlist (username name : string) (tb : Tables.t) : list SongRow :=
  map (fun '(_, s) => song_row s)
      (Sql.where_ (fun '(i, _) => in_playlist name username i)
         (Sql.join (fun i s =>
                      same_triple (Inclusion.songTitle i) (Inclusion.artistName i)
                                  (Inclusion.albumTitle i)
                                  (Song.songTitle s) (Song.artistName s)
                                  (Song.albumTitle s))
                   (Tables.tInclusion tb) (Db.tSong (Tables.base tb)))).

(** GET /api/playlists/:name/songs, for the authenticated owner. *)
Definition playlist_songs (username name : string) (tb : Tables.t)
  : response (list SongRow) :=
  let playlist :=
    Sql.where_ (playlist_matches name username) (Db.tPlaylist (Tables.base tb)) in
  if Nat.eqb (List.length playlist) 0 then send 404 "Playlist not found."
  else ok (songs_of_playlist username name tb).

(** GET /api/playlists/:username/:name/songs, public. *)
Definition public_playlist_songs (username name : string) (tb : Tables.t)
  : response (list SongRow) :=
  let playlist :=
    Sql.where_ (playlist_matches name username) (Db.tPlaylist (Tables.base tb)) in
  if Nat.eqb (List.length playlist) 0 then send 404 "Playlist not found."
  else ok (songs_of_playlist username name tb).

(** POST /api/playlists on the store with its Inclusion table. *)
Definition create (username : string) (name : option string) (now : Z) (tb : Tables.t)
  : response unit * Tables.t :=
  let '(r, db) := create_playlist username name now (Tables.base tb) in
  (r, Tables.with_base tb db).

End Playlists.

(** ** GET /api/likes *)

Module Likes.
Import Http Api.

Definition liked_songs (username : string) (db : Db.t) : response (list SongRow) :=
  ok (map (fun '(_, s) => song_row s)
          (Sql.where_ (fun '(ul, _) => String.eqb (UserLike.username ul) username)
             (Sql.join (fun ul s =>
                          same_triple (UserLike.songTitle ul) (UserLike.artistName ul)
                                      (UserLike.albumTitle ul)
                                      (Song.songTitle s) (Song.artistName s)
                                      (Song.albumTitle s))
                       (Db.tUserLike db) (Db.tSong db)))).

End Likes.

(* ================================================================== *)
(** * Well-formed stores *)

Module Inv.
Import Store.

(** Some account has that username, or that email. *)
Definition has_username (db : Db.t) (u : string) : Prop :=
  exists x, In x (Db.tUser db) /\ User.username x = u.

Definition has_email (db : Db.t) (e : string) : Prop :=
  exists x, In x (Db.tUser db) /\ User.email x = e.

(** User rows have non-empty, pairwise different usernames and emails. *)
Definition users_sound (users : list User.t) : Prop :=
  NoDup (map User.username users) /\ NoDup (map User.email users)
  /\ forall u, In u users -> User.username u <> EmptyString /\ User.email u <> EmptyString.

Definition like_key (ul : UserLike.t) : string * string * string * string :=
  (UserLike.username ul, UserLike.songTitle ul, UserLike.artistName ul,
   UserLike.albumTitle ul).

(** No pair (user, song) is liked twice, and every like is of a catalog song. *)
Definition likes_sound (db : Db.t) : Prop :=
  NoDup (map like_key (Db.tUserLike db))
  /\ forall ul, In ul (Db.tUserLike db) ->
                in_catalog db (UserLike.songTitle ul) (UserLike.artistName ul)
                           (UserLike.albumTitle ul).

Definition playlist_key (p : Playlist.t) : string * string :=
  (Playlist.name p, Playlist.username p).

Definition inclusion_key (i : Inclusion.t)
  : string * string * string * string * string :=
  (Inclusion.name i, Inclusion.username i, Inclusion.songTitle i,
   Inclusion.artistName i, Inclusion.albumTitle i).

(** No playlist and no inclusion is stored twice, and every inclusion is of
    a catalog song in a stored playlist. *)
Definition playlists_sound (tb : Tables.t) : Prop :=
  NoDup (map playlist_key (Db.tPlaylist (Tables.base tb)))
  /\ NoDup (map inclusion_key (Tables.tInclusion tb))
  /\ forall i, In i (Tables.tInclusion tb) ->
               owns (Tables.base tb) (Inclusion.username i) (Inclusion.name i)
               /\ in_catalog (Tables.base tb) (Inclusion.songTitle i)
                             (Inclusion.artistName i) (Inclusion.albumTitle i).

(** Two values of a request parameter that the handlers cannot tell apart:
    equal, or both absent or empty. *)
Definition same_parameter (v v' : option string) : Prop :=
  v = v' \/ (JS.truthy v = false /\ JS.truthy v' = false).

(** The playlist holds the song. *)
Definition included (tb : Tables.t) (username name t a al : string) : Prop :=
  exists i, In i (Tables.tInclusion tb)
            /\ inclusion_key i = (name, username, t, a, al).

End Inv.

(* ================================================================== *)
(** * More sample stores and stand-ins *)

Module Samples.
Import Fixtures.
Local Open Scope string_scope.

(** A stand-in for [bcrypt.hash] that [Fixtures.sample_compare] accepts. *)
Definition sample_hash (password : string) (saltRounds : Z) (salt : string) : string :=
  "hash-of-" ++ password.

(** Stand-ins for [jwt.sign] and [jwt.verify]: the token is the id and
    the email around a colon. *)
Definition pair_sign (payload : Identity.t) (secret expiresIn : string) : string :=
  Identity.id payload ++ ":" ++ Identity.email payload.

Definition pair_verify (token secret : string) : string + Decoded.t :=
  match String.index 0 ":" token with
  | Some n =>
      inr {| Decoded.user :=
               Some {| Identity.id := String.substring 0 n token;
                       Identity.email :=
                         String.substring (S n) (String.length token - S n) token |} |}
  | None => inl "jwt malformed"
  end.

(** A search request as the handler sees it once [authOptional] has
    attached the identity. *)
Definition signed_in (username : string) (q : Query.t) : Request.t :=
  {| Request.x_auth_token := Some (username ++ ":alice@example.org");
     Request.user := Some {| Identity.id := username;
                             Identity.email := "alice@example.org" |};
     Request.query := q |}.

(** The query [?artistName=dele&songTitle=&sortOrder=]. *)
Definition by_artist_blanks : Query.t :=
  {| Query.songTitle := Some ""; Query.artistName := Some "dele";
     Query.albumTitle := None; Query.genreName := None;
     Query.sortOrder := Some ""; Query.liked := None |}.

Definition road_trip : Playlist.t :=
  {| Playlist.name := "Road trip"; Playlist.username := "alice";
     Playlist.creationDate := 7 |}.

Definition with_road_trip : Db.t := Db.with_Playlist catalog [road_trip].

Definition shelf : Tables.t :=
  {| Tables.base := with_road_trip; Tables.tInclusion := [] |}.

Definition bare : Tables.t :=
  {| Tables.base := catalog; Tables.tInclusion := [] |}.



End Samples.

(* ================================================================== *)
(** * Facts about the relational operators *)

Module SqlFacts.
Import Sql.

Section Membership.
Context {A B : Type}.

Lemma in_where (p : A -> bool) (rows : list A) (x : A) :
  In x (where_ p rows) <-> In x rows /\ p x = true.
Proof. unfold where_. apply filter_In. Qed.

Lemma where_nil (p : A -> bool) (rows : list A) :
  where_ p rows = [] <-> forall x, In x rows -> p x = false.
Proof.
  unfold where_. induction rows as [|y t IH]; simpl.
  - split; [intros _ x []|reflexivity].
  - destruct (p y) eqn:E; split.
    + discriminate.
    + intros H. rewrite (H y (or_introl eq_refl)) in E. discriminate.
    + intros H x [<-|Hx]; [assumption|]. apply IH; assumption.
    + intros H. apply IH. intros x Hx. apply H. right. assumption.
Qed.

Lemma where_all (p : A -> bool) (rows : list A) :
  (forall x, In x rows -> p x = true) -> where_ p rows = rows.
Proof.
  unfold where_. induction rows as [|y t IH]; intros H; simpl; [reflexivity|].
  rewrite (H y (or_introl eq_refl)). f_equal. apply IH.
  intros x Hx. apply H. right. assumption.
Qed.

Lemma where_split (p : A -> bool) (rows : list A) :
  Permutation rows (where_ p rows ++ where_ (fun x => negb (p x)) rows).
Proof.
  unfold where_. induction rows as [|y t IH]; simpl; [constructor|].
  destruct (p y); simpl.
  - constructor. exact IH.
  - apply Permutation_cons_app. exact IH.
Qed.

Lemma length_zero_nil (rows : list A) :
  Nat.eqb (List.length rows) 0 = true <-> rows = [].
Proof. destruct rows; simpl; split; congruence. Qed.

Lemma in_join (on : A -> B -> bool) (l : list A) (r : list B) (a : A) (b : B) :
  In (a, b) (join on l r) <-> In a l /\ In b r /\ on a b = true.
Proof.
  unfold join. rewrite in_flat_map. split.
  - intros (a' & Ha' & Hin). apply in_map_iff in Hin.
    destruct Hin as (b' & Heq & Hb'). inversion Heq; subst.
    apply filter_In in Hb'. tauto.
  - intros (Ha & Hb & Hon). exists a. split; [assumption|].
    apply in_map. apply filter_In. tauto.
Qed.

Lemma in_left_join (on : A -> B -> bool) (l : list A) (r : list B)
  (a : A) (ob : option B) :
  In (a, ob) (left_join on l r) <->
  In a l /\ match ob with
            | None => filter (on a) r = []
            | Some b => In b r /\ on a b = true
            end.
Proof.
  unfold left_join. rewrite in_flat_map. split.
  - intros (a' & Ha' & Hin).
    destruct (filter (on a') r) as [|m ms] eqn:Hf.
    + destruct Hin as [Heq|[]]. inversion Heq; subst. tauto.
    + apply in_map_iff in Hin. destruct Hin as (b & Heq & Hb).
      inversion Heq; subst. rewrite <- Hf in Hb. apply filter_In in Hb. tauto.
  - intros (Ha & Hob). exists a. split; [assumption|].
    destruct ob as [b|].
    + destruct Hob as (Hb & Hon).
      assert (Hin : In b (filter (on a) r)) by (apply filter_In; tauto).
      destruct (filter (on a) r) as [|m ms]; [contradiction|].
      apply in_map_iff. exists b. tauto.
    + rewrite Hob. left. reflexivity.
Qed.

End Membership.

Section Distinct.
Context {A : Type} (eqb : A -> A -> bool).
Hypothesis eqb_eq : forall x y, eqb x y = true <-> x = y.

Lemma in_distinct (rows : list A) (x : A) :
  In x (distinct eqb rows) <-> In x rows.
Proof.
  induction rows as [|y t IH]; simpl; [tauto|].
  rewrite filter_In, IH. split.
  - tauto.
  - intros [Hy|Ht]; [tauto|].
    destruct (eqb y x) eqn:E.
    + left. apply eqb_eq. exact E.
    + right. split; [assumption|]. reflexivity.
Qed.

Lemma NoDup_distinct (rows : list A) : NoDup (distinct eqb rows).
Proof.
  induction rows as [|y t IH]; simpl; constructor.
  - rewrite filter_In. intros [_ H].
    assert (E : eqb y y = true) by (apply eqb_eq; reflexivity).
    rewrite E in H. discriminate.
  - apply NoDup_filter. exact IH.
Qed.

(** In a list without duplicates a value is found at most once. *)
Lemma matches_NoDup (x : A) (l : list A) :
  NoDup l ->
  filter (eqb x) l = if existsb (eqb x) l then [x] else [].
Proof.
  induction 1 as [|y t Hnin Hnd IH]; simpl; [reflexivity|].
  destruct (eqb x y) eqn:E; simpl.
  - apply eqb_eq in E. subst y. rewrite IH.
    destruct (existsb (eqb x) t) eqn:Ex; [|reflexivity].
    apply existsb_exists in Ex. destruct Ex as (z & Hz & Hxz).
    apply eqb_eq in Hxz. subst z. contradiction.
  - exact IH.
Qed.

Lemma existsb_distinct (x : A) (rows : list A) :
  existsb (eqb x) (distinct eqb rows) = existsb (eqb x) rows.
Proof.
  apply eq_true_iff_eq. rewrite !existsb_exists.
  split; intros (y & Hy & E); exists y; split; try assumption;
    apply in_distinct; assumption.
Qed.

(** A column that holds the same value on every row of a non-empty group
    counts one distinct value, or none when that value is NULL. *)
Lemma non_null_constant (v : option A) (vals : list (option A)) :
  (forall w, In w vals -> w = v) ->
  non_null vals = match v with
                  | None => []
                  | Some x => repeat x (List.length vals)
                  end.
Proof.
  induction vals as [|w t IH]; intros Hall.
  - destruct v; reflexivity.
  - assert (Hw : w = v) by (apply Hall; left; reflexivity).
    assert (IH' := IH (fun w' Hw' => Hall w' (or_intror Hw'))).
    subst w. destruct v as [x|]; simpl; rewrite IH'; reflexivity.
Qed.

Lemma distinct_repeat (x : A) (n : nat) :
  distinct eqb (repeat x n) = match n with O => [] | S _ => [x] end.
Proof.
  induction n as [|n IH]; simpl; [reflexivity|].
  rewrite IH. destruct n; simpl; [reflexivity|].
  assert (E : eqb x x = true) by (apply eqb_eq; reflexivity).
  rewrite E. reflexivity.
Qed.

Lemma count_distinct_constant (v : option A) (vals : list (option A)) :
  vals <> [] ->
  (forall w, In w vals -> w = v) ->
  count_distinct eqb vals = match v with None => 0 | Some _ => 1 end.
Proof.
  intros Hne Hall. unfold count_distinct.
  rewrite (non_null_constant v vals Hall).
  destruct v as [x|]; [|reflexivity].
  rewrite distinct_repeat.
  destruct vals; [congruence|reflexivity].
Qed.

End Distinct.

Section Ordering.
Context {A : Type} (leb : A -> A -> bool).

Lemma insert_by_perm (x : A) (rows : list A) :
  Permutation (insert_by leb x rows) (x :: rows).
Proof.
  induction rows as [|y t IH]; simpl; [reflexivity|].
  destruct (leb x y); [reflexivity|].
  rewrite IH. apply perm_swap.
Qed.

Lemma order_by_perm (rows : list A) : Permutation (order_by leb rows) rows.
Proof.
  induction rows as [|x t IH]; simpl; [reflexivity|].
  rewrite insert_by_perm. constructor. exact IH.
Qed.

Lemma in_order_by (rows : list A) (x : A) :
  In x (order_by leb rows) <-> In x rows.
Proof.
  split; apply Permutation_in;
    [apply order_by_perm | apply Permutation_sym, order_by_perm].
Qed.

Lemma order_by_length (rows : list A) :
  List.length (order_by leb rows) = List.length rows.
Proof. apply Permutation_length, order_by_perm. Qed.

Hypothesis leb_total : forall x y, leb x y = true \/ leb y x = true.

Lemma insert_by_sorted (x : A) (rows : list A) :
  Sorted (fun a b => leb a b = true) rows ->
  Sorted (fun a b => leb a b = true) (insert_by leb x rows).
Proof.
  induction rows as [|y t IH]; intros Hs; simpl.
  - repeat constructor.
  - destruct (leb x y) eqn:E.
    + constructor; [assumption|]. constructor. exact E.
    + inversion Hs as [|? ? Hst Hhd]; subst.
      constructor; [apply IH; assumption|].
      assert (Hyx : leb y x = true) by (destruct (leb_total x y); congruence).
      destruct t as [|z t']; simpl.
      * constructor. exact Hyx.
      * destruct (leb x z); constructor; [exact Hyx|].
        inversion Hhd; assumption.
Qed.

Lemma order_by_sorted (rows : list A) :
  Sorted (fun a b => leb a b = true) (order_by leb rows).
Proof.
  induction rows as [|x t IH]; simpl; [constructor|].
  apply insert_by_sorted. exact IH.
Qed.

Hypothesis leb_trans :
  forall x y z, leb x y = true -> leb y z = true -> leb x z = true.

Lemma order_by_strongly_sorted (rows : list A) :
  StronglySorted (fun a b => leb a b = true) (order_by leb rows).
Proof.
  apply Sorted_StronglySorted.
  - intros x y z. apply leb_trans.
  - apply order_by_sorted.
Qed.

End Ordering.

Lemma StronglySorted_map {A B} (R : B -> B -> Prop) (f : A -> B) (l : list A) :
  StronglySorted (fun x y => R (f x) (f y)) l -> StronglySorted R (map f l).
Proof.
  induction 1 as [|x t Hs IH Hall]; simpl; constructor; [assumption|].
  apply Forall_map. exact Hall.
Qed.

Lemma StronglySorted_weaken {A} (R S : A -> A -> Prop) (l : list A) :
  (forall x y, R x y -> S x y) -> StronglySorted R l -> StronglySorted S l.
Proof.
  intros HRS. induction 1 as [|x t Hs IH Hall]; constructor; [assumption|].
  eapply Forall_impl; [|exact Hall]. intros y. apply HRS.
Qed.

Lemma order_by_asc {A} (col : A -> Z) (rows : list A) :
  StronglySorted (fun x y => col x <= col y) (order_by (asc col) rows).
Proof.
  eapply StronglySorted_weaken; [|apply order_by_strongly_sorted].
  - unfold asc. intros x y H. lia.
  - unfold asc. intros x y. lia.
  - unfold asc. intros x y z. lia.
Qed.

Lemma order_by_desc {A} (col : A -> Z) (rows : list A) :
  StronglySorted (fun x y => col x >= col y) (order_by (desc col) rows).
Proof.
  eapply StronglySorted_weaken; [|apply order_by_strongly_sorted].
  - unfold desc. intros x y H. lia.
  - unfold desc. intros x y. lia.
  - unfold desc. intros x y z. lia.
Qed.

End SqlFacts.

(* ================================================================== *)
(** * Facts about request fields and keys *)

Module FieldFacts.
Import Api.
Local Open Scope string_scope.

Lemma truthy_some (s : string) : s <> "" -> JS.truthy (Some s) = true.
Proof.
  intros Hne. simpl. destruct (String.eqb_spec s ""); [contradiction|reflexivity].
Qed.

Lemma same_triple_eq (t1 a1 al1 t2 a2 al2 : string) :
  same_triple t1 a1 al1 t2 a2 al2 = true <-> t1 = t2 /\ a1 = a2 /\ al1 = al2.
Proof.
  unfold same_triple. rewrite !andb_true_iff, !String.eqb_eq. tauto.
Qed.

(** The rows a statement selects are empty or not as the predicate says. *)
Lemma where_cases {A} (p : A -> bool) (P : A -> Prop) (rows : list A) :
  (forall x, p x = true <-> P x) ->
  (Sql.where_ p rows = [] /\ ~ (exists x, In x rows /\ P x))
  \/ ((exists x rest, Sql.where_ p rows = x :: rest) /\ exists x, In x rows /\ P x).
Proof.
  intros Hp. destruct (Sql.where_ p rows) as [|x rest] eqn:Hq.
  - left. split; [reflexivity|]. intros (x & Hin & HP).
    apply (proj1 (SqlFacts.where_nil _ _)) with (x := x) in Hq; [|assumption].
    apply Hp in HP. congruence.
  - right. split; [exists x, rest; reflexivity|].
    assert (Hin : In x (x :: rest)) by (left; reflexivity).
    rewrite <- Hq in Hin. apply SqlFacts.in_where in Hin.
    exists x. split; [tauto|]. apply Hp. tauto.
Qed.

End FieldFacts.

(* ================================================================== *)
(** * The optional-auth middleware *)

Module AuthFacts.
Import Api.

(** C9.  Under [authOptional] a request is never answered by the
    middleware: whatever the credential, the rest of the route runs.  With
    a missing (absent or empty) token the request and the console are left
    as they were; with a token that [jwt.verify] rejects (invalid or
    expired) the request is left as it was, so no identity is attached,
    and the only trace is one line on the console. *)
Theorem authOptional_never_fails
  (jwt_verify : string -> string -> string + Decoded.t) (secret : string)
  (R : Type) (req : Request.t) (console : list string)
  (next : Request.t -> list string -> R) :
  (exists req' console',
      authOptional jwt_verify secret req console next = next req' console'
      /\ Request.x_auth_token req' = Request.x_auth_token req
      /\ Request.query req' = Request.query req)
  /\ (JS.truthy (Request.x_auth_token req) = false ->
      authOptional jwt_verify secret req console next = next req console)
  /\ (forall token err_message,
        Request.x_auth_token req = Some token -> token <> EmptyString ->
        jwt_verify token secret = inl err_message ->
        authOptional jwt_verify secret req console next
        = next req (console ++ [("Invalid token: " ++ err_message)%string])).
Proof.
  unfold authOptional. split; [|split].
  - destruct (JS.truthy (Request.x_auth_token req)); simpl.
    + destruct (jwt_verify _ secret) as [msg|decoded].
      * exists req, (console ++ [("Invalid token: " ++ msg)%string]). auto.
      * exists (Request.with_user req (Decoded.user decoded)), console. auto.
    + exists req, console. auto.
  - intros ->. reflexivity.
  - intros token msg Htok Hne Hv. rewrite Htok. simpl.
    destruct (String.eqb_spec token EmptyString) as [E|_]; [contradiction|].
    simpl. rewrite Hv. reflexivity.
Qed.

End AuthFacts.

(* ================================================================== *)
(** * Login *)

Module LoginFacts.
Import Api Http Fixtures.
Local Open Scope string_scope.

Section Login.
Variable bcrypt_compare : string -> string -> bool.
Variable jwt_sign : Identity.t -> string -> string -> string.
Variable JWT_SECRET : string.

(** C8.  A login that fails because no user is registered under the email
    and a login that fails because the password does not match the hash
    stored for the email are answered alike: status 400 and the message
    ['Invalid email or password.'] in both cases. *)
Theorem login_failures_indistinguishable
  (db : Db.t) (email1 password1 email2 password2 : string)
  (Hemail1 : email1 <> "") (Hpassword1 : password1 <> "")
  (Hemail2 : email2 <> "") (Hpassword2 : password2 <> "")
  (Hunregistered : forall u, In u (Db.tUser db) -> User.email u <> email1)
  (Hregistered : exists u, In u (Db.tUser db) /\ User.email u = email2)
  (Hwrong : forall u, In u (Db.tUser db) -> User.email u = email2 ->
                      bcrypt_compare password2 (User.password u) = false) :
  login bcrypt_compare jwt_sign JWT_SECRET (Some email1) (Some password1) db
  = login bcrypt_compare jwt_sign JWT_SECRET (Some email2) (Some password2) db
  /\ login bcrypt_compare jwt_sign JWT_SECRET (Some email1) (Some password1) db
     = send 400 "Invalid email or password.".
Proof.
  assert (H1 : login bcrypt_compare jwt_sign JWT_SECRET
                 (Some email1) (Some password1) db
               = send 400 "Invalid email or password.").
  { unfold login. rewrite !FieldFacts.truthy_some by assumption. simpl.
    destruct (Sql.where_ _ (Db.tUser db)) as [|u rest] eqn:Hq; [reflexivity|].
    assert (Hin : In u (Sql.where_
                          (fun u => String.eqb (User.email u) email1) (Db.tUser db)))
      by (rewrite Hq; left; reflexivity).
    apply SqlFacts.in_where in Hin. destruct Hin as (Hin & Heq).
    apply String.eqb_eq in Heq. elim (Hunregistered u Hin Heq). }
  split; [|exact H1]. rewrite H1.
  unfold login. rewrite !FieldFacts.truthy_some by assumption. simpl.
  destruct (Sql.where_ _ (Db.tUser db)) as [|u rest] eqn:Hq; [reflexivity|].
  assert (Hin : In u (Sql.where_
                        (fun u => String.eqb (User.email u) email2) (Db.tUser db)))
    by (rewrite Hq; left; reflexivity).
  apply SqlFacts.in_where in Hin. destruct Hin as (Hin & Heq).
  apply String.eqb_eq in Heq. rewrite (Hwrong u Hin Heq). reflexivity.
Qed.

End Login.

Lemma login_failures_indistinguishable_witness :
  login sample_compare sample_sign "k" (Some "bob@example.org") (Some "guess") one_user
  = login sample_compare sample_sign "k" (Some "alice@example.org") (Some "guess") one_user
  /\ login sample_compare sample_sign "k" (Some "bob@example.org") (Some "guess") one_user
     = send 400 "Invalid email or password.".
Proof.
  apply (login_failures_indistinguishable sample_compare sample_sign "k" one_user
           "bob@example.org" "guess" "alice@example.org" "guess").
  - discriminate.
  - discriminate.
  - discriminate.
  - discriminate.
  - intros u [<-|[]]. discriminate.
  - exists alice. split; [left; reflexivity|reflexivity].
  - intros u [<-|[]] _. reflexivity.
Defined.

(** The same account does log in with its password: the failure above is
    caused by the password alone. *)
Example login_succeeds :
  status (login sample_compare sample_sign "k"
            (Some "alice@example.org") (Some "secret") one_user) = 200.
Proof. reflexivity. Qed.

End LoginFacts.

(* ================================================================== *)
(** * Top charts *)

Module ChartFacts.
Import Api Http Fixtures.
Local Open Scope string_scope.

Lemma chart_key_eqb (c : TopChart.t) (name : string) (date : Z) :
  (String.eqb (TopChart.chartName c) name && Z.eqb (TopChart.chartDate c) date)%bool = true
  <-> TopChart.chartName c = name /\ TopChart.chartDate c = date.
Proof. rewrite andb_true_iff, String.eqb_eq, Z.eqb_eq. tauto. Qed.

(** C6.  The three steps of the top-charts drill-down.  (a) The chart-names
    step always answers 200 with the distinct chart names, the empty list
    when the table is empty.  (b) The dates step answers 404 exactly when no
    TopChart row has the chosen name, and otherwise the dates of that chart,
    newest first.  (c) The songs step answers 404 exactly when no TopChart
    row has the chosen name and date, and otherwise the songs of the chart
    entries for that name and date, by play count descending. *)
Theorem top_charts_drill_down (db : Db.t) (name : string) (date : Z) :
  (exists names,
      top_charts db = ok names
      /\ NoDup names
      /\ (forall n, In n names <->
                    exists c, In c (Db.tTopChart db) /\ TopChart.chartName c = n)
      /\ (Db.tTopChart db = [] -> names = []))
  /\ (((forall c, In c (Db.tTopChart db) -> TopChart.chartName c <> name)
       /\ top_chart_dates name db
          = send 404 "Top chart not found or no dates available.")
      \/ ((exists c, In c (Db.tTopChart db) /\ TopChart.chartName c = name)
          /\ exists dates,
              top_chart_dates name db = ok dates
              /\ StronglySorted (fun d1 d2 => d1 >= d2) dates
              /\ (forall d, In d dates <->
                            exists c, In c (Db.tTopChart db)
                                      /\ TopChart.chartName c = name
                                      /\ TopChart.chartDate c = d)))
  /\ (((forall c, In c (Db.tTopChart db) ->
                  ~ (TopChart.chartName c = name /\ TopChart.chartDate c = date))
       /\ top_chart_songs name date db
          = send 404 "Top chart not found for the specified name and date.")
      \/ ((exists c, In c (Db.tTopChart db)
                     /\ TopChart.chartName c = name /\ TopChart.chartDate c = date)
          /\ exists songs,
              top_chart_songs name date db = ok songs
              /\ StronglySorted (fun r1 r2 => so_plays r1 >= so_plays r2) songs
              /\ (forall r, In r songs <->
                            exists e s,
                              In e (Db.tChartEntry db) /\ In s (Db.tSong db)
                              /\ ChartEntry.chartName e = name
                              /\ ChartEntry.chartDate e = date
                              /\ ChartEntry.songTitle e = Song.songTitle s
                              /\ ChartEntry.artistName e = Song.artistName s
                              /\ ChartEntry.albumTitle e = Song.albumTitle s
                              /\ r = {| so_songTitle := Song.songTitle s;
                                        so_artistName := Song.artistName s;
                                        so_albumTitle := Song.albumTitle s;
                                        so_duration := Song.duration s;
                                        so_plays := Song.plays s |}))).
Proof.
  split; [|split].
  - (* chart names *)
    exists (Sql.distinct String.eqb (map TopChart.chartName (Db.tTopChart db))).
    split; [reflexivity|]. split; [apply SqlFacts.NoDup_distinct, String.eqb_eq|].
    split.
    + intros n. rewrite (SqlFacts.in_distinct _ String.eqb_eq), in_map_iff.
      split; intros (c & H1 & H2); exists c; tauto.
    + intros ->. reflexivity.
  - (* dates *)
    unfold top_chart_dates. rewrite SqlFacts.order_by_length, length_map.
    set (rows := Sql.where_ _ (Db.tTopChart db)).
    destruct rows as [|c0 rest] eqn:Hrows.
    + left. split; [|reflexivity].
      intros c Hc Hname. subst rows.
      apply (proj1 (SqlFacts.where_nil _ _)) with (x := c) in Hrows; [|assumption].
      apply String.eqb_neq in Hrows. contradiction.
    + right. rewrite <- Hrows. split.
      * assert (Hin : In c0 rows) by (rewrite Hrows; left; reflexivity).
        subst rows. apply SqlFacts.in_where in Hin. exists c0.
        rewrite String.eqb_eq in Hin. exact Hin.
      * rewrite Hrows. simpl Nat.eqb. cbv iota. rewrite <- Hrows.
        eexists. split; [reflexivity|]. split.
        -- apply (SqlFacts.order_by_desc (fun d => d)).
        -- intros d. rewrite SqlFacts.in_order_by, in_map_iff. subst rows.
           split.
           ++ intros (c & Hd & Hc). apply SqlFacts.in_where in Hc.
              rewrite String.eqb_eq in Hc. exists c. tauto.
           ++ intros (c & Hc & Hn & Hd). exists c. split; [assumption|].
              apply SqlFacts.in_where. rewrite String.eqb_eq. tauto.
  - (* songs *)
    unfold top_chart_songs.
    set (rows := Sql.where_ _ (Db.tTopChart db)).
    destruct rows as [|c0 rest] eqn:Hrows.
    + left. split; [|reflexivity].
      intros c Hc Hkey. subst rows.
      apply (proj1 (SqlFacts.where_nil _ _)) with (x := c) in Hrows; [|assumption].
      apply chart_key_eqb in Hkey. congruence.
    + right. split.
      * assert (Hin : In c0 rows) by (rewrite Hrows; left; reflexivity).
        subst rows. apply SqlFacts.in_where in Hin. exists c0.
        rewrite chart_key_eqb in Hin. tauto.
      * simpl Nat.eqb. cbv iota. eexists. split; [reflexivity|]. split.
        -- apply SqlFacts.StronglySorted_map.
           eapply SqlFacts.StronglySorted_weaken;
             [|apply (SqlFacts.order_by_desc (fun '(_, s) => Song.plays s))].
           intros [e1 s1] [e2 s2]. simpl. tauto.
        -- intros r. rewrite in_map_iff. split.
           ++ intros ([e s] & Hr & Hin).
              apply SqlFacts.in_order_by, SqlFacts.in_where in Hin.
              destruct Hin as (Hj & Hk). apply SqlFacts.in_join in Hj.
              destruct Hj as (He & Hs & Ht). apply FieldFacts.same_triple_eq in Ht.
              rewrite andb_true_iff, String.eqb_eq, Z.eqb_eq in Hk.
              exists e, s. subst r. unfold song_row. intuition.
           ++ intros (e & s & He & Hs & Hn & Hd & H1 & H2 & H3 & Hr).
              exists (e, s). split; [subst r; reflexivity|].
              apply SqlFacts.in_order_by, SqlFacts.in_where. split.
              ** apply SqlFacts.in_join. split; [assumption|]. split; [assumption|].
                 apply FieldFacts.same_triple_eq. tauto.
              ** rewrite andb_true_iff, String.eqb_eq, Z.eqb_eq. tauto.
Qed.

Example drill_down_on_charts :
  top_charts charts = ok ["Weekly"; "Monthly"]
  /\ top_chart_dates "Weekly" charts = ok [17; 10]
  /\ status (top_chart_dates "Daily" charts) = 404
  /\ status (top_chart_songs "Weekly" 11 charts) = 404
  /\ top_chart_songs "Weekly" 17 charts = ok [song_row hello_adele; song_row hello_richie]
  /\ top_chart_songs "Monthly" 1 charts = ok []
  /\ top_charts Db.empty = ok [].
Proof. repeat split. Qed.

End ChartFacts.

(* ================================================================== *)
(** * Playlists *)

Module PlaylistFacts.
Import Api Http Store.
Local Open Scope string_scope.
Local Open Scope list_scope.

Lemma create_playlist_cases (username name : string) (now : Z) (db : Db.t) :
  name <> "" ->
  (owns db username name
   /\ create_playlist username (Some name) now db
      = (send 400 "Playlist with this name already exists.", db))
  \/ (~ owns db username name
      /\ create_playlist username (Some name) now db
         = (send 201 "Playlist created successfully.",
            Db.with_Playlist db
              (Db.tPlaylist db ++ [{| Playlist.name := name;
                                      Playlist.username := username;
                                      Playlist.creationDate := now |}]))).
Proof.
  intros Hname. unfold create_playlist.
  rewrite (FieldFacts.truthy_some name Hname). simpl negb. cbv iota. simpl JS.value.
  destruct (Sql.where_ _ (Db.tPlaylist db)) as [|p rest] eqn:Hq.
  - right. split; [|reflexivity].
    intros (p & Hin & Hn & Hu).
    apply (proj1 (SqlFacts.where_nil _ _)) with (x := p) in Hq; [|assumption].
    rewrite andb_false_iff, !String.eqb_neq in Hq. tauto.
  - left. split; [|reflexivity].
    assert (Hin : In p (p :: rest)) by (left; reflexivity).
    rewrite <- Hq in Hin. apply SqlFacts.in_where in Hin.
    rewrite andb_true_iff, !String.eqb_eq in Hin. exists p. tauto.
Qed.

Lemma owns_after_create (username name : string) (now : Z) (db : Db.t) :
  name <> "" ->
  owns (snd (create_playlist username (Some name) now db)) username name.
Proof.
  intros Hname.
  destruct (create_playlist_cases username name now db Hname)
    as [(Ho & ->)|(_ & ->)]; simpl.
  - exact Ho.
  - eexists. split; [apply in_or_app; right; left; reflexivity|]. split; reflexivity.
Qed.

(** C5, the claim as stated fails on an empty name: no playlist named ['']
    exists for the caller, yet nothing is inserted, and the answer is the
    validation message, not the Conflict one. *)
Lemma create_playlist_empty_name :
  let '(response, db') := create_playlist "alice" (Some "") 7 Db.empty in
  ~ owns Db.empty "alice" ""
  /\ response = send 400 "Please provide a playlist name."
  /\ response <> send 400 "Playlist with this name already exists."
  /\ Db.tPlaylist db' = [].
Proof.
  simpl. split; [intros (p & [] & _)|]. split; [reflexivity|].
  split; [discriminate|reflexivity].
Qed.

(** C5, amended.  For a non-empty playlist name: creation answers Conflict
    (400, ['Playlist with this name already exists.']) and leaves the store
    as it was exactly when the caller already has a playlist of that name,
    and otherwise answers 201 and appends the row (name, caller, current
    timestamp).  Hence a second creation of the same name by the same user
    answers Conflict, and when neither of two different users has the name,
    both creations answer 201. *)
Theorem create_playlist_conflict_or_insert
  (username name : string) (now : Z) (db : Db.t) (Hname : name <> "") :
  ((owns db username name
    /\ create_playlist username (Some name) now db
       = (send 400 "Playlist with this name already exists.", db))
   \/ (~ owns db username name
       /\ create_playlist username (Some name) now db
          = (send 201 "Playlist created successfully.",
             Db.with_Playlist db
               (Db.tPlaylist db ++ [{| Playlist.name := name;
                                       Playlist.username := username;
                                       Playlist.creationDate := now |}]))))
  /\ (forall later,
        let db1 := snd (create_playlist username (Some name) now db) in
        create_playlist username (Some name) later db1
        = (send 400 "Playlist with this name already exists.", db1))
  /\ (forall other later,
        other <> username -> ~ owns db username name -> ~ owns db other name ->
        let db1 := snd (create_playlist username (Some name) now db) in
        fst (create_playlist username (Some name) now db)
        = send 201 "Playlist created successfully."
        /\ fst (create_playlist other (Some name) later db1)
           = send 201 "Playlist created successfully.").
Proof.
  split; [apply create_playlist_cases; assumption|]. split.
  - intros later db1.
    destruct (create_playlist_cases username name later db1 Hname)
      as [(_ & E)|(Hno & _)]; [exact E|].
    elim Hno. apply owns_after_create. assumption.
  - intros other later Hother Hno1 Hno2 db1. subst db1.
    destruct (create_playlist_cases username name now db Hname)
      as [(Ho & _)|(_ & E)]; [contradiction|].
    rewrite E. simpl. split; [reflexivity|].
    match goal with |- context [create_playlist other _ later ?d] =>
      destruct (create_playlist_cases other name later d Hname)
        as [(Ho & _)|(_ & E2)]
    end.
    + destruct Ho as (p & Hin & Hn & Hu). simpl in Hin.
      apply in_app_or in Hin. destruct Hin as [Hin|[<-|[]]].
      * elim Hno2. exists p. tauto.
      * simpl in Hu. congruence.
    + rewrite E2. reflexivity.
Qed.

Lemma create_playlist_conflict_or_insert_witness :
  fst (create_playlist "alice" (Some "Road trip") 7 Db.empty)
  = send 201 "Playlist created successfully."
  /\ fst (create_playlist "bob" (Some "Road trip") 8
            (snd (create_playlist "alice" (Some "Road trip") 7 Db.empty)))
     = send 201 "Playlist created successfully.".
Proof.
  assert (Hname : "Road trip" <> "") by discriminate.
  destruct (create_playlist_conflict_or_insert "alice" "Road trip" 7 Db.empty Hname)
    as (_ & _ & Hboth).
  apply (Hboth "bob" 8).
  - discriminate.
  - intros (p & [] & _).
  - intros (p & [] & _).
Defined.

(** An empty or missing name is rejected first, and the store is kept. *)
Lemma create_playlist_requires_name (username : string) (name : option string)
  (now : Z) (db : Db.t) :
  JS.truthy name = false ->
  create_playlist username name now db
  = (send 400 "Please provide a playlist name.", db).
Proof. intros H. unfold create_playlist. rewrite H. reflexivity. Qed.

End PlaylistFacts.

(* ================================================================== *)
(** * Likes *)

Module LikeFacts.
Import Api Http Store Fixtures.
Local Open Scope string_scope.
Local Open Scope list_scope.

Lemma like_matches_iff (username t a al : string) (ul : UserLike.t) :
  like_matches username (Triple.make t a al) ul = true <-> is_like username t a al ul.
Proof.
  unfold like_matches, is_like. simpl.
  rewrite !andb_true_iff, !String.eqb_eq. tauto.
Qed.

Lemma song_matches_iff (t a al : string) (s : Song.t) :
  song_matches (Triple.make t a al) s = true
  <-> Song.songTitle s = t /\ Song.artistName s = a /\ Song.albumTitle s = al.
Proof.
  unfold song_matches. simpl. rewrite !andb_true_iff, !String.eqb_eq. tauto.
Qed.

Lemma triple_given_make (t a al : string) :
  t <> "" -> a <> "" -> al <> "" -> triple_given (Triple.make t a al) = true.
Proof.
  intros Ht Ha Hal. unfold triple_given. simpl Triple.songTitle.
  simpl Triple.artistName. simpl Triple.albumTitle.
  rewrite !FieldFacts.truthy_some by assumption. reflexivity.
Qed.

Lemma like_cases (username t a al : string) (now : Z) (db : Db.t) :
  triple_given (Triple.make t a al) = true ->
  (~ in_catalog db t a al
   /\ like username (Triple.make t a al) now db = (send 404 "Song not found.", db))
  \/ (in_catalog db t a al /\ likes db username t a al
      /\ like username (Triple.make t a al) now db
         = (send 400 "Song is already liked.", db))
  \/ (in_catalog db t a al /\ ~ likes db username t a al
      /\ like username (Triple.make t a al) now db
         = (send 201 "Song liked successfully.",
            Db.with_UserLike db
              (Db.tUserLike db ++ [{| UserLike.username := username;
                                      UserLike.songTitle := t;
                                      UserLike.artistName := a;
                                      UserLike.albumTitle := al;
                                      UserLike.likeDate := now |}]))).
Proof.
  intros Hgiven. unfold like. rewrite Hgiven. simpl negb. cbv iota.
  destruct (FieldFacts.where_cases (song_matches (Triple.make t a al)) _ (Db.tSong db)
              (song_matches_iff t a al)) as [(-> & Hno)|((s & rest & ->) & Hyes)].
  - left. split; [exact Hno|reflexivity].
  - right. simpl List.length. simpl Nat.eqb. cbv iota.
    destruct (FieldFacts.where_cases (like_matches username (Triple.make t a al)) _
                (Db.tUserLike db) (like_matches_iff username t a al))
      as [(-> & Hnl)|((ul & rest' & ->) & Hl)].
    + right. split; [exact Hyes|]. split; [exact Hnl|reflexivity].
    + left. split; [exact Hyes|]. split; [exact Hl|reflexivity].
Qed.

Lemma unlike_cases (username t a al : string) (db : Db.t) :
  triple_given (Triple.make t a al) = true ->
  (~ likes db username t a al
   /\ unlike username (Triple.make t a al) db
      = (send 404 "Song is not in your liked songs.", db))
  \/ (likes db username t a al
      /\ unlike username (Triple.make t a al) db
         = (send 200 "Song unliked successfully.",
            Db.with_UserLike db
              (Sql.where_ (fun ul => negb (like_matches username (Triple.make t a al) ul))
                          (Db.tUserLike db)))).
Proof.
  intros Hgiven. unfold unlike. rewrite Hgiven. simpl negb. cbv iota.
  destruct (FieldFacts.where_cases (like_matches username (Triple.make t a al)) _
              (Db.tUserLike db) (like_matches_iff username t a al))
    as [(-> & Hnl)|((ul & rest' & ->) & Hl)].
  - left. split; [exact Hnl|reflexivity].
  - right. split; [exact Hl|reflexivity].
Qed.

Lemma with_UserLike_same (db : Db.t) : Db.with_UserLike db (Db.tUserLike db) = db.
Proof. destruct db. reflexivity. Qed.

Lemma with_UserLike_twice (db : Db.t) (r1 r2 : list UserLike.t) :
  Db.with_UserLike (Db.with_UserLike db r1) r2 = Db.with_UserLike db r2.
Proof. reflexivity. Qed.

(** C3, the claim as stated fails on a triple with an empty field: the
    song is not in the catalog and the pair is not in UserLike, yet both
    operations answer 400 with the validation message, not 404. *)
Lemma like_unlike_empty_title :
  let body := Triple.make "" "Adele" "25" in
  ~ in_catalog Db.empty "" "Adele" "25"
  /\ ~ likes Db.empty "alice" "" "Adele" "25"
  /\ like "alice" body 7 Db.empty
     = (send 400 "Please provide songTitle, artistName, and albumTitle.", Db.empty)
  /\ fst (like "alice" body 7 Db.empty) <> send 404 "Song not found."
  /\ unlike "alice" body Db.empty
     = (send 400 "Please provide songTitle, artistName, and albumTitle.", Db.empty)
  /\ fst (unlike "alice" body Db.empty) <> send 404 "Song is not in your liked songs.".
Proof.
  simpl. split; [intros (s & [] & _)|]. split; [intros (ul & [] & _)|].
  repeat split; try reflexivity; discriminate.
Qed.

Lemma truthy_blank (field : option string) :
  blank field -> JS.truthy field = false.
Proof. intros [->| ->]; reflexivity. Qed.

Lemma blank_or_given (field : option string) :
  blank field \/ exists v, field = Some v /\ v <> "".
Proof.
  destruct field as [v|]; [|left; left; reflexivity].
  destruct (String.eqb_spec v ""); [left; right; congruence|right].
  exists v. split; [reflexivity|assumption].
Qed.

Lemma triple_not_given (body : Triple.t) :
  blank (Triple.songTitle body) \/ blank (Triple.artistName body)
  \/ blank (Triple.albumTitle body) ->
  triple_given body = false.
Proof.
  unfold triple_given.
  intros [H|[H|H]]; apply truthy_blank in H; rewrite H;
    rewrite ?andb_false_r; reflexivity.
Qed.

(** C3, amended.  A triple with a missing or empty field is answered
    BadRequest (400, the validation message) by both operations, before
    any lookup and whatever the store holds; every other triple has three
    non-empty fields.  For a triple whose three fields are non-empty.
    Like: 404 ['Song not found.'] when the catalog has no such song;
    Conflict (400, ['Song is already liked.']) when the song exists and
    the pair is already in UserLike; otherwise 201 and exactly the row
    (user, triple, current timestamp) is appended.  Unlike: 404 when the
    pair is not in UserLike; otherwise 200 and the rows of that pair are
    removed while every other row is kept.  The store is unchanged on
    every failure. *)
Theorem like_unlike_outcomes (username : string) (now : Z) (db : Db.t) :
  (forall body : Triple.t,
      blank (Triple.songTitle body) \/ blank (Triple.artistName body)
      \/ blank (Triple.albumTitle body) ->
      like username body now db
      = (send 400 "Please provide songTitle, artistName, and albumTitle.", db)
      /\ unlike username body db
         = (send 400 "Please provide songTitle, artistName, and albumTitle.", db))
  /\ (forall body : Triple.t,
         (blank (Triple.songTitle body) \/ blank (Triple.artistName body)
          \/ blank (Triple.albumTitle body))
         \/ exists t a al,
             body = Triple.make t a al /\ t <> "" /\ a <> "" /\ al <> "")
  /\ (forall t a al : string,
         t <> "" -> a <> "" -> al <> "" ->
         ((~ in_catalog db t a al
           /\ like username (Triple.make t a al) now db
              = (send 404 "Song not found.", db))
          \/ (in_catalog db t a al /\ likes db username t a al
              /\ like username (Triple.make t a al) now db
                 = (send 400 "Song is already liked.", db))
          \/ (in_catalog db t a al /\ ~ likes db username t a al
              /\ like username (Triple.make t a al) now db
                 = (send 201 "Song liked successfully.",
                    Db.with_UserLike db
                      (Db.tUserLike db ++ [{| UserLike.username := username;
                                              UserLike.songTitle := t;
                                              UserLike.artistName := a;
                                              UserLike.albumTitle := al;
                                              UserLike.likeDate := now |}]))))
         /\ ((~ likes db username t a al
              /\ unlike username (Triple.make t a al) db
                 = (send 404 "Song is not in your liked songs.", db))
             \/ (likes db username t a al
                 /\ exists removed kept,
                     unlike username (Triple.make t a al) db
                     = (send 200 "Song unliked successfully.",
                        Db.with_UserLike db kept)
                     /\ Permutation (Db.tUserLike db) (removed ++ kept)
                     /\ (forall ul, In ul removed -> is_like username t a al ul)
                     /\ (forall ul, In ul kept -> ~ is_like username t a al ul)))).
Proof.
  split; [|split].
  - intros body Hblank. apply triple_not_given in Hblank.
    unfold like, unlike. rewrite Hblank. split; reflexivity.
  - intros [title artist album]. simpl.
    destruct (blank_or_given title) as [H|(t & -> & Ht)]; [tauto|].
    destruct (blank_or_given artist) as [H|(a & -> & Ha)]; [tauto|].
    destruct (blank_or_given album) as [H|(al & -> & Hal)]; [tauto|].
    right. exists t, a, al. repeat split; assumption.
  - intros t a al Ht Ha Hal.
    assert (Hgiven := triple_given_make t a al Ht Ha Hal).
    split; [apply like_cases; assumption|].
    destruct (unlike_cases username t a al db Hgiven) as [H|(Hl & E)];
      [left; exact H|right].
    split; [exact Hl|].
    exists (Sql.where_ (like_matches username (Triple.make t a al)) (Db.tUserLike db)).
    eexists. split; [exact E|]. split; [apply SqlFacts.where_split|]. split.
    + intros ul Hin. apply SqlFacts.in_where in Hin.
      apply like_matches_iff. tauto.
    + intros ul Hin Hlike. apply SqlFacts.in_where in Hin.
      apply like_matches_iff in Hlike. destruct Hin as (_ & Hn).
      rewrite Hlike in Hn. discriminate.
Qed.

Lemma like_unlike_outcomes_witness :
  like "alice" (Triple.make "Hello" "Adele" "25") 7 catalog
  = (send 201 "Song liked successfully.", catalog_liked)
  /\ fst (unlike "alice" (Triple.make "Hello" "Adele" "25") catalog_liked)
     = send 200 "Song unliked successfully."
  /\ like "alice" {| Triple.songTitle := Some "Hello"; Triple.artistName := None;
                     Triple.albumTitle := Some "25" |} 7 catalog
     = (send 400 "Please provide songTitle, artistName, and albumTitle.", catalog).
Proof.
  assert (Ht : "Hello" <> "") by discriminate.
  assert (Ha : "Adele" <> "") by discriminate.
  assert (Hal : "25" <> "") by discriminate.
  split; [|split].
  - destruct (like_unlike_outcomes "alice" 7 catalog) as (_ & _ & H).
    destruct (H "Hello" "Adele" "25" Ht Ha Hal)
      as ([(Hno & _)|[(_ & (ul & [] & _) & _)|(_ & _ & E)]] & _).
    + elim Hno. exists hello_adele. simpl. tauto.
    + exact E.
  - destruct (like_unlike_outcomes "alice" 7 catalog_liked) as (_ & _ & H).
    destruct (H "Hello" "Adele" "25" Ht Ha Hal)
      as (_ & [(Hno & _)|(_ & removed & kept & E & _)]).
    + elim Hno. exists (like_of "alice" hello_adele 7). simpl.
      unfold is_like. simpl. tauto.
    + rewrite E. reflexivity.
  - destruct (like_unlike_outcomes "alice" 7 catalog) as (H & _).
    apply H. right. left. left. reflexivity.
Defined.

(** C4.  When the song is in the catalog and the user has not liked it,
    liking it and then unliking it gives back the store the pair started
    from, UserLike included. *)
Theorem like_then_unlike_restores
  (username t a al : string) (now : Z) (db : Db.t)
  (Hsong : in_catalog db t a al) (Hfresh : ~ likes db username t a al) :
  snd (unlike username (Triple.make t a al)
         (snd (like username (Triple.make t a al) now db))) = db.
Proof.
  destruct (triple_given (Triple.make t a al)) eqn:Hgiven.
  - destruct (like_cases username t a al now db Hgiven)
      as [(Hno & _)|[(_ & Hl & _)|(_ & _ & ->)]]; [contradiction|contradiction|].
    simpl snd.
    match goal with |- context [unlike _ _ ?d] =>
      destruct (unlike_cases username t a al d Hgiven) as [(Hno & _)|(_ & ->)]
    end.
    + elim Hno. eexists. split; [simpl; apply in_or_app; right; left; reflexivity|].
      unfold is_like. simpl. tauto.
    + simpl. rewrite with_UserLike_twice.
      unfold Sql.where_. rewrite filter_app. simpl.
      assert (Hnew : like_matches username (Triple.make t a al)
                       {| UserLike.username := username; UserLike.songTitle := t;
                          UserLike.artistName := a; UserLike.albumTitle := al;
                          UserLike.likeDate := now |} = true)
        by (apply like_matches_iff; unfold is_like; simpl; tauto).
      rewrite Hnew. simpl. rewrite app_nil_r.
      rewrite (SqlFacts.where_all (fun ul => negb (like_matches username (Triple.make t a al) ul))).
      * apply with_UserLike_same.
      * intros ul Hin. apply negb_true_iff.
        destruct (like_matches username (Triple.make t a al) ul) eqn:E; [|reflexivity].
        elim Hfresh. exists ul. split; [assumption|].
        apply like_matches_iff. exact E.
  - unfold like. rewrite Hgiven. simpl snd.
    unfold unlike. rewrite Hgiven. reflexivity.
Qed.

Lemma like_then_unlike_restores_witness :
  snd (unlike "alice" (Triple.make "Hello" "Adele" "25")
         (snd (like "alice" (Triple.make "Hello" "Adele" "25") 7 catalog)))
  = catalog
  /\ snd (like "alice" (Triple.make "Hello" "Adele" "25") 7 catalog) = catalog_liked.
Proof.
  split; [|reflexivity].
  apply (like_then_unlike_restores "alice" "Hello" "Adele" "25" 7 catalog).
  - exists hello_adele. simpl. tauto.
  - intros (ul & [] & _).
Defined.

End LikeFacts.

(* ================================================================== *)
(** * Search *)

Module SearchFacts.
Import Api Http Store Fixtures.
Local Open Scope string_scope.
Local Open Scope list_scope.

Lemma sr_plays_select (r : SearchFrom) :
  sr_plays (search_select r) = (let '(s, _, _, _, _) := r in Song.plays s).
Proof. destruct r as [[[[s a] al] c] g]. reflexivity. Qed.

Lemma ordered_rows (order : direction) (from : list SearchFrom) :
  match order with
  | ASC => ascending (map search_select (Sql.order_by (by_plays order) from))
  | DESC => descending (map search_select (Sql.order_by (by_plays order) from))
  end.
Proof.
  destruct order; apply SqlFacts.StronglySorted_map; simpl by_plays.
  - eapply SqlFacts.StronglySorted_weaken; [|apply SqlFacts.order_by_asc].
    intros x y. rewrite !sr_plays_select. tauto.
  - eapply SqlFacts.StronglySorted_weaken; [|apply SqlFacts.order_by_desc].
    intros x y. rewrite !sr_plays_select. tauto.
Qed.

(** The rows of the FROM clause, join by join. *)
Lemma search_from_rows (db : Db.t) (s : Song.t) (a : Artist.t) (al : Album.t)
  (c : Classification.t) (g : Genre.t) :
  In (s, a, al, c, g) (search_from db) <->
  In s (Db.tSong db) /\ In a (Db.tArtist db) /\ In al (Db.tAlbum db)
  /\ In c (Db.tClassification db) /\ In g (Db.tGenre db)
  /\ Song.artistName s = Artist.artistName a
  /\ Song.albumTitle s = Album.albumTitle al
  /\ Song.artistName s = Album.artistName al
  /\ Song.songTitle s = Classification.songTitle c
  /\ Song.artistName s = Classification.artistName c
  /\ Song.albumTitle s = Classification.albumTitle c
  /\ Classification.genreName c = Genre.genreName g.
Proof.
  unfold search_from.
  rewrite !SqlFacts.in_join, FieldFacts.same_triple_eq, andb_true_iff, !String.eqb_eq.
  split.
  - intros ((((Hs & Ha & E1) & Hal & E2 & E3) & Hc & E4 & E5 & E6) & Hg & E7).
    repeat split; assumption.
  - intros (Hs & Ha & Hal & Hc & Hg & E1 & E2 & E3 & E4 & E5 & E6 & E7).
    repeat split; assumption.
Qed.

Section Search.
Variable sql_like : string -> string -> bool.

(** A search that answers with rows ran the built statement. *)
Lemma search_ok_inv (req : Request.t) (db : Db.t) (rows : list SearchRow) :
  search sql_like req db = ok rows ->
  exists conds,
    rows = map search_select
             (Sql.order_by (by_plays (search_order (Query.sortOrder (Request.query req))))
                (Sql.where_ (fun r => forallb (fun c => c r) conds) (search_from db)))
    /\ (JS.truthy (Query.songTitle (Request.query req)) = false ->
        JS.truthy (Query.artistName (Request.query req)) = false ->
        JS.truthy (Query.albumTitle (Request.query req)) = false ->
        JS.truthy (Query.genreName (Request.query req)) = false ->
        JS.strict_eq (Query.liked (Request.query req)) "true" = false ->
        conds = []).
Proof.
  unfold search. intros Hok.
  destruct (JS.strict_eq (Query.liked (Request.query req)) "true") eqn:Hliked.
  - destruct (user_id req) as [id|]; [|discriminate].
    injection Hok as <-. eexists. split; [reflexivity|]. discriminate.
  - injection Hok as <-. eexists. split; [reflexivity|].
    intros H1 H2 H3 H4 _. unfold like_filter. rewrite H1, H2, H3, H4. reflexivity.
Qed.

(** C7, the claim as stated fails on a sortOrder that is neither ['ASC']
    nor ['DESC']: the handler upper-cases the parameter before comparing
    it, so ['asc'] orders the result by plays ascending, not descending.
    It also fails on a song without a Classification row, which the joins
    of the statement drop from a search without filters. *)
Lemma search_lowercase_asc :
  (exists r1 r2,
      search sample_like (anonymous (sorted_by "asc")) catalog = ok [r1; r2]
      /\ sr_plays r1 = 400 /\ sr_plays r2 = 900
      /\ ~ descending [r1; r2])
  /\ (In hello_adele (Db.tSong unclassified)
      /\ search sample_like (anonymous Query.none) unclassified = ok []).
Proof.
  split.
  - eexists. eexists. split; [reflexivity|]. split; [reflexivity|].
    split; [reflexivity|].
    intros H. inversion H as [|? ? _ Hall]; subst.
    inversion Hall as [|? ? Hge _]; subst. simpl in Hge. lia.
  - split; [left; reflexivity|reflexivity].
Qed.

(** C7, amended.  For a search request whose sortOrder parameter is
    absent or a single string, and which is answered with rows.  The rows
    are ordered by play count: ascending when the parameter, upper-cased,
    is ['ASC'] (so for ['ASC'], ['asc'], ['Asc']), and descending when it
    is absent, empty or anything else (so for ['DESC']).  Every row is
    made of a song, its artist, its album, a Classification row of the
    song and the Genre row of that classification, and carries the song's
    title, plays and duration, the artist's name, the album's title and
    the genre's name.  A search with no parameter at all returns, by plays
    descending, exactly those rows: every song that has its artist, its
    album and a classified genre is in the result, once per such
    combination, and a song that lacks one of them is not. *)
Theorem search_order_by_plays
  (req : Request.t) (db : Db.t) (rows : list SearchRow)
  (Hok : search sql_like req db = ok rows) :
  let q := Request.query req in
  let joined_row (r : SearchRow) : Prop :=
    exists s a al c g,
      In s (Db.tSong db) /\ In a (Db.tArtist db) /\ In al (Db.tAlbum db)
      /\ In c (Db.tClassification db) /\ In g (Db.tGenre db)
      /\ Song.artistName s = Artist.artistName a
      /\ Song.albumTitle s = Album.albumTitle al
      /\ Song.artistName s = Album.artistName al
      /\ Song.songTitle s = Classification.songTitle c
      /\ Song.artistName s = Classification.artistName c
      /\ Song.albumTitle s = Classification.albumTitle c
      /\ Classification.genreName c = Genre.genreName g
      /\ r = {| sr_songTitle := Song.songTitle s;
                sr_artistName := Artist.artistName a;
                sr_albumTitle := Album.albumTitle al;
                sr_genreName := Genre.genreName g;
                sr_plays := Song.plays s;
                sr_duration := Song.duration s |} in
  (forall s, Query.sortOrder q = Some s -> JS.toUpperCase s = "ASC" -> ascending rows)
  /\ (forall s, Query.sortOrder q = Some s -> JS.toUpperCase s <> "ASC" -> descending rows)
  /\ (Query.sortOrder q = None -> descending rows)
  /\ (Query.sortOrder q = Some "ASC" -> ascending rows)
  /\ (Query.sortOrder q = Some "DESC" -> descending rows)
  /\ (forall r, In r rows -> joined_row r)
  /\ (q = Query.none ->
      descending rows
      /\ Permutation rows (map search_select (search_from db))
      /\ (forall r, In r rows <-> joined_row r)
      /\ forall s a al c g,
          In s (Db.tSong db) -> In a (Db.tArtist db) -> In al (Db.tAlbum db) ->
          In c (Db.tClassification db) -> In g (Db.tGenre db) ->
          Song.artistName s = Artist.artistName a ->
          Song.albumTitle s = Album.albumTitle al ->
          Song.artistName s = Album.artistName al ->
          Song.songTitle s = Classification.songTitle c ->
          Song.artistName s = Classification.artistName c ->
          Song.albumTitle s = Classification.albumTitle c ->
          Classification.genreName c = Genre.genreName g ->
          In (search_select (s, a, al, c, g)) rows).
Proof.
  intros q joined_row.
  destruct (search_ok_inv req db rows Hok) as (conds & Hrows & Hnone).
  fold q in Hrows, Hnone.
  assert (Hup : forall s, Query.sortOrder q = Some s -> JS.toUpperCase s = "ASC" ->
                          ascending rows).
  { intros s Hs Hu. subst rows. unfold search_order. rewrite Hs. simpl JS.value.
    rewrite Hu. simpl String.eqb.
    destruct (JS.truthy (Some s)) eqn:Htr.
    - apply (ordered_rows ASC).
    - simpl in Htr. destruct s; [discriminate Hu|discriminate Htr]. }
  assert (Hdown : forall s, Query.sortOrder q = Some s -> JS.toUpperCase s <> "ASC" ->
                            descending rows).
  { intros s Hs Hu. subst rows. unfold search_order. rewrite Hs. simpl JS.value.
    apply String.eqb_neq in Hu. rewrite Hu, andb_false_r.
    apply (ordered_rows DESC). }
  assert (Hnil : Query.sortOrder q = None -> descending rows).
  { intros Hs. subst rows. unfold search_order. rewrite Hs.
    apply (ordered_rows DESC). }
  assert (Hsel : forall r, In r (map search_select (search_from db)) <-> joined_row r).
  { intros r. rewrite in_map_iff. split.
    - intros ([[[[s a] al] c] g] & <- & Hin). apply search_from_rows in Hin.
      exists s, a, al, c, g. unfold search_select.
      repeat split; apply Hin.
    - intros (s & a & al & c & g & Hs & Ha & Hal & Hc & Hg
              & E1 & E2 & E3 & E4 & E5 & E6 & E7 & ->).
      exists (s, a, al, c, g). split; [reflexivity|].
      apply search_from_rows. repeat split; assumption. }
  split; [exact Hup|]. split; [exact Hdown|]. split; [exact Hnil|].
  split; [intros Hs; apply (Hup "ASC" Hs); reflexivity|].
  split; [intros Hs; apply (Hdown "DESC" Hs); discriminate|].
  split.
  { intros r Hr. apply Hsel. subst rows. apply in_map_iff in Hr.
    destruct Hr as (x & <- & Hx). apply in_map.
    apply SqlFacts.in_order_by, SqlFacts.in_where in Hx. apply Hx. }
  intros Hq. split; [apply Hnil; rewrite Hq; reflexivity|].
  assert (Hconds : conds = []) by (apply Hnone; rewrite Hq; reflexivity).
  subst conds. simpl forallb in Hrows.
  rewrite (SqlFacts.where_all (fun _ => true)) in Hrows by reflexivity.
  assert (Hperm : Permutation rows (map search_select (search_from db))).
  { subst rows. apply Permutation_map, SqlFacts.order_by_perm. }
  split; [exact Hperm|]. split.
  { intros r. rewrite <- Hsel. split; apply Permutation_in;
      [exact Hperm|apply Permutation_sym; exact Hperm]. }
  intros s a al c g Hs Ha Hal Hc Hg E1 E2 E3 E4 E5 E6 E7.
  apply (Permutation_in _ (Permutation_sym Hperm)). apply in_map.
  apply search_from_rows. repeat split; assumption.
Qed.

(** A liked filter without an identity is answered 401. *)
Lemma search_liked_requires_identity (req : Request.t) (db : Db.t) :
  Query.liked (Request.query req) = Some "true" ->
  user_id req = None ->
  search sql_like req db
  = send 401 "Authentication required to filter liked songs.".
Proof. intros Hl Hu. unfold search. rewrite Hl, Hu. reflexivity. Qed.

(** With a missing or rejected token the route sees no identity. *)
Lemma search_route_liked_unauthorized
  (jwt_verify : string -> string -> string + Decoded.t) (secret : string)
  (req : Request.t) (console : list string) (db : Db.t) :
  Query.liked (Request.query req) = Some "true" ->
  Request.user req = None ->
  (JS.truthy (Request.x_auth_token req) = false
   \/ exists msg, jwt_verify (JS.value (Request.x_auth_token req)) secret = inl msg) ->
  fst (search_route sql_like jwt_verify secret req console db)
  = send 401 "Authentication required to filter liked songs.".
Proof.
  intros Hl Hu Htok. unfold search_route, authOptional.
  destruct (JS.truthy (Request.x_auth_token req)) eqn:Ht; simpl negb; cbv iota.
  - destruct Htok as [Hf|(msg & Hv)]; [discriminate|]. rewrite Hv. simpl fst.
    apply search_liked_requires_identity; [assumption|].
    unfold user_id. rewrite Hu. reflexivity.
  - simpl fst. apply search_liked_requires_identity; [assumption|].
    unfold user_id. rewrite Hu. reflexivity.
Qed.

End Search.

(** C2.  A search with [liked=true] is answered 401 when the route has no
    identity (token missing or rejected).  With an identity the statement
    keeps the songs whose title is the title of some like of the user: in
    the store where alice has liked Adele's 'Hello' only, her search
    also returns Lionel Richie's 'Hello', whose triple is not in her
    UserLike rows. *)
Theorem search_liked_matches_title_only :
  (forall sql_like jwt_verify secret req console db,
      Query.liked (Request.query req) = Some "true" ->
      Request.user req = None ->
      (JS.truthy (Request.x_auth_token req) = false
       \/ exists msg, jwt_verify (JS.value (Request.x_auth_token req)) secret = inl msg) ->
      fst (search_route sql_like jwt_verify secret req console db)
      = send 401 "Authentication required to filter liked songs.")
  /\ (exists r1 r2,
        search_route sample_like sample_verify "k"
          (with_token "good:alice" liked_only) [] catalog_liked
        = (ok [r1; r2], [])
        /\ (sr_songTitle r1, sr_artistName r1, sr_albumTitle r1) = ("Hello", "Adele", "25")
        /\ (sr_songTitle r2, sr_artistName r2, sr_albumTitle r2)
           = ("Hello", "Lionel Richie", "Cant Slow Down")
        /\ likes catalog_liked "alice" "Hello" "Adele" "25"
        /\ ~ likes catalog_liked "alice" "Hello" "Lionel Richie" "Cant Slow Down").
Proof.
  split; [apply search_route_liked_unauthorized|].
  eexists. eexists. split; [reflexivity|]. split; [reflexivity|].
  split; [reflexivity|]. split.
  - exists (like_of "alice" hello_adele 7). split; [left; reflexivity|].
    unfold is_like. simpl. tauto.
  - intros (ul & [<-|[]] & (_ & _ & Ha & _)). discriminate.
Qed.

Example search_by_artist :
  map sr_albumTitle
      (match content (search sample_like (anonymous (by_artist "dele")) catalog) with
       | Json rows => rows
       | Message _ => []
       end) = ["25"]
  /\ status (search sample_like (anonymous liked_only) catalog) = 401
  /\ search_route sample_like sample_verify "k" (with_token "stale" liked_only) [] catalog
     = (send 401 "Authentication required to filter liked songs.",
        ["Invalid token: jwt malformed"]).
Proof. repeat split. Qed.

Lemma search_order_by_plays_witness :
  exists rows,
    search sample_like (anonymous Query.none) catalog = ok rows
    /\ descending rows
    /\ Permutation rows (map search_select (search_from catalog)).
Proof.
  eexists. split; [reflexivity|].
  destruct (search_order_by_plays sample_like (anonymous Query.none) catalog _ eq_refl)
    as (_ & _ & _ & _ & _ & _ & Hnone).
  destruct (Hnone eq_refl) as (Hd & Hp & _). split; [exact Hd|exact Hp].
Defined.

End SearchFacts.

(* ================================================================== *)
(** * Recommendations *)

Module RecommendFacts.
Import Api Http Store Fixtures.
Local Open Scope string_scope.
Local Open Scope list_scope.

Lemma left_match (x : string) (liked : list string) (ob : option string) :
  match ob with
  | None => filter (String.eqb x) liked = []
  | Some b => In b liked /\ String.eqb x b = true
  end <-> ob = joined x liked.
Proof.
  unfold joined. destruct (existsb (String.eqb x) liked) eqn:E.
  - apply existsb_exists in E. destruct E as (y & Hy & Hxy).
    destruct ob as [b|]; split.
    + intros (_ & Hb). apply String.eqb_eq in Hb. congruence.
    + intros [= ->]. apply String.eqb_eq in Hxy. subst y. split; [assumption|].
      apply String.eqb_refl.
    + intros Hnil. apply (proj1 (SqlFacts.where_nil _ _)) with (x := y) in Hnil;
        [congruence|assumption].
    + discriminate.
  - destruct ob as [b|]; split.
    + intros (Hin & Hb).
      assert (Hex : existsb (String.eqb x) liked = true)
        by (apply existsb_exists; exists b; tauto).
      congruence.
    + discriminate.
    + reflexivity.
    + intros _. apply SqlFacts.where_nil. intros y Hy.
      destruct (String.eqb x y) eqn:Hxy; [|reflexivity].
      assert (Hex : existsb (String.eqb x) liked = true)
        by (apply existsb_exists; exists y; tauto).
      congruence.
Qed.

Lemma in_rec_from (username : string) (db : Db.t)
  (s : Song.t) (c : Classification.t) (a al g : option string) :
  In (s, c, a, al, g) (rec_from username db) <->
  In s (Db.tSong db) /\ In c (Db.tClassification db)
  /\ Song.songTitle s = Classification.songTitle c
  /\ Song.artistName s = Classification.artistName c
  /\ Song.albumTitle s = Classification.albumTitle c
  /\ a = joined (Song.artistName s) (liked_artists username db)
  /\ al = joined (Song.albumTitle s) (liked_albums username db)
  /\ g = joined (Classification.genreName c) (liked_genres username db).
Proof.
  unfold rec_from.
  rewrite SqlFacts.in_left_join, SqlFacts.in_left_join, SqlFacts.in_left_join,
    SqlFacts.in_join, FieldFacts.same_triple_eq, !left_match.
  tauto.
Qed.

Lemma rec_key_eqb_eq (k1 k2 : RecKey) : rec_key_eqb k1 k2 = true <-> k1 = k2.
Proof.
  destruct k1 as [[[[[t1 a1] al1] d1] p1] g1].
  destruct k2 as [[[[[t2 a2] al2] d2] p2] g2].
  unfold rec_key_eqb.
  rewrite !andb_true_iff, !String.eqb_eq, !Z.eqb_eq.
  split; [intros H; decompose [and] H; subst; reflexivity|].
  intros [= -> -> -> -> -> ->]. tauto.
Qed.

(** The groups of [GROUP BY]: a group is not empty, and its rows are the
    rows of the key. *)
Lemma in_group_by {A K} (key : A -> K) (keqb : K -> K -> bool) (rows : list A)
  (k : K) (group : list A) :
  (forall x y, keqb x y = true <-> x = y) ->
  In (k, group) (Sql.group_by key keqb rows) <->
  (exists r, In r rows /\ key r = k)
  /\ group = filter (fun r => keqb k (key r)) rows.
Proof.
  intros Hk. unfold Sql.group_by. rewrite in_map_iff. split.
  - intros (k' & Heq & Hin). inversion Heq; subst. split; [|reflexivity].
    rewrite (SqlFacts.in_distinct keqb Hk) in Hin. apply in_map_iff in Hin.
    destruct Hin as (r & Hr & Hin). exists r. tauto.
  - intros ((r & Hin & Hr) & ->). exists k. split; [reflexivity|].
    rewrite (SqlFacts.in_distinct keqb Hk). apply in_map_iff. exists r. tauto.
Qed.

Lemma matches_distinct (x : string) (rows : list string) :
  matches x (Sql.distinct String.eqb rows)
  = if existsb (String.eqb x) rows then 1 else 0.
Proof.
  unfold matches.
  rewrite (SqlFacts.matches_NoDup String.eqb String.eqb_eq x _
             (SqlFacts.NoDup_distinct String.eqb String.eqb_eq rows)).
  rewrite (SqlFacts.existsb_distinct String.eqb String.eqb_eq).
  destruct (existsb (String.eqb x) rows); reflexivity.
Qed.

Lemma count_joined (x : string) (rows : list string) (vals : list (option string)) :
  vals <> [] ->
  (forall w, In w vals -> w = joined x (Sql.distinct String.eqb rows)) ->
  Sql.count_distinct String.eqb vals = matches x (Sql.distinct String.eqb rows).
Proof.
  intros Hne Hall.
  rewrite (SqlFacts.count_distinct_constant String.eqb String.eqb_eq _ vals Hne Hall).
  rewrite matches_distinct. unfold joined.
  rewrite (SqlFacts.existsb_distinct String.eqb String.eqb_eq).
  destruct (existsb (String.eqb x) rows); reflexivity.
Qed.

Lemma matches_zero_or_one (x : string) (rows : list string) :
  matches x (Sql.distinct String.eqb rows) = 0
  \/ matches x (Sql.distinct String.eqb rows) = 1.
Proof.
  rewrite matches_distinct. destruct (existsb (String.eqb x) rows); auto.
Qed.

Lemma not_liked_iff (username : string) (db : Db.t)
  (s : Song.t) (c : Classification.t) (a al g : option string) :
  not_liked username db (s, c, a, al, g) = true
  <-> ~ likes db username (Song.songTitle s) (Song.artistName s) (Song.albumTitle s).
Proof.
  unfold not_liked, likes, is_like. rewrite negb_true_iff. split.
  - intros Hf (ul & Hin & H1 & H2 & H3 & H4).
    assert (Hex : existsb
                    (fun ul2 =>
                       (String.eqb (UserLike.username ul2) username
                        && String.eqb (UserLike.songTitle ul2) (Song.songTitle s)
                        && String.eqb (UserLike.artistName ul2) (Song.artistName s)
                        && String.eqb (UserLike.albumTitle ul2) (Song.albumTitle s))%bool)
                    (Db.tUserLike db) = true).
    { apply existsb_exists. exists ul. split; [assumption|].
      rewrite !andb_true_iff, !String.eqb_eq. tauto. }
    congruence.
  - intros Hno. apply not_true_is_false. intros Hex.
    apply existsb_exists in Hex. destruct Hex as (ul & Hin & Hm).
    rewrite !andb_true_iff, !String.eqb_eq in Hm. apply Hno. exists ul. tauto.
Qed.

(** One group of the statement: the song and classification it stands for,
    and the three counts of its score. *)
Lemma group_counts (username : string) (db : Db.t)
  (t a al : string) (d p : Z) (gn : string) (group : list RecFrom) :
  In ((t, a, al, d, p, gn), group) (rec_groups username db) ->
  (exists s c,
      In s (Db.tSong db) /\ In c (Db.tClassification db)
      /\ Song.songTitle s = t /\ Song.artistName s = a /\ Song.albumTitle s = al
      /\ Song.duration s = d /\ Song.plays s = p
      /\ Classification.songTitle c = t /\ Classification.artistName c = a
      /\ Classification.albumTitle c = al /\ Classification.genreName c = gn)
  /\ ~ likes db username t a al
  /\ Sql.count_distinct String.eqb (map col_a group)
     = matches a (liked_artists username db)
  /\ Sql.count_distinct String.eqb (map col_al group)
     = matches al (liked_albums username db)
  /\ Sql.count_distinct String.eqb (map col_g group)
     = matches gn (liked_genres username db).
Proof.
  intros Hin. unfold rec_groups in Hin.
  apply (in_group_by _ _ _ _ _ rec_key_eqb_eq) in Hin.
  destruct Hin as ((r0 & Hr0 & Hk0) & Hgroup).
  assert (Hrow : forall r, In r group ->
            col_a r = joined a (liked_artists username db)
            /\ col_al r = joined al (liked_albums username db)
            /\ col_g r = joined gn (liked_genres username db)).
  { intros r Hr. rewrite Hgroup in Hr. apply filter_In in Hr.
    destruct Hr as (Hr & Hk). apply rec_key_eqb_eq in Hk.
    apply SqlFacts.in_where in Hr. destruct Hr as (Hr & _).
    destruct r as [[[[s c] ca] cal] cg]. apply in_rec_from in Hr.
    simpl in Hk. injection Hk as -> -> -> -> -> ->. simpl. tauto. }
  assert (Hne : group <> []).
  { intros Hnil. assert (Hin0 : In r0 group).
    { rewrite Hgroup. apply filter_In. split; [assumption|].
      apply rec_key_eqb_eq. symmetry. assumption. }
    rewrite Hnil in Hin0. contradiction. }
  assert (Hvals : forall col : RecFrom -> option string, map col group <> []).
  { intros col Hnil. apply map_eq_nil in Hnil. contradiction. }
  apply SqlFacts.in_where in Hr0. destruct Hr0 as (Hfrom & Hnl).
  destruct r0 as [[[[s c] ca] cal] cg].
  apply not_liked_iff in Hnl. apply in_rec_from in Hfrom.
  simpl in Hk0. injection Hk0 as <- <- <- <- <- <-.
  split; [exists s, c; intuition congruence|]. split; [exact Hnl|].
  split; [|split]; apply count_joined; try apply Hvals;
    intros w Hw; apply in_map_iff in Hw; destruct Hw as (r & <- & Hr);
    apply Hrow; assumption.
Qed.

Lemma in_recommendation_rows (username : string) (db : Db.t) (r : RecRow) :
  In r (recommendation_rows username db) <->
  exists k group,
    In (k, group) (rec_groups username db)
    /\ 0 < rec_score group
    /\ r = rec_select (k, group).
Proof.
  unfold recommendation_rows.
  rewrite SqlFacts.in_order_by, in_map_iff. split.
  - intros ([k group] & Hr & Hin). apply SqlFacts.in_where in Hin.
    exists k, group. rewrite Z.ltb_lt in Hin. intuition.
  - intros (k & group & Hin & Hs & Hr). exists (k, group).
    split; [symmetry; assumption|]. apply SqlFacts.in_where.
    rewrite Z.ltb_lt. tauto.
Qed.




Lemma row_of_group (username : string) (db : Db.t) (r : RecRow) :
  In r (recommendation_rows username db) ->
  exists group,
    In ((rr_songTitle r, rr_artistName r, rr_albumTitle r, rr_duration r,
         rr_plays r, rr_genreName r), group) (rec_groups username db)
    /\ score r = rec_score group
    /\ 0 < score r.
Proof.
  intros Hr. apply in_recommendation_rows in Hr.
  destruct Hr as ([[[[[t a] al] d] p] gn] & group & Hin & Hs & ->).
  exists group. simpl. tauto.
Qed.

Lemma matches_liked_artists (username : string) (db : Db.t) (x : string) :
  matches x (liked_artists username db) = 1
  <-> exists ul, In ul (Db.tUserLike db)
                 /\ UserLike.username ul = username /\ UserLike.artistName ul = x.
Proof.
  unfold liked_artists, likes_of. rewrite matches_distinct.
  destruct (existsb _ _) eqn:E.
  - split; [intros _|reflexivity]. apply existsb_exists in E.
    destruct E as (y & Hy & Hxy). apply String.eqb_eq in Hxy. subst y.
    apply in_map_iff in Hy. destruct Hy as (ul & Hx & Hin).
    apply SqlFacts.in_where in Hin. rewrite String.eqb_eq in Hin.
    exists ul. tauto.
  - split; [discriminate|]. intros (ul & Hin & Hu & Hx).
    assert (Hex : existsb (String.eqb x)
                    (map UserLike.artistName
                       (Sql.where_ (fun ul => String.eqb (UserLike.username ul) username)
                                   (Db.tUserLike db))) = true).
    { apply existsb_exists. exists x. split; [|apply String.eqb_refl].
      apply in_map_iff. exists ul. split; [assumption|].
      apply SqlFacts.in_where. rewrite String.eqb_eq. tauto. }
    congruence.
Qed.

Lemma matches_liked_albums (username : string) (db : Db.t) (x : string) :
  matches x (liked_albums username db) = 1
  <-> exists ul, In ul (Db.tUserLike db)
                 /\ UserLike.username ul = username /\ UserLike.albumTitle ul = x.
Proof.
  unfold liked_albums, likes_of. rewrite matches_distinct.
  destruct (existsb _ _) eqn:E.
  - split; [intros _|reflexivity]. apply existsb_exists in E.
    destruct E as (y & Hy & Hxy). apply String.eqb_eq in Hxy. subst y.
    apply in_map_iff in Hy. destruct Hy as (ul & Hx & Hin).
    apply SqlFacts.in_where in Hin. rewrite String.eqb_eq in Hin.
    exists ul. tauto.
  - split; [discriminate|]. intros (ul & Hin & Hu & Hx).
    assert (Hex : existsb (String.eqb x)
                    (map UserLike.albumTitle
                       (Sql.where_ (fun ul => String.eqb (UserLike.username ul) username)
                                   (Db.tUserLike db))) = true).
    { apply existsb_exists. exists x. split; [|apply String.eqb_refl].
      apply in_map_iff. exists ul. split; [assumption|].
      apply SqlFacts.in_where. rewrite String.eqb_eq. tauto. }
    congruence.
Qed.

Lemma in_liked_genres (username : string) (db : Db.t) (x : string) :
  In x (liked_genres username db)
  <-> exists ul c2, In ul (Db.tUserLike db) /\ In c2 (Db.tClassification db)
                    /\ UserLike.username ul = username
                    /\ UserLike.songTitle ul = Classification.songTitle c2
                    /\ UserLike.artistName ul = Classification.artistName c2
                    /\ UserLike.albumTitle ul = Classification.albumTitle c2
                    /\ Classification.genreName c2 = x.
Proof.
  unfold liked_genres.
  rewrite (SqlFacts.in_distinct String.eqb String.eqb_eq), in_map_iff. split.
  - intros ([ul c2] & Hx & Hin). apply SqlFacts.in_where in Hin.
    destruct Hin as (Hj & Hu). apply SqlFacts.in_join in Hj.
    rewrite FieldFacts.same_triple_eq in Hj. rewrite String.eqb_eq in Hu.
    exists ul, c2. tauto.
  - intros (ul & c2 & H1 & H2 & H3 & H4 & H5 & H6 & H7). exists (ul, c2).
    split; [assumption|]. apply SqlFacts.in_where. rewrite String.eqb_eq.
    split; [|assumption]. apply SqlFacts.in_join.
    rewrite FieldFacts.same_triple_eq. tauto.
Qed.

Lemma matches_liked_genres (username : string) (db : Db.t) (x : string) :
  matches x (liked_genres username db) = 1
  <-> exists ul c2, In ul (Db.tUserLike db) /\ In c2 (Db.tClassification db)
                    /\ UserLike.username ul = username
                    /\ UserLike.songTitle ul = Classification.songTitle c2
                    /\ UserLike.artistName ul = Classification.artistName c2
                    /\ UserLike.albumTitle ul = Classification.albumTitle c2
                    /\ Classification.genreName c2 = x.
Proof.
  rewrite <- in_liked_genres. unfold liked_genres at 1.
  rewrite matches_distinct.
  rewrite <- (SqlFacts.existsb_distinct String.eqb String.eqb_eq).
  fold (liked_genres username db).
  destruct (existsb _ _) eqn:E.
  - split; [intros _|reflexivity]. apply existsb_exists in E.
    destruct E as (y & Hy & Hxy). apply String.eqb_eq in Hxy. subst y. exact Hy.
  - split; [discriminate|]. intros Hin.
    assert (Hex : existsb (String.eqb x) (liked_genres username db) = true)
      by (apply existsb_exists; exists x; split; [assumption|apply String.eqb_refl]).
    congruence.
Qed.


Lemma liked_lists_distinct (username : string) (db : Db.t) (x : string) :
  (matches x (liked_artists username db) = 0 \/ matches x (liked_artists username db) = 1)
  /\ (matches x (liked_albums username db) = 0 \/ matches x (liked_albums username db) = 1)
  /\ (matches x (liked_genres username db) = 0 \/ matches x (liked_genres username db) = 1).
Proof.
  unfold liked_artists, liked_albums, liked_genres.
  repeat split; apply matches_zero_or_one.
Qed.

Lemma row_score (username : string) (db : Db.t) (r : RecRow) :
  In r (recommendation_rows username db) ->
  score r = 3 * matches (rr_artistName r) (liked_artists username db)
            + 2 * matches (rr_albumTitle r) (liked_albums username db)
            + 1 * matches (rr_genreName r) (liked_genres username db)
  /\ 0 < score r.
Proof.
  intros Hr. destruct (row_of_group username db r Hr) as (group & Hin & Hs & Hpos).
  destruct (group_counts username db _ _ _ _ _ _ group Hin)
    as (_ & _ & Ea & Eal & Eg).
  split; [|exact Hpos]. rewrite Hs. unfold rec_score. rewrite Ea, Eal, Eg.
  reflexivity.
Qed.

(** The example scenario of the specification.  User A likes two songs
    by artist X and one song of album Y by artist Z.  The third song by X,
    on an album and in a genre A has not liked, is recommended with score
    3: the artist is counted once.  Fifth, by another artist W, scores 2
    because its album is titled Y as a liked album is.  No row of any
    result matches two liked artists. *)
Lemma recommendation_artist_counted_once :
  map (fun r => (rr_songTitle r, rr_artistName r, rr_albumTitle r,
                 rr_genreName r, score r))
      (recommendation_rows "A" overlap)
  = [("Fourth", "X", "One", "Jazz", 5); ("Third", "X", "Three", "Jazz", 3);
     ("Fifth", "W", "Y", "Blues", 2); ("Sixth", "V", "Solo", "Folk", 1)]
  /\ List.length (filter (fun ul => String.eqb (UserLike.artistName ul) "X")
                         (likes_of "A" overlap)) = 2%nat
  /\ matches "Three" (liked_albums "A" overlap) = 0
  /\ matches "Jazz" (liked_genres "A" overlap) = 0
  /\ ~ (exists username db r,
          In r (recommendation_rows username db)
          /\ matches (rr_artistName r) (liked_artists username db) = 2).
Proof.
  split; [reflexivity|]. split; [reflexivity|]. split; [reflexivity|].
  split; [reflexivity|].
  intros (username & db & r & _ & H2).
  destruct (liked_lists_distinct username db (rr_artistName r)) as ([H|H] & _);
    rewrite H in H2; discriminate.
Qed.



(** C10.  In every row of the recommendations each of the three
    [COUNT(DISTINCT ...)] of its group is 0 or 1: the rows of a group share
    one artist, one album and one genre, and each left join brings that
    value or NULL.  Hence the score of the row is at least 1 and at most 6. *)
Theorem recommendation_score_bounds
  (username : string) (db : Db.t) (r : RecRow)
  (Hr : In r (recommendation_rows username db)) :
  exists group,
    In ((rr_songTitle r, rr_artistName r, rr_albumTitle r, rr_duration r,
         rr_plays r, rr_genreName r), group) (rec_groups username db)
    /\ score r = 3 * Sql.count_distinct String.eqb (map col_a group)
                 + 2 * Sql.count_distinct String.eqb (map col_al group)
                 + 1 * Sql.count_distinct String.eqb (map col_g group)
    /\ (Sql.count_distinct String.eqb (map col_a group) = 0
        \/ Sql.count_distinct String.eqb (map col_a group) = 1)
    /\ (Sql.count_distinct String.eqb (map col_al group) = 0
        \/ Sql.count_distinct String.eqb (map col_al group) = 1)
    /\ (Sql.count_distinct String.eqb (map col_g group) = 0
        \/ Sql.count_distinct String.eqb (map col_g group) = 1)
    /\ 1 <= score r <= 6.
Proof.
  destruct (row_of_group username db r Hr) as (group & Hin & Hs & Hpos).
  destruct (group_counts username db _ _ _ _ _ _ group Hin)
    as (_ & _ & Ea & Eal & Eg).
  destruct (liked_lists_distinct username db (rr_artistName r)) as (Ha & _).
  destruct (liked_lists_distinct username db (rr_albumTitle r)) as (_ & Hal & _).
  destruct (liked_lists_distinct username db (rr_genreName r)) as (_ & _ & Hg).
  exists group. split; [exact Hin|]. split; [exact Hs|].
  rewrite Ea, Eal, Eg. split; [exact Ha|]. split; [exact Hal|]. split; [exact Hg|].
  rewrite Hs in *. unfold rec_score in *. rewrite Ea, Eal, Eg in *. lia.
Qed.

Lemma recommendation_score_bounds_witness :
  exists group,
    In (("Fourth", "X", "One", 180, 50, "Jazz"), group) (rec_groups "A" overlap)
    /\ 5 = 3 * Sql.count_distinct String.eqb (map col_a group)
           + 2 * Sql.count_distinct String.eqb (map col_al group)
           + 1 * Sql.count_distinct String.eqb (map col_g group)
    /\ (Sql.count_distinct String.eqb (map col_a group) = 0
        \/ Sql.count_distinct String.eqb (map col_a group) = 1)
    /\ (Sql.count_distinct String.eqb (map col_al group) = 0
        \/ Sql.count_distinct String.eqb (map col_al group) = 1)
    /\ (Sql.count_distinct String.eqb (map col_g group) = 0
        \/ Sql.count_distinct String.eqb (map col_g group) = 1)
    /\ 1 <= 5 <= 6.
Proof.
  apply (recommendation_score_bounds "A" overlap
           {| rr_songTitle := "Fourth"; rr_artistName := "X"; rr_albumTitle := "One";
              rr_duration := 180; rr_plays := 50; rr_genreName := "Jazz";
              score := 5 |}).
  left. reflexivity.
Defined.

End RecommendFacts.

(* ================================================================== *)
(** * Facts about updates and keys *)

Module UpdateFacts.
Import DbUpdate.

Lemma in_delete {A} (p : A -> bool) (rows : list A) (x : A) :
  In x (delete p rows) <-> In x rows /\ p x = false.
Proof.
  unfold delete. rewrite SqlFacts.in_where, negb_true_iff. tauto.
Qed.

Lemma delete_none {A} (p : A -> bool) (rows : list A) :
  (forall x, In x rows -> p x = false) -> delete p rows = rows.
Proof.
  intros H. unfold delete. apply SqlFacts.where_all.
  intros x Hx. rewrite (H x Hx). reflexivity.
Qed.

Lemma delete_app {A} (p : A -> bool) (l1 l2 : list A) :
  delete p (l1 ++ l2) = delete p l1 ++ delete p l2.
Proof. unfold delete, Sql.where_. apply filter_app. Qed.

(** Deleting the rows of a key that was just appended gives back the table. *)
Lemma delete_snoc_fresh {A} (p : A -> bool) (rows : list A) (x : A) :
  p x = true -> (forall r, In r rows -> p r = false) ->
  delete p (rows ++ [x]) = rows.
Proof.
  intros Hx Hrows. rewrite delete_app, (delete_none p rows Hrows).
  unfold delete, Sql.where_. simpl. rewrite Hx. simpl. apply app_nil_r.
Qed.

Lemma where_app {A} (p : A -> bool) (l1 l2 : list A) :
  Sql.where_ p (l1 ++ l2) = Sql.where_ p l1 ++ Sql.where_ p l2.
Proof. unfold Sql.where_. apply filter_app. Qed.

Lemma where_update {A} (p : A -> bool) (set : A -> A) (rows : list A) :
  (forall r, p (set r) = p r) ->
  Sql.where_ p (update p set rows) = map set (Sql.where_ p rows).
Proof.
  intros Hp. unfold update, Sql.where_.
  induction rows as [|r t IH]; simpl; [reflexivity|].
  destruct (p r) eqn:E; simpl.
  - rewrite Hp, E. simpl. f_equal. exact IH.
  - rewrite E. exact IH.
Qed.

Lemma where_update_other {A} (p q : A -> bool) (set : A -> A) (rows : list A) :
  (forall r, q (set r) = q r) ->
  (forall r, q r = true -> p r = false) ->
  Sql.where_ q (update p set rows) = Sql.where_ q rows.
Proof.
  intros Hq Hdisj. unfold update, Sql.where_.
  induction rows as [|r t IH]; simpl; [reflexivity|].
  destruct (p r) eqn:E.
  - rewrite Hq. destruct (q r) eqn:Eq.
    + rewrite (Hdisj r Eq) in E. discriminate.
    + exact IH.
  - destruct (q r); [f_equal|]; exact IH.
Qed.

Lemma map_update {A B} (f : A -> B) (p : A -> bool) (set : A -> A) (rows : list A) :
  (forall r, f (set r) = f r) -> map f (update p set rows) = map f rows.
Proof.
  intros Hf. unfold update. rewrite map_map. apply map_ext.
  intros r. destruct (p r); [apply Hf|reflexivity].
Qed.

Lemma in_update {A} (p : A -> bool) (set : A -> A) (rows : list A) (x : A) :
  In x (update p set rows) ->
  exists r, In r rows /\ x = if p r then set r else r.
Proof.
  unfold update. rewrite in_map_iff. intros (r & Hx & Hr). exists r.
  split; [assumption|symmetry; assumption].
Qed.

(** Keys stay pairwise different when rows are removed. *)
Lemma NoDup_map_filter {A B} (f : A -> B) (p : A -> bool) (rows : list A) :
  NoDup (map f rows) -> NoDup (map f (filter p rows)).
Proof.
  induction rows as [|r t IH]; simpl; intros Hnd; [constructor|].
  inversion Hnd as [|? ? Hnin Hnd']; subst.
  destruct (p r); simpl; [|apply IH; assumption].
  constructor; [|apply IH; assumption].
  intros Hin. apply Hnin. apply in_map_iff in Hin.
  destruct Hin as (x & Hx & Hin). apply filter_In in Hin.
  apply in_map_iff. exists x. tauto.
Qed.

(** Keys stay pairwise different when a row with a new key is appended. *)
Lemma NoDup_map_snoc {A B} (f : A -> B) (rows : list A) (x : A) :
  NoDup (map f rows) -> ~ In (f x) (map f rows) -> NoDup (map f (rows ++ [x])).
Proof.
  intros Hnd Hnew. rewrite map_app. simpl.
  apply NoDup_app; [assumption|repeat constructor; intros []|].
  intros y Hy [<-|[]]. contradiction.
Qed.

Lemma update_none {A} (p : A -> bool) (set : A -> A) (rows : list A) :
  (forall x, In x rows -> p x = false) -> update p set rows = rows.
Proof.
  intros H. unfold update. rewrite <- (map_id rows) at 2. apply map_ext_in.
  intros x Hx. rewrite (H x Hx). reflexivity.
Qed.

(** Two rows of a table with pairwise different keys that share a key are
    the same row. *)
Lemma NoDup_map_inj {A B} (f : A -> B) (rows : list A) (a b : A) :
  NoDup (map f rows) -> In a rows -> In b rows -> f a = f b -> a = b.
Proof.
  induction rows as [|r t IH]; simpl; intros Hnd Ha Hb Hf; [contradiction|].
  inversion Hnd as [|? ? Hnin Hnd']; subst.
  destruct Ha as [<-|Ha], Hb as [<-|Hb].
  - reflexivity.
  - elim Hnin. rewrite Hf. apply in_map. assumption.
  - elim Hnin. rewrite <- Hf. apply in_map. assumption.
  - apply IH; assumption.
Qed.

(** The key of a row selects that row alone. *)
Lemma where_key {A} (f : A -> string) (rows : list A) (x : A) :
  NoDup (map f rows) -> In x rows ->
  Sql.where_ (fun r => String.eqb (f r) (f x)) rows = [x].
Proof.
  unfold Sql.where_. induction rows as [|r t IH]; simpl; intros Hnd Hx;
    [contradiction|].
  inversion Hnd as [|? ? Hnin Hnd']; subst.
  destruct Hx as [->|Hx].
  - rewrite String.eqb_refl. f_equal.
    apply (proj2 (SqlFacts.where_nil _ t)). intros y Hy.
    apply String.eqb_neq. intros E. apply Hnin. rewrite <- E.
    apply in_map. assumption.
  - destruct (String.eqb_spec (f r) (f x)) as [E|_].
    + elim Hnin. rewrite E. apply in_map. assumption.
    + apply IH; assumption.
Qed.

Lemma where_update_commute {A} (p q : A -> bool) (set : A -> A) (rows : list A) :
  (forall r, q (set r) = q r) ->
  Sql.where_ q (update p set rows) = update p set (Sql.where_ q rows).
Proof.
  intros Hq. unfold update, Sql.where_.
  induction rows as [|r t IH]; simpl; [reflexivity|].
  destruct (p r) eqn:E.
  - rewrite Hq. destruct (q r); simpl; [rewrite E; f_equal|]; exact IH.
  - destruct (q r); simpl; [rewrite E; f_equal|]; exact IH.
Qed.

End UpdateFacts.

(* ================================================================== *)
(** * Accounts *)

Module AccountFacts.
Import Api Http Store Inv Fixtures Samples Account.
Local Open Scope string_scope.
Local Open Scope list_scope.

Section Account.
Variable bcrypt_compare : string -> string -> bool.
Variable bcrypt_hash : string -> Z -> string -> string.

Lemma register_cases (u e p : string) (bio : option string) (salt : string)
  (db : Db.t) :
  u <> "" -> e <> "" -> p <> "" ->
  (has_username db u
   /\ register bcrypt_hash (Some u) (Some e) (Some p) bio salt db
      = (send 400 "Username already taken. Please choose another one.", db))
  \/ (~ has_username db u /\ has_email db e
      /\ register bcrypt_hash (Some u) (Some e) (Some p) bio salt db
         = (send 400 "Email already registered. Please use a different email.", db))
  \/ (~ has_username db u /\ ~ has_email db e
      /\ register bcrypt_hash (Some u) (Some e) (Some p) bio salt db
         = (send 201 "User registered successfully. You can now log in.",
            DbUpdate.with_User db
              (Db.tUser db ++ [{| User.username := u; User.email := e;
                                  User.password := bcrypt_hash p 10 salt;
                                  User.bio := if JS.truthy bio then bio else None |}]))).
Proof using bcrypt_hash.
  intros Hu He Hp. unfold register.
  rewrite !FieldFacts.truthy_some by assumption. simpl negb. simpl orb. cbv iota.
  simpl JS.value.
  destruct (FieldFacts.where_cases (fun x => String.eqb (User.username x) u)
              (fun x => User.username x = u) (Db.tUser db)
              (fun x => String.eqb_eq _ _)) as [(-> & Hno)|((x & rest & ->) & Hyes)].
  - right. simpl List.length. simpl Z.ltb. cbv iota.
    destruct (FieldFacts.where_cases (fun x => String.eqb (User.email x) e)
                (fun x => User.email x = e) (Db.tUser db)
                (fun x => String.eqb_eq _ _)) as [(-> & Hne)|((x & rest & ->) & Hye)].
    + right. split; [exact Hno|]. split; [exact Hne|reflexivity].
    + left. split; [exact Hno|]. split; [exact Hye|reflexivity].
  - left. split; [exact Hyes|reflexivity].
Qed.

Lemma register_missing (username email password bio : option string)
  (salt : string) (db : Db.t) :
  (JS.truthy username && JS.truthy email && JS.truthy password)%bool = false ->
  register bcrypt_hash username email password bio salt db
  = (send 400 "Please provide username, email, and password.", db).
Proof using bcrypt_hash.
  intros H. unfold register.
  destruct (JS.truthy username), (JS.truthy email), (JS.truthy password);
    try discriminate H; reflexivity.
Qed.

(** A registration that answers 201 was given three non-empty fields, a
    free username and a free email, and appended one row. *)
Lemma register_created (username email password bio : option string)
  (salt : string) (db : Db.t) :
  status (fst (register bcrypt_hash username email password bio salt db)) = 201 ->
  exists u e p,
    username = Some u /\ email = Some e /\ password = Some p
    /\ u <> "" /\ e <> "" /\ p <> ""
    /\ ~ has_username db u /\ ~ has_email db e
    /\ snd (register bcrypt_hash username email password bio salt db)
       = DbUpdate.with_User db
           (Db.tUser db ++ [{| User.username := u; User.email := e;
                               User.password := bcrypt_hash p 10 salt;
                               User.bio := if JS.truthy bio then bio else None |}]).
Proof using bcrypt_hash.
  intros H201.
  destruct (JS.truthy username && JS.truthy email && JS.truthy password)%bool eqn:Ht.
  - apply andb_true_iff in Ht. destruct Ht as (Ht & Hp).
    apply andb_true_iff in Ht. destruct Ht as (Hu & He).
    destruct username as [u|]; [|discriminate Hu].
    destruct email as [e|]; [|discriminate He].
    destruct password as [p|]; [|discriminate Hp].
    assert (Hu' : u <> "") by (intros ->; discriminate Hu).
    assert (He' : e <> "") by (intros ->; discriminate He).
    assert (Hp' : p <> "") by (intros ->; discriminate Hp).
    exists u, e, p.
    destruct (register_cases u e p bio salt db Hu' He' Hp')
      as [(_ & E)|[(_ & _ & E)|(Hnu & Hne & E)]]; rewrite E in H201 |- *;
      try discriminate H201.
    simpl. repeat split; try reflexivity; assumption.
  - rewrite (register_missing _ _ _ _ _ _ Ht) in H201. discriminate H201.
Qed.

(** X1.  Registration.  A missing or empty username, email or password
    is answered 400 ['Please provide ...'].  With three non-empty fields:
    400 ['Username already taken.'] when the username is registered,
    whatever the email; 400
    ['Email already registered.'] when only the email is; otherwise 201
    and one row is appended holding the username, the email, the hash of
    the password and the bio, an empty bio being stored as NULL.  The store
    is unchanged on both failures. *)
Theorem register_outcomes (u e p : string) (bio : option string) (salt : string)
  (db : Db.t) (Hu : u <> "") (He : e <> "") (Hp : p <> "") :
  (forall username email password,
      (JS.truthy username && JS.truthy email && JS.truthy password)%bool = false ->
      register bcrypt_hash username email password bio salt db
      = (send 400 "Please provide username, email, and password.", db))
  /\ ((has_username db u
   /\ register bcrypt_hash (Some u) (Some e) (Some p) bio salt db
      = (send 400 "Username already taken. Please choose another one.", db))
  \/ (~ has_username db u /\ has_email db e
      /\ register bcrypt_hash (Some u) (Some e) (Some p) bio salt db
         = (send 400 "Email already registered. Please use a different email.", db))
  \/ (~ has_username db u /\ ~ has_email db e
      /\ register bcrypt_hash (Some u) (Some e) (Some p) bio salt db
         = (send 201 "User registered successfully. You can now log in.",
            DbUpdate.with_User db
              (Db.tUser db ++ [{| User.username := u; User.email := e;
                                  User.password := bcrypt_hash p 10 salt;
                                  User.bio := if JS.truthy bio then bio else None |}])))).
Proof using bcrypt_hash.
  split.
  - intros username email password Hmissing. apply register_missing. exact Hmissing.
  - apply register_cases; assumption.
Qed.

Lemma users_sound_update (p : User.t -> bool) (set : User.t -> User.t)
  (users : list User.t) :
  (forall r, User.username (set r) = User.username r) ->
  (forall r, User.email (set r) = User.email r) ->
  users_sound users -> users_sound (DbUpdate.update p set users).
Proof using Type.
  intros Hn He (H1 & H2 & H3). unfold users_sound.
  rewrite !UpdateFacts.map_update by assumption.
  split; [exact H1|]. split; [exact H2|].
  intros x Hx. apply UpdateFacts.in_update in Hx. destruct Hx as (r & Hr & ->).
  destruct (p r); [rewrite Hn, He|]; apply H3; assumption.
Qed.

(** X2.  Every account route keeps the User table well formed: usernames
    pairwise different, emails pairwise different, none of them empty.
    Registration, bio update, password change and account deletion are
    covered, whatever their arguments and whatever they answer. *)
Theorem account_routes_keep_users_sound
  (db : Db.t) (Hsound : users_sound (Db.tUser db)) :
  (forall username email password bio salt,
      users_sound (Db.tUser (snd (register bcrypt_hash username email password
                                           bio salt db))))
  /\ (forall username bio,
        users_sound (Db.tUser (snd (update_bio username bio db))))
  /\ (forall username current new confirm salt,
        users_sound (Db.tUser (snd (change_password bcrypt_compare bcrypt_hash
                                      username current new confirm salt db))))
  /\ (forall username, users_sound (snd (delete_profile username db))).
Proof.
  split; [|split; [|split]].
  - intros username email password bio salt.
    destruct (Z.eq_dec
                (status (fst (register bcrypt_hash username email password bio salt db)))
                201) as [H201|Hnot].
    + destruct (register_created _ _ _ _ _ _ H201)
        as (u & e & p & -> & -> & -> & Hu & He & Hp & Hnu & Hne & ->).
      simpl. destruct Hsound as (H1 & H2 & H3). split; [|split].
      * apply UpdateFacts.NoDup_map_snoc; [assumption|]. simpl.
        intros Hin. apply in_map_iff in Hin. destruct Hin as (x & Hx & Hin).
        apply Hnu. exists x. tauto.
      * apply UpdateFacts.NoDup_map_snoc; [assumption|]. simpl.
        intros Hin. apply in_map_iff in Hin. destruct Hin as (x & Hx & Hin).
        apply Hne. exists x. tauto.
      * intros x Hx. apply in_app_or in Hx. destruct Hx as [Hx|[<-|[]]].
        -- apply H3. assumption.
        -- simpl. tauto.
    + assert (E : snd (register bcrypt_hash username email password bio salt db) = db).
      { destruct (JS.truthy username && JS.truthy email && JS.truthy password)%bool
          eqn:Ht.
        - apply andb_true_iff in Ht. destruct Ht as (Ht & Hp).
          apply andb_true_iff in Ht. destruct Ht as (Hu & He).
          destruct username as [u|]; [|discriminate Hu].
          destruct email as [e|]; [|discriminate He].
          destruct password as [p|]; [|discriminate Hp].
          assert (Hu' : u <> "") by (intros ->; discriminate Hu).
          assert (He' : e <> "") by (intros ->; discriminate He).
          assert (Hp' : p <> "") by (intros ->; discriminate Hp).
          destruct (register_cases u e p bio salt db Hu' He' Hp')
            as [(_ & E)|[(_ & _ & E)|(_ & _ & E)]]; rewrite E in Hnot |- *;
            try reflexivity.
          elim Hnot. reflexivity.
        - rewrite (register_missing _ _ _ _ _ _ Ht). reflexivity. }
      rewrite E. exact Hsound.
  - intros username bio. simpl. apply users_sound_update; try reflexivity. exact Hsound.
  - intros username current new confirm salt. unfold change_password.
    destruct (_ || _ || _)%bool; [exact Hsound|].
    destruct (negb (String.eqb _ _)); [exact Hsound|].
    destruct (Sql.where_ _ _) as [|user rest]; [exact Hsound|].
    destruct (negb (bcrypt_compare _ _)); [exact Hsound|].
    simpl. apply users_sound_update; try reflexivity. exact Hsound.
  - intros username. simpl. destruct Hsound as (H1 & H2 & H3).
    unfold DbUpdate.delete, Sql.where_. split; [|split].
    + apply UpdateFacts.NoDup_map_filter. assumption.
    + apply UpdateFacts.NoDup_map_filter. assumption.
    + intros x Hx. apply filter_In in Hx. apply H3. tauto.
Qed.

Lemma with_User_same (db : Db.t) : DbUpdate.with_User db (Db.tUser db) = db.
Proof using Type. destruct db. reflexivity. Qed.

Lemma username_eqb_other (username v : string) :
  v <> username ->
  forall r : User.t, String.eqb (User.username r) v = true ->
                     String.eqb (User.username r) username = false.
Proof using Type.
  intros Hv r E. apply String.eqb_eq in E. apply String.eqb_neq. congruence.
Qed.

(** X5.  Bio update.  The route answers 200 whether or not the username
    has a row.  Usernames, emails and password hashes are kept; the
    profile of the caller afterwards is the former one with the new bio
    (the empty string and NULL are stored as given); every other user's
    profile is unchanged, and so is the whole store when the caller has no
    row. *)
Theorem update_bio_overwrites (username : string) (bio : option string) (db : Db.t) :
  fst (update_bio username bio db) = send 200 "Bio updated successfully."
  /\ map User.username (Db.tUser (snd (update_bio username bio db)))
     = map User.username (Db.tUser db)
  /\ map User.email (Db.tUser (snd (update_bio username bio db)))
     = map User.email (Db.tUser db)
  /\ map User.password (Db.tUser (snd (update_bio username bio db)))
     = map User.password (Db.tUser db)
  /\ (forall pu,
        get_profile username db = ok pu ->
        get_profile username (snd (update_bio username bio db))
        = ok {| pu_username := pu_username pu; pu_email := pu_email pu;
                pu_bio := bio |})
  /\ (get_profile username db = send 404 "User not found." ->
      snd (update_bio username bio db) = db)
  /\ (forall v, v <> username ->
                get_profile v (snd (update_bio username bio db)) = get_profile v db).
Proof using Type.
  split; [reflexivity|]. simpl snd. simpl Db.tUser.
  split; [apply UpdateFacts.map_update; reflexivity|].
  split; [apply UpdateFacts.map_update; reflexivity|].
  split; [apply UpdateFacts.map_update; reflexivity|].
  split; [|split].
  - intros pu Hpu. unfold get_profile in *. simpl Db.tUser.
    rewrite UpdateFacts.where_update by reflexivity.
    destruct (Sql.where_ _ (Db.tUser db)) as [|user rest]; [discriminate Hpu|].
    injection Hpu as <-. reflexivity.
  - intros H404. unfold get_profile in H404.
    destruct (Sql.where_ _ (Db.tUser db)) as [|user rest] eqn:Hq; [|discriminate H404].
    rewrite UpdateFacts.update_none; [apply with_User_same|].
    apply SqlFacts.where_nil. exact Hq.
  - intros v Hv. unfold get_profile. simpl Db.tUser.
    rewrite UpdateFacts.where_update_other;
      [reflexivity|reflexivity|apply username_eqb_other; assumption].
Qed.

Lemma change_password_ok_inv (username : string)
  (current new confirm : option string) (salt : string) (db : Db.t) :
  status (fst (change_password bcrypt_compare bcrypt_hash username current new
                 confirm salt db)) = 200 ->
  exists c n user rest,
    current = Some c /\ new = Some n /\ confirm = Some n /\ c <> "" /\ n <> ""
    /\ Sql.where_ (fun u => String.eqb (User.username u) username) (Db.tUser db)
       = user :: rest
    /\ bcrypt_compare c (User.password user) = true
    /\ snd (change_password bcrypt_compare bcrypt_hash username current new
               confirm salt db)
       = DbUpdate.with_User db
           (DbUpdate.update (fun u => String.eqb (User.username u) username)
                            (set_password (bcrypt_hash n 10 salt)) (Db.tUser db)).
Proof.
  unfold change_password.
  destruct (JS.truthy current) eqn:Hc; [|discriminate].
  destruct (JS.truthy new) eqn:Hn; [|discriminate].
  destruct (JS.truthy confirm) eqn:Hf; [|discriminate].
  simpl negb. simpl orb. cbv iota.
  destruct current as [c|]; [|discriminate Hc].
  destruct new as [n|]; [|discriminate Hn].
  destruct confirm as [f|]; [|discriminate Hf].
  simpl JS.value.
  destruct (String.eqb_spec n f) as [<-|Hne]; simpl negb; cbv iota; [|discriminate].
  destruct (Sql.where_ _ (Db.tUser db)) as [|user rest]; [discriminate|].
  destruct (bcrypt_compare c (User.password user)) eqn:Hm; simpl negb; cbv iota;
    [|discriminate].
  intros _. exists c, n, user, rest.
  assert (Hc' : c <> "") by (intros ->; discriminate Hc).
  assert (Hn' : n <> "") by (intros ->; discriminate Hn).
  repeat split; try reflexivity; assumption.
Qed.

Lemma change_password_failed (username : string)
  (current new confirm : option string) (salt : string) (db : Db.t) :
  status (fst (change_password bcrypt_compare bcrypt_hash username current new
                 confirm salt db)) <> 200 ->
  snd (change_password bcrypt_compare bcrypt_hash username current new
         confirm salt db) = db.
Proof.
  unfold change_password.
  destruct (_ || _ || _)%bool; [reflexivity|].
  destruct (negb (String.eqb _ _)); [reflexivity|].
  destruct (Sql.where_ _ _) as [|user rest]; [reflexivity|].
  destruct (negb (bcrypt_compare _ _)); [reflexivity|].
  intros H. elim H. reflexivity.
Qed.

(** X6.  Password change.  Unless the route answers 200 the store is
    unchanged.  It answers 200 only when the three fields are non-empty,
    the new password equals its confirmation, the caller has a row and the
    current password matches the hash of the first such row; then the
    caller's rows hold the hash of the new password.  In every case the
    usernames, emails and bios are kept and the rows of every other user
    are unchanged. *)
Theorem change_password_frame (username : string)
  (current new confirm : option string) (salt : string) (db : Db.t) :
  (status (fst (change_password bcrypt_compare bcrypt_hash username current new
                  confirm salt db)) <> 200 ->
   snd (change_password bcrypt_compare bcrypt_hash username current new
          confirm salt db) = db)
  /\ (status (fst (change_password bcrypt_compare bcrypt_hash username current new
                     confirm salt db)) = 200 ->
      exists c n user rest,
        current = Some c /\ new = Some n /\ confirm = Some n /\ c <> "" /\ n <> ""
        /\ Sql.where_ (fun u => String.eqb (User.username u) username) (Db.tUser db)
           = user :: rest
        /\ bcrypt_compare c (User.password user) = true
        /\ forall x,
            In x (Db.tUser (snd (change_password bcrypt_compare bcrypt_hash username
                                   current new confirm salt db))) ->
            User.username x = username ->
            User.password x = bcrypt_hash n 10 salt)
  /\ map User.username
         (Db.tUser (snd (change_password bcrypt_compare bcrypt_hash username current
                           new confirm salt db)))
     = map User.username (Db.tUser db)
  /\ map User.email
         (Db.tUser (snd (change_password bcrypt_compare bcrypt_hash username current
                           new confirm salt db)))
     = map User.email (Db.tUser db)
  /\ map User.bio
         (Db.tUser (snd (change_password bcrypt_compare bcrypt_hash username current
                           new confirm salt db)))
     = map User.bio (Db.tUser db)
  /\ (forall v, v <> username ->
        Sql.where_ (fun u => String.eqb (User.username u) v)
          (Db.tUser (snd (change_password bcrypt_compare bcrypt_hash username current
                            new confirm salt db)))
        = Sql.where_ (fun u => String.eqb (User.username u) v) (Db.tUser db)).
Proof.
  split; [apply change_password_failed|].
  destruct (Z.eq_dec
              (status (fst (change_password bcrypt_compare bcrypt_hash username
                              current new confirm salt db))) 200) as [H200|Hnot].
  - destruct (change_password_ok_inv _ _ _ _ _ _ H200)
      as (c & n & user & rest & Hc & Hn & Hf & Hc' & Hn' & Hq & Hm & E).
    rewrite E. simpl Db.tUser. split.
    + intros _. exists c, n, user, rest.
      repeat (split; [assumption|]).
      intros x Hx Hux. apply UpdateFacts.in_update in Hx.
      destruct Hx as (r & Hr & ->).
      destruct (String.eqb_spec (User.username r) username) as [_|Hne];
        [reflexivity|contradiction].
    + split; [apply UpdateFacts.map_update; reflexivity|].
      split; [apply UpdateFacts.map_update; reflexivity|].
      split; [apply UpdateFacts.map_update; reflexivity|].
      intros v Hv. apply UpdateFacts.where_update_other;
        [reflexivity|apply username_eqb_other; assumption].
  - rewrite (change_password_failed _ _ _ _ _ _ Hnot).
    split; [intros H; contradiction|]. repeat split; reflexivity.
Qed.

Section Login.
Variable jwt_sign : Identity.t -> string -> string -> string.
Variable JWT_SECRET : string.

(** X7.  Password change then login.  In a well-formed User table, when
    the hash comparison accepts the hash of a password, a password change
    that answered 200 is followed by a successful login of the caller with
    their email and the new password. *)
Theorem change_password_then_login (username : string)
  (current new confirm : option string) (salt : string) (db : Db.t) (x : User.t)
  (Hlib : forall p s, bcrypt_compare p (bcrypt_hash p 10 s) = true)
  (Hsound : users_sound (Db.tUser db))
  (Hx : In x (Db.tUser db)) (Hname : User.username x = username)
  (H200 : status (fst (change_password bcrypt_compare bcrypt_hash username current
                         new confirm salt db)) = 200) :
  login bcrypt_compare jwt_sign JWT_SECRET (Some (User.email x)) new
        (snd (change_password bcrypt_compare bcrypt_hash username current new
                confirm salt db))
  = ok {| token := jwt_sign {| Identity.id := username;
                               Identity.email := User.email x |} JWT_SECRET "3h";
          lo_user := {| pu_username := username; pu_email := User.email x;
                        pu_bio := User.bio x |};
          lo_message := "Login successful." |}.
Proof.
  destruct (change_password_ok_inv _ _ _ _ _ _ H200)
    as (c & n & user & rest & -> & -> & -> & Hc' & Hn' & Hq & Hm & ->).
  destruct Hsound as (_ & Hemails & Hne).
  destruct (Hne x Hx) as (_ & He).
  unfold login. rewrite !FieldFacts.truthy_some by assumption.
  simpl negb. simpl orb. cbv iota. simpl JS.value. simpl Db.tUser.
  rewrite (UpdateFacts.where_update_commute _
             (fun u => String.eqb (User.email u) (User.email x))) by reflexivity.
  rewrite (UpdateFacts.where_key User.email _ x Hemails Hx).
  subst username. unfold DbUpdate.update. simpl map. rewrite String.eqb_refl.
  simpl. rewrite Hlib. reflexivity.
Qed.

(** X8.  Account deletion.  The route answers 200 and removes the rows of
    the username from the User table, keeping the others.  In any store
    holding the resulting User table the profile and the public profile of
    the username are answered 404, the profiles of the other users are
    unchanged, a second deletion removes nothing, and, emails being
    pairwise different, a login with the email of the deleted account is
    answered like one with an unknown email. *)
Theorem delete_profile_removes_account (username : string) (db db' : Db.t)
  (Hdb' : Db.tUser db' = snd (delete_profile username db)) :
  fst (delete_profile username db)
  = send 200 "Your account has been deleted successfully."
  /\ get_profile username db' = send 404 "User not found."
  /\ public_profile username db' = send 404 "User not found."
  /\ (forall v, v <> username -> get_profile v db' = get_profile v db)
  /\ snd (delete_profile username db') = Db.tUser db'
  /\ (forall x password,
        NoDup (map User.email (Db.tUser db)) ->
        In x (Db.tUser db) -> User.username x = username ->
        User.email x <> "" -> password <> "" ->
        login bcrypt_compare jwt_sign JWT_SECRET (Some (User.email x)) (Some password) db'
        = send 400 "Invalid email or password.").
Proof using bcrypt_compare jwt_sign JWT_SECRET.
  simpl in Hdb'.
  assert (Hgone : Sql.where_ (fun u => String.eqb (User.username u) username)
                             (Db.tUser db') = []).
  { rewrite Hdb'. apply SqlFacts.where_nil. intros y Hy.
    apply UpdateFacts.in_delete in Hy. apply Hy. }
  split; [reflexivity|]. split; [|split; [|split; [|split]]].
  - unfold get_profile. rewrite Hgone. reflexivity.
  - unfold public_profile. rewrite Hgone. reflexivity.
  - intros v Hv. unfold get_profile. rewrite Hdb'.
    unfold DbUpdate.delete, Sql.where_.
    assert (E : forall rows,
               filter (fun u => String.eqb (User.username u) v)
                      (filter (fun r => negb (String.eqb (User.username r) username))
                              rows)
               = filter (fun u => String.eqb (User.username u) v) rows).
    { induction rows as [|r t IH]; simpl; [reflexivity|].
      destruct (String.eqb (User.username r) username) eqn:E1; simpl.
      - destruct (String.eqb (User.username r) v) eqn:E2; [|exact IH].
        apply String.eqb_eq in E1, E2. congruence.
      - rewrite IH. reflexivity. }
    rewrite E. reflexivity.
  - simpl. apply UpdateFacts.delete_none. intros y Hy.
    rewrite Hdb' in Hy. apply UpdateFacts.in_delete in Hy. apply Hy.
  - intros x password Hnd Hx Hname He Hp. unfold login.
    rewrite !FieldFacts.truthy_some by assumption.
    simpl negb. simpl orb. cbv iota. simpl JS.value.
    rewrite (proj2 (SqlFacts.where_nil _ (Db.tUser db'))); [reflexivity|].
    intros y Hy. apply String.eqb_neq. intros Heq.
    rewrite Hdb' in Hy. apply UpdateFacts.in_delete in Hy. destruct Hy as (Hy & Hny).
    assert (y = x) by (apply (UpdateFacts.NoDup_map_inj User.email (Db.tUser db));
                       assumption).
    subst y. rewrite Hname, String.eqb_refl in Hny. discriminate.
Qed.

(** X3.  Registration then login.  When the hash comparison accepts the
    hash of a password, a registration that answered 201 is followed by a
    successful login with the same email and password: the token is signed
    for the registered username and email, with the 3h expiry, and the
    returned profile holds the registered username, email and bio. *)
Theorem register_then_login
  (username email password bio : option string) (salt : string) (db : Db.t)
  (Hlib : forall p s, bcrypt_compare p (bcrypt_hash p 10 s) = true)
  (H201 : status (fst (register bcrypt_hash username email password bio salt db))
          = 201) :
  exists u e,
    username = Some u /\ email = Some e
    /\ login bcrypt_compare jwt_sign JWT_SECRET email password
             (snd (register bcrypt_hash username email password bio salt db))
       = ok {| token := jwt_sign {| Identity.id := u; Identity.email := e |}
                                 JWT_SECRET "3h";
               lo_user := {| pu_username := u; pu_email := e;
                             pu_bio := if JS.truthy bio then bio else None |};
               lo_message := "Login successful." |}.
Proof.
  destruct (register_created _ _ _ _ _ _ H201)
    as (u & e & p & -> & -> & -> & Hu & He & Hp & Hnu & Hne & ->).
  exists u, e. split; [reflexivity|]. split; [reflexivity|].
  unfold login. rewrite !FieldFacts.truthy_some by assumption.
  simpl negb. simpl orb. cbv iota. simpl JS.value. simpl Db.tUser.
  rewrite UpdateFacts.where_app.
  rewrite (proj2 (SqlFacts.where_nil _ (Db.tUser db))).
  - simpl. rewrite String.eqb_refl. simpl. rewrite Hlib. reflexivity.
  - intros x Hx. apply String.eqb_neq. intros Heq. apply Hne. exists x. tauto.
Qed.

End Login.

(** X4.  Registration then profile.  After a registration that answered
    201, the profile of the new username is the registered username, email
    and bio (NULL for an empty or missing bio), and its public profile is
    that username and bio. *)
Theorem register_then_profile
  (username email password bio : option string) (salt : string) (db : Db.t)
  (H201 : status (fst (register bcrypt_hash username email password bio salt db))
          = 201) :
  exists u e,
    username = Some u /\ email = Some e
    /\ get_profile u (snd (register bcrypt_hash username email password bio salt db))
       = ok {| pu_username := u; pu_email := e;
               pu_bio := if JS.truthy bio then bio else None |}
    /\ public_profile u (snd (register bcrypt_hash username email password bio salt db))
       = ok {| pp_username := u;
               pp_bio := if JS.truthy bio then bio else None |}.
Proof using bcrypt_hash.
  destruct (register_created _ _ _ _ _ _ H201)
    as (u & e & p & -> & -> & -> & Hu & He & Hp & Hnu & Hne & ->).
  exists u, e. split; [reflexivity|]. split; [reflexivity|].
  unfold get_profile, public_profile. simpl Db.tUser.
  rewrite UpdateFacts.where_app.
  rewrite (proj2 (SqlFacts.where_nil _ (Db.tUser db))).
  - simpl. rewrite String.eqb_refl. split; reflexivity.
  - intros x Hx. apply String.eqb_neq. intros Heq. apply Hnu. exists x. split; assumption.
Qed.

End Account.

Lemma register_outcomes_witness :
  register sample_hash (Some "bob") (Some "alice@example.org") (Some "pw") (Some "")
           "salt" one_user
  = (send 400 "Email already registered. Please use a different email.", one_user)
  /\ Db.tUser (snd (register sample_hash (Some "bob") (Some "bob@example.org")
                      (Some "pw") (Some "") "salt" one_user))
     = [alice; {| User.username := "bob"; User.email := "bob@example.org";
                  User.password := "hash-of-pw"; User.bio := None |}].
Proof.
  assert (Hu : "bob" <> "") by discriminate.
  assert (Hp : "pw" <> "") by discriminate.
  split.
  - assert (He : "alice@example.org" <> "") by discriminate.
    destruct (register_outcomes sample_hash "bob" "alice@example.org" "pw" (Some "")
                "salt" one_user Hu He Hp)
      as (_ & [((x & [<-|[]] & Hx) & _)|[(_ & _ & E)|(_ & Hne & _)]]).
    + discriminate Hx.
    + exact E.
    + elim Hne. exists alice. split; [left; reflexivity|reflexivity].
  - assert (He : "bob@example.org" <> "") by discriminate.
    destruct (register_outcomes sample_hash "bob" "bob@example.org" "pw" (Some "")
                "salt" one_user Hu He Hp)
      as (_ & [((x & [<-|[]] & Hx) & _)|[(_ & (x & [<-|[]] & Hx) & _)|(_ & _ & E)]]).
    + discriminate Hx.
    + discriminate Hx.
    + rewrite E. reflexivity.
Defined.

Lemma one_user_sound : users_sound (Db.tUser one_user).
Proof.
  split; [|split].
  - repeat constructor. intros [].
  - repeat constructor. intros [].
  - intros u [<-|[]]. split; discriminate.
Qed.

Lemma sample_hash_accepted (p s : string) : sample_compare p (sample_hash p 10 s) = true.
Proof. apply String.eqb_refl. Qed.

Lemma account_routes_keep_users_sound_witness :
  users_sound (Db.tUser (snd (register sample_hash (Some "bob") (Some "bob@example.org")
                                       (Some "pw") None "salt" one_user)))
  /\ users_sound (snd (delete_profile "alice" one_user)).
Proof.
  destruct (account_routes_keep_users_sound sample_compare sample_hash one_user
              one_user_sound) as (Hreg & _ & _ & Hdel).
  split; [apply Hreg|apply Hdel].
Defined.

Lemma register_then_login_witness :
  exists u e,
    Some "bob" = Some u /\ Some "bob@example.org" = Some e
    /\ login sample_compare sample_sign "k" (Some "bob@example.org") (Some "pw")
             (snd (register sample_hash (Some "bob") (Some "bob@example.org")
                            (Some "pw") (Some "") "salt" one_user))
       = ok {| token := sample_sign {| Identity.id := u; Identity.email := e |} "k" "3h";
               lo_user := {| pu_username := u; pu_email := e;
                             pu_bio := if JS.truthy (Some "") then Some "" else None |};
               lo_message := "Login successful." |}.
Proof.
  apply (register_then_login sample_compare sample_hash sample_sign "k").
  - exact sample_hash_accepted.
  - reflexivity.
Defined.


Lemma register_then_profile_witness :
  exists u e,
    Some "bob" = Some u /\ Some "bob@example.org" = Some e
    /\ get_profile u (snd (register sample_hash (Some "bob") (Some "bob@example.org")
                                    (Some "pw") (Some "Hi") "salt" one_user))
       = ok {| pu_username := u; pu_email := e;
               pu_bio := if JS.truthy (Some "Hi") then Some "Hi" else None |}
    /\ public_profile u (snd (register sample_hash (Some "bob") (Some "bob@example.org")
                                       (Some "pw") (Some "Hi") "salt" one_user))
       = ok {| pp_username := u;
               pp_bio := if JS.truthy (Some "Hi") then Some "Hi" else None |}.
Proof.
  apply (register_then_profile sample_hash). reflexivity.
Defined.

Lemma change_password_then_login_witness :
  login sample_compare sample_sign "k" (Some "alice@example.org") (Some "fresh")
        (snd (change_password sample_compare sample_hash "alice" (Some "secret")
                (Some "fresh") (Some "fresh") "salt" one_user))
  = ok {| token := sample_sign {| Identity.id := "alice";
                                  Identity.email := "alice@example.org" |} "k" "3h";
          lo_user := {| pu_username := "alice"; pu_email := "alice@example.org";
                        pu_bio := None |};
          lo_message := "Login successful." |}.
Proof.
  apply (change_password_then_login sample_compare sample_hash sample_sign "k"
           "alice" (Some "secret") (Some "fresh") (Some "fresh") "salt" one_user alice).
  - exact sample_hash_accepted.
  - exact one_user_sound.
  - left. reflexivity.
  - reflexivity.
  - reflexivity.
Defined.

Lemma delete_profile_removes_account_witness :
  get_profile "alice" (DbUpdate.with_User one_user [])
  = send 404 "User not found."
  /\ login sample_compare sample_sign "k" (Some "alice@example.org") (Some "secret")
           (DbUpdate.with_User one_user [])
     = send 400 "Invalid email or password.".
Proof.
  destruct (delete_profile_removes_account sample_compare sample_sign "k" "alice"
              one_user (DbUpdate.with_User one_user []) eq_refl)
    as (_ & H404 & _ & _ & _ & Hlogin).
  split; [exact H404|].
  apply (Hlogin alice "secret").
  - repeat constructor. intros [].
  - left. reflexivity.
  - reflexivity.
  - discriminate.
  - discriminate.
Defined.

(** The account routes on the sample store. *)
Example account_routes_run :
  status (fst (change_password sample_compare sample_hash "alice" (Some "guess")
                 (Some "fresh") (Some "fresh") "salt" one_user)) = 400
  /\ fst (change_password sample_compare sample_hash "alice" (Some "secret")
            (Some "fresh") (Some "other") "salt" one_user)
     = send 400 "New passwords do not match."
  /\ status (fst (update_bio "nobody" (Some "Hi") one_user)) = 200
  /\ snd (update_bio "nobody" (Some "Hi") one_user) = one_user
  /\ get_profile "alice" (snd (update_bio "alice" (Some "") one_user))
     = ok {| pu_username := "alice"; pu_email := "alice@example.org";
             pu_bio := Some "" |}.
Proof. repeat split. Qed.

End AccountFacts.

(* ================================================================== *)
(** * Playlists and their songs *)

Module PlaylistSongFacts.
Import Api Http Store Inv Fixtures Samples Playlists.
Local Open Scope string_scope.
Local Open Scope list_scope.

Lemma playlist_matches_iff (name username : string) (p : Playlist.t) :
  playlist_matches name username p = true
  <-> Playlist.name p = name /\ Playlist.username p = username.
Proof.
  unfold playlist_matches. rewrite andb_true_iff, !String.eqb_eq. reflexivity.
Qed.

Lemma in_playlist_iff (name username : string) (i : Inclusion.t) :
  in_playlist name username i = true
  <-> Inclusion.name i = name /\ Inclusion.username i = username.
Proof.
  unfold in_playlist. rewrite andb_true_iff, !String.eqb_eq. reflexivity.
Qed.

Lemma inclusion_matches_iff (name username t a al : string) (i : Inclusion.t) :
  inclusion_matches name username (Triple.make t a al) i = true
  <-> inclusion_key i = (name, username, t, a, al).
Proof.
  unfold inclusion_matches, inclusion_key. simpl.
  rewrite !andb_true_iff, !String.eqb_eq. split.
  - intros ((((-> & ->) & ->) & ->) & ->). reflexivity.
  - intros [= -> -> -> -> ->]. repeat split.
Qed.

Lemma triple_given_inv (t : Triple.t) :
  triple_given t = true ->
  exists title artist album,
    t = Triple.make title artist album
    /\ title <> "" /\ artist <> "" /\ album <> "".
Proof.
  destruct t as [[title|] [artist|] [album|]]; unfold triple_given; simpl;
    try discriminate; try (rewrite ?andb_false_r; discriminate).
  intros H. apply andb_true_iff in H. destruct H as (H & Hal).
  apply andb_true_iff in H. destruct H as (Ht & Ha).
  exists title, artist, album. split; [reflexivity|].
  repeat split; intros ->; discriminate.
Qed.

(** The ownership test of the playlist routes. *)
Lemma owned_cases (username name : string) (db : Db.t) :
  (Nat.eqb (List.length (Sql.where_ (playlist_matches name username)
                                    (Db.tPlaylist db))) 0 = true
   /\ ~ owns db username name)
  \/ (Nat.eqb (List.length (Sql.where_ (playlist_matches name username)
                                       (Db.tPlaylist db))) 0 = false
      /\ owns db username name).
Proof.
  destruct (FieldFacts.where_cases (playlist_matches name username)
              (fun p => Playlist.name p = name /\ Playlist.username p = username)
              (Db.tPlaylist db) (playlist_matches_iff name username))
    as [(-> & Hno)|((p & rest & ->) & Hyes)].
  - left. split; [reflexivity|exact Hno].
  - right. split; [reflexivity|exact Hyes].
Qed.

Lemma catalog_cases (t a al : string) (db : Db.t) :
  (Nat.eqb (List.length (Sql.where_ (song_matches (Triple.make t a al))
                                    (Db.tSong db))) 0 = true
   /\ ~ in_catalog db t a al)
  \/ (Nat.eqb (List.length (Sql.where_ (song_matches (Triple.make t a al))
                                       (Db.tSong db))) 0 = false
      /\ in_catalog db t a al).
Proof.
  destruct (FieldFacts.where_cases (song_matches (Triple.make t a al))
              (fun s => Song.songTitle s = t /\ Song.artistName s = a
                        /\ Song.albumTitle s = al)
              (Db.tSong db))
    as [(-> & Hno)|((p & rest & ->) & Hyes)].
  - intros s. unfold song_matches. simpl.
    rewrite !andb_true_iff, !String.eqb_eq. split; [intros ((? & ?) & ?)|intros (? & ? & ?)];
      repeat split; assumption.
  - left. split; [reflexivity|exact Hno].
  - right. split; [reflexivity|exact Hyes].
Qed.

Lemma included_cases (username name t a al : string) (tb : Tables.t) :
  (Sql.where_ (inclusion_matches name username (Triple.make t a al))
              (Tables.tInclusion tb) = []
   /\ ~ included tb username name t a al)
  \/ ((exists i rest,
          Sql.where_ (inclusion_matches name username (Triple.make t a al))
                     (Tables.tInclusion tb) = i :: rest)
      /\ included tb username name t a al).
Proof.
  apply (FieldFacts.where_cases
           (inclusion_matches name username (Triple.make t a al))
           (fun i => inclusion_key i = (name, username, t, a, al))).
  apply inclusion_matches_iff.
Qed.

Lemma add_song_cases (username name t a al : string) (tb : Tables.t) :
  t <> "" -> a <> "" -> al <> "" ->
  (~ owns (Tables.base tb) username name
   /\ add_song username name (Triple.make t a al) tb
      = (send 404 "Playlist not found.", tb))
  \/ (owns (Tables.base tb) username name
      /\ ~ in_catalog (Tables.base tb) t a al
      /\ add_song username name (Triple.make t a al) tb
         = (send 404 "Song not found.", tb))
  \/ (owns (Tables.base tb) username name
      /\ in_catalog (Tables.base tb) t a al
      /\ included tb username name t a al
      /\ add_song username name (Triple.make t a al) tb
         = (send 400 "Song is already in the playlist.", tb))
  \/ (owns (Tables.base tb) username name
      /\ in_catalog (Tables.base tb) t a al
      /\ ~ included tb username name t a al
      /\ add_song username name (Triple.make t a al) tb
         = (send 201 "Song added to playlist successfully.",
            Tables.with_Inclusion tb
              (Tables.tInclusion tb
               ++ [{| Inclusion.name := name; Inclusion.username := username;
                      Inclusion.songTitle := t; Inclusion.artistName := a;
                      Inclusion.albumTitle := al |}]))).
Proof.
  intros Ht Ha Hal. unfold add_song.
  rewrite (LikeFacts.triple_given_make t a al Ht Ha Hal). simpl negb. cbv iota.
  destruct (owned_cases username name (Tables.base tb)) as [(-> & Hno)|(-> & Hown)].
  - left. split; [exact Hno|reflexivity].
  - right. destruct (catalog_cases t a al (Tables.base tb)) as [(-> & Hns)|(-> & Hs)].
    + left. repeat split; assumption.
    + right. destruct (included_cases username name t a al tb)
        as [(-> & Hni)|((i & rest & ->) & Hi)].
      * right. repeat split; assumption.
      * left. repeat split; assumption.
Qed.

Lemma remove_song_cases (username name t a al : string) (tb : Tables.t) :
  t <> "" -> a <> "" -> al <> "" ->
  (~ owns (Tables.base tb) username name
   /\ remove_song username name (Triple.make t a al) tb
      = (send 404 "Playlist not found.", tb))
  \/ (owns (Tables.base tb) username name
      /\ ~ included tb username name t a al
      /\ remove_song username name (Triple.make t a al) tb
         = (send 404 "Song not found in the playlist.", tb))
  \/ (owns (Tables.base tb) username name
      /\ included tb username name t a al
      /\ remove_song username name (Triple.make t a al) tb
         = (send 200 "Song removed from playlist successfully.",
            Tables.with_Inclusion tb
              (DbUpdate.delete (inclusion_matches name username (Triple.make t a al))
                               (Tables.tInclusion tb)))).
Proof.
  intros Ht Ha Hal. unfold remove_song.
  rewrite (LikeFacts.triple_given_make t a al Ht Ha Hal). simpl negb. cbv iota.
  destruct (owned_cases username name (Tables.base tb)) as [(-> & Hno)|(-> & Hown)].
  - left. split; [exact Hno|reflexivity].
  - right. destruct (included_cases username name t a al tb)
      as [(-> & Hni)|((i & rest & ->) & Hi)].
    + left. repeat split; assumption.
    + right. repeat split; assumption.
Qed.

Lemma add_song_created (username name : string) (t : Triple.t) (tb : Tables.t) :
  status (fst (add_song username name t tb)) = 201 ->
  exists title artist album,
    t = Triple.make title artist album
    /\ title <> "" /\ artist <> "" /\ album <> ""
    /\ owns (Tables.base tb) username name
    /\ in_catalog (Tables.base tb) title artist album
    /\ ~ included tb username name title artist album
    /\ add_song username name t tb
       = (send 201 "Song added to playlist successfully.",
          Tables.with_Inclusion tb
            (Tables.tInclusion tb
             ++ [{| Inclusion.name := name; Inclusion.username := username;
                    Inclusion.songTitle := title; Inclusion.artistName := artist;
                    Inclusion.albumTitle := album |}])).
Proof.
  intros H201. destruct (triple_given t) eqn:Hg.
  - destruct (triple_given_inv t Hg) as (title & artist & album & -> & Ht & Ha & Hal).
    exists title, artist, album.
    destruct (add_song_cases username name title artist album tb Ht Ha Hal)
      as [(_ & E)|[(_ & _ & E)|[(_ & _ & _ & E)|(Ho & Hs & Hni & E)]]];
      rewrite E in H201; try discriminate H201.
    repeat split; assumption.
  - unfold add_song in H201. rewrite Hg in H201. discriminate H201.
Qed.

Lemma add_song_not_created (username name : string) (t : Triple.t) (tb : Tables.t) :
  status (fst (add_song username name t tb)) <> 201 ->
  snd (add_song username name t tb) = tb.
Proof.
  intros Hnot. unfold add_song in *.
  destruct (negb (triple_given t)); [reflexivity|].
  destruct (Nat.eqb _ 0); [reflexivity|].
  destruct (Nat.eqb _ 0); [reflexivity|].
  destruct (0 <? _)%Z; [reflexivity|]. elim Hnot. reflexivity.
Qed.

Lemma remove_song_result (username name : string) (t : Triple.t) (tb : Tables.t) :
  snd (remove_song username name t tb) = tb
  \/ snd (remove_song username name t tb)
     = Tables.with_Inclusion tb
         (DbUpdate.delete (inclusion_matches name username t) (Tables.tInclusion tb)).
Proof.
  unfold remove_song.
  destruct (negb (triple_given t)); [left; reflexivity|].
  destruct (Nat.eqb _ 0); [left; reflexivity|].
  destruct (Nat.eqb _ 0); [left; reflexivity|right; reflexivity].
Qed.

Lemma with_Inclusion_same (tb : Tables.t) :
  Tables.with_Inclusion tb (Tables.tInclusion tb) = tb.
Proof. destruct tb. reflexivity. Qed.

(** X9.  Songs of a playlist, for a triple of non-empty fields.  Adding:
    404 ['Playlist not found.'] when the caller has no playlist of that
    name (also when another user has one, and before the song is looked
    up); 404 ['Song not found.'] when the catalog has no such song; 400
    when the playlist already holds the song; otherwise 201 and exactly
    that Inclusion row is appended.  Removing: 404 when the caller has no
    such playlist, 404 when the playlist does not hold the song, otherwise
    200 and the rows of that song in that playlist are deleted.  The store
    is unchanged on every failure. *)
Theorem playlist_song_outcomes (username name t a al : string) (tb : Tables.t)
  (Ht : t <> "") (Ha : a <> "") (Hal : al <> "") :
  ((~ owns (Tables.base tb) username name
    /\ add_song username name (Triple.make t a al) tb
       = (send 404 "Playlist not found.", tb))
   \/ (owns (Tables.base tb) username name
       /\ ~ in_catalog (Tables.base tb) t a al
       /\ add_song username name (Triple.make t a al) tb
          = (send 404 "Song not found.", tb))
   \/ (owns (Tables.base tb) username name
       /\ in_catalog (Tables.base tb) t a al
       /\ included tb username name t a al
       /\ add_song username name (Triple.make t a al) tb
          = (send 400 "Song is already in the playlist.", tb))
   \/ (owns (Tables.base tb) username name
       /\ in_catalog (Tables.base tb) t a al
       /\ ~ included tb username name t a al
       /\ add_song username name (Triple.make t a al) tb
          = (send 201 "Song added to playlist successfully.",
             Tables.with_Inclusion tb
               (Tables.tInclusion tb
                ++ [{| Inclusion.name := name; Inclusion.username := username;
                       Inclusion.songTitle := t; Inclusion.artistName := a;
                       Inclusion.albumTitle := al |}]))))
  /\ ((~ owns (Tables.base tb) username name
       /\ remove_song username name (Triple.make t a al) tb
          = (send 404 "Playlist not found.", tb))
      \/ (owns (Tables.base tb) username name
          /\ ~ included tb username name t a al
          /\ remove_song username name (Triple.make t a al) tb
             = (send 404 "Song not found in the playlist.", tb))
      \/ (owns (Tables.base tb) username name
          /\ included tb username name t a al
          /\ exists kept,
              remove_song username name (Triple.make t a al) tb
              = (send 200 "Song removed from playlist successfully.",
                 Tables.with_Inclusion tb kept)
              /\ forall i, In i kept <->
                           In i (Tables.tInclusion tb)
                           /\ inclusion_key i <> (name, username, t, a, al))).
Proof.
  split; [apply add_song_cases; assumption|].
  destruct (remove_song_cases username name t a al tb Ht Ha Hal)
    as [H|[H|(Ho & Hi & E)]]; [left; exact H|right; left; exact H|right; right].
  split; [exact Ho|]. split; [exact Hi|]. eexists. split; [exact E|].
  intros i. rewrite UpdateFacts.in_delete. split.
  - intros (Hin & Hm). split; [exact Hin|]. intros Hk.
    apply inclusion_matches_iff in Hk. congruence.
  - intros (Hin & Hk). split; [exact Hin|].
    destruct (inclusion_matches name username (Triple.make t a al) i) eqn:E';
      [|reflexivity].
    apply inclusion_matches_iff in E'. contradiction.
Qed.

Lemma playlist_song_outcomes_witness :
  fst (add_song "alice" "Road trip" (Triple.make "Hello" "Adele" "25") shelf)
  = send 201 "Song added to playlist successfully."
  /\ fst (add_song "bob" "Road trip" (Triple.make "Hello" "Adele" "25") shelf)
     = send 404 "Playlist not found."
  /\ fst (remove_song "alice" "Road trip" (Triple.make "Hello" "Adele" "25") shelf)
     = send 404 "Song not found in the playlist.".
Proof.
  assert (Ht : "Hello" <> "") by discriminate.
  assert (Ha : "Adele" <> "") by discriminate.
  assert (Hal : "25" <> "") by discriminate.
  assert (Hown : owns (Tables.base shelf) "alice" "Road trip")
    by (exists road_trip; repeat split; left; reflexivity).
  assert (Hnot : ~ owns (Tables.base shelf) "bob" "Road trip")
    by (intros (p & [<-|[]] & _ & Hu); discriminate Hu).
  assert (Hnone : forall u, ~ included shelf u "Road trip" "Hello" "Adele" "25")
    by (intros u (i & [] & _)).
  split; [|split].
  - destruct (playlist_song_outcomes "alice" "Road trip" "Hello" "Adele" "25" shelf
                Ht Ha Hal) as ([(Hno & _)|[(_ & Hns & _)|[(_ & _ & Hi & _)|H]]] & _).
    + contradiction.
    + elim Hns. exists hello_adele. repeat split. left. reflexivity.
    + elim (Hnone _ Hi).
    + destruct H as (_ & _ & _ & ->). reflexivity.
  - destruct (playlist_song_outcomes "bob" "Road trip" "Hello" "Adele" "25" shelf
                Ht Ha Hal) as ([(_ & ->)|[(Ho & _)|[(Ho & _)|(Ho & _)]]] & _);
      [reflexivity|contradiction|contradiction|contradiction].
  - destruct (playlist_song_outcomes "alice" "Road trip" "Hello" "Adele" "25" shelf
                Ht Ha Hal) as (_ & [(Hno & _)|[(_ & _ & ->)|(_ & Hi & _)]]).
    + contradiction.
    + reflexivity.
    + elim (Hnone _ Hi).
Defined.

(** X10.  Playlist deletion.  404 ['Playlist not found.'] exactly when the
    caller has no playlist of that name, the store being unchanged;
    otherwise 200, the playlist and (as the source notes for the cascade)
    its inclusions are removed, every other playlist and inclusion is
    kept, the catalog is untouched, and the songs of the deleted playlist
    are then answered 404. *)
Theorem delete_playlist_outcomes (username name : string) (tb : Tables.t) :
  (~ owns (Tables.base tb) username name
   /\ delete_playlist username name tb = (send 404 "Playlist not found.", tb))
  \/ (owns (Tables.base tb) username name
      /\ exists tb',
          delete_playlist username name tb
          = (send 200 "Playlist deleted successfully.", tb')
          /\ ~ owns (Tables.base tb') username name
          /\ (forall p, In p (Db.tPlaylist (Tables.base tb')) <->
                        In p (Db.tPlaylist (Tables.base tb))
                        /\ playlist_key p <> (name, username))
          /\ (forall i, In i (Tables.tInclusion tb') <->
                        In i (Tables.tInclusion tb)
                        /\ ~ (Inclusion.name i = name /\ Inclusion.username i = username))
          /\ Db.tSong (Tables.base tb') = Db.tSong (Tables.base tb)
          /\ Db.tUser (Tables.base tb') = Db.tUser (Tables.base tb)
          /\ Db.tUserLike (Tables.base tb') = Db.tUserLike (Tables.base tb)
          /\ playlist_songs username name tb' = send 404 "Playlist not found."
          /\ public_playlist_songs username name tb' = send 404 "Playlist not found.").
Proof.
  unfold delete_playlist.
  destruct (owned_cases username name (Tables.base tb)) as [(-> & Hno)|(-> & Hown)].
  - left. split; [exact Hno|reflexivity].
  - right. split; [exact Hown|]. eexists. split; [reflexivity|]. simpl.
    assert (Hp : forall p,
               In p (DbUpdate.delete (playlist_matches name username)
                                     (Db.tPlaylist (Tables.base tb))) <->
               In p (Db.tPlaylist (Tables.base tb))
               /\ playlist_key p <> (name, username)).
    { intros p. rewrite UpdateFacts.in_delete. unfold playlist_key. split.
      - intros (Hin & Hm). split; [exact Hin|]. intros [= Hn Hu].
        assert (E : playlist_matches name username p = true)
          by (apply playlist_matches_iff; split; assumption).
        congruence.
      - intros (Hin & Hk). split; [exact Hin|].
        destruct (playlist_matches name username p) eqn:E; [|reflexivity].
        apply playlist_matches_iff in E. destruct E as (<- & <-). elim Hk. reflexivity. }
    assert (Hgone : Sql.where_ (playlist_matches name username)
                      (DbUpdate.delete (playlist_matches name username)
                                       (Db.tPlaylist (Tables.base tb))) = []).
    { apply SqlFacts.where_nil. intros p Hin. apply UpdateFacts.in_delete in Hin.
      apply Hin. }
    split.
    { intros (p & Hin & Hn & Hu). apply Hp in Hin. destruct Hin as (_ & Hk).
      apply Hk. unfold playlist_key. rewrite Hn, Hu. reflexivity. }
    split; [exact Hp|]. split.
    { intros i. rewrite UpdateFacts.in_delete. split.
      - intros (Hin & Hm). split; [exact Hin|]. intros Hk.
        apply in_playlist_iff in Hk. congruence.
      - intros (Hin & Hk). split; [exact Hin|].
        destruct (in_playlist name username i) eqn:E; [|reflexivity].
        apply in_playlist_iff in E. contradiction. }
    split; [reflexivity|]. split; [reflexivity|]. split; [reflexivity|].
    unfold playlist_songs, public_playlist_songs. simpl.
    rewrite Hgone. split; reflexivity.
Qed.

Lemma create_result (username : string) (name : option string) (now : Z) (db : Db.t) :
  (status (fst (create_playlist username name now db)) <> 201
   /\ snd (create_playlist username name now db) = db)
  \/ exists n,
      name = Some n /\ n <> "" /\ ~ owns db username n
      /\ create_playlist username name now db
         = (send 201 "Playlist created successfully.",
            Db.with_Playlist db
              (Db.tPlaylist db ++ [{| Playlist.name := n;
                                      Playlist.username := username;
                                      Playlist.creationDate := now |}])).
Proof.
  destruct (JS.truthy name) eqn:Ht.
  - destruct name as [n|]; [|discriminate Ht].
    assert (Hn : n <> "") by (intros ->; discriminate Ht).
    destruct (PlaylistFacts.create_playlist_cases username n now db Hn)
      as [(_ & E)|(Hno & E)].
    + left. rewrite E. split; [discriminate|reflexivity].
    + right. exists n. repeat split; assumption.
  - left. rewrite (PlaylistFacts.create_playlist_requires_name _ _ _ _ Ht).
    split; [discriminate|reflexivity].
Qed.

Lemma owns_with_Playlist_snoc (db : Db.t) (row : Playlist.t) (u n : string) :
  owns db u n -> owns (Db.with_Playlist db (Db.tPlaylist db ++ [row])) u n.
Proof.
  intros (p & Hin & Hp). exists p. split; [|exact Hp].
  simpl. apply in_or_app. left. exact Hin.
Qed.

(** X11.  The playlist routes keep the playlist tables well formed: no
    playlist (name, owner) and no inclusion (playlist, song) stored twice,
    and every inclusion held by a stored playlist and naming a catalog
    song.  Creation, deletion with its cascade, adding a song and removing
    a song are covered, whatever their arguments and whatever they
    answer. *)
Theorem playlist_routes_keep_tables_sound
  (tb : Tables.t) (Hsound : playlists_sound tb) :
  (forall username name now, playlists_sound (snd (create username name now tb)))
  /\ (forall username name, playlists_sound (snd (delete_playlist username name tb)))
  /\ (forall username name t, playlists_sound (snd (add_song username name t tb)))
  /\ (forall username name t, playlists_sound (snd (remove_song username name t tb))).
Proof.
  destruct Hsound as (Hp & Hi & Href). split; [|split; [|split]].
  - intros username name now. unfold create.
    destruct (create_result username name now (Tables.base tb))
      as [(_ & E)|(n & -> & Hn & Hno & E)].
    + destruct (create_playlist username name now (Tables.base tb)) as [r db].
      simpl in E. subst db. destruct tb as [base incl]. simpl in *.
      split; [exact Hp|]. split; [exact Hi|exact Href].
    + rewrite E. unfold playlists_sound. simpl. split; [|split].
      * apply UpdateFacts.NoDup_map_snoc; [exact Hp|]. simpl.
        intros Hin. apply in_map_iff in Hin. destruct Hin as (p & Hk & Hin).
        injection Hk as Hk1 Hk2. apply Hno. exists p. repeat split; assumption.
      * exact Hi.
      * intros i Hin. destruct (Href i Hin) as (Ho & Hc). split.
        -- apply owns_with_Playlist_snoc. exact Ho.
        -- exact Hc.
  - intros username name. unfold delete_playlist.
    destruct (Nat.eqb _ 0); [split; [exact Hp|split; [exact Hi|exact Href]]|].
    unfold playlists_sound. simpl. split; [|split].
    + apply UpdateFacts.NoDup_map_filter. exact Hp.
    + apply UpdateFacts.NoDup_map_filter. exact Hi.
    + intros i Hin. apply UpdateFacts.in_delete in Hin. destruct Hin as (Hin & Hm).
      destruct (Href i Hin) as ((p & Hpin & Hpn & Hpu) & Hc). split; [|exact Hc].
      exists p. split; [|split; assumption]. simpl.
      apply UpdateFacts.in_delete. split; [exact Hpin|].
      destruct (playlist_matches name username p) eqn:E; [|reflexivity].
      apply playlist_matches_iff in E. destruct E as (E1 & E2).
      assert (E' : in_playlist name username i = true)
        by (apply in_playlist_iff; split; congruence).
      congruence.
  - intros username name t.
    destruct (Z.eq_dec (status (fst (add_song username name t tb))) 201)
      as [H201|Hnot].
    + destruct (add_song_created _ _ _ _ H201)
        as (title & artist & album & -> & _ & _ & _ & Ho & Hc & Hni & ->).
      unfold playlists_sound. simpl. split; [exact Hp|]. split.
      * apply UpdateFacts.NoDup_map_snoc; [exact Hi|].
        intros Hin. apply in_map_iff in Hin. destruct Hin as (i & Hk & Hin).
        apply Hni. exists i. split; [exact Hin|exact Hk].
      * intros i Hin. apply in_app_or in Hin. destruct Hin as [Hin|[<-|[]]].
        -- apply Href. exact Hin.
        -- simpl. split; assumption.
    + rewrite (add_song_not_created _ _ _ _ Hnot).
      split; [exact Hp|split; [exact Hi|exact Href]].
  - intros username name t.
    destruct (remove_song_result username name t tb) as [->| ->].
    + split; [exact Hp|split; [exact Hi|exact Href]].
    + unfold playlists_sound. simpl. split; [exact Hp|]. split.
      * apply UpdateFacts.NoDup_map_filter. exact Hi.
      * intros i Hin. apply UpdateFacts.in_delete in Hin. apply Href. apply Hin.
Qed.

Lemma shelf_sound : playlists_sound shelf.
Proof.
  split; [|split].
  - repeat constructor. intros [].
  - constructor.
  - intros i [].
Qed.

Lemma playlist_routes_keep_tables_sound_witness :
  playlists_sound
    (snd (add_song "alice" "Road trip" (Triple.make "Hello" "Adele" "25") shelf))
  /\ playlists_sound (snd (delete_playlist "alice" "Road trip" shelf)).
Proof.
  destruct (playlist_routes_keep_tables_sound shelf shelf_sound)
    as (_ & Hdel & Hadd & _).
  split; [apply Hadd|apply Hdel].
Defined.

(** X12.  Create then delete.  When the caller has no playlist of a
    non-empty name and no inclusion is left under that name, creating the
    playlist and deleting it gives back the store, Inclusion table
    included; the two routes answer 201 and 200. *)
Theorem create_then_delete_restores
  (username name : string) (now : Z) (tb : Tables.t)
  (Hname : name <> "")
  (Hfresh : ~ owns (Tables.base tb) username name)
  (Hclean : forall i, In i (Tables.tInclusion tb) ->
                      ~ (Inclusion.name i = name /\ Inclusion.username i = username)) :
  fst (create username (Some name) now tb) = send 201 "Playlist created successfully."
  /\ delete_playlist username name (snd (create username (Some name) now tb))
     = (send 200 "Playlist deleted successfully.", tb).
Proof.
  unfold create.
  destruct (PlaylistFacts.create_playlist_cases username name now (Tables.base tb) Hname)
    as [(Ho & _)|(_ & ->)]; [contradiction|].
  split; [reflexivity|]. simpl snd. unfold delete_playlist. simpl Tables.base.
  destruct (owned_cases username name
              (Db.with_Playlist (Tables.base tb)
                 (Db.tPlaylist (Tables.base tb)
                  ++ [{| Playlist.name := name; Playlist.username := username;
                         Playlist.creationDate := now |}])))
    as [(_ & Hno)|(-> & _)].
  - elim Hno. eexists. split; [simpl; apply in_or_app; right; left; reflexivity|].
    split; reflexivity.
  - f_equal. simpl Db.tPlaylist. simpl Tables.tInclusion.
    rewrite UpdateFacts.delete_snoc_fresh.
    + rewrite UpdateFacts.delete_none.
      * destruct tb as [[] incl]. reflexivity.
      * intros i Hin. destruct (in_playlist name username i) eqn:E'; [|reflexivity].
        apply in_playlist_iff in E'. elim (Hclean i Hin E').
    + apply playlist_matches_iff. split; reflexivity.
    + intros p Hin. destruct (playlist_matches name username p) eqn:E'; [|reflexivity].
      apply playlist_matches_iff in E'. elim Hfresh. exists p. split; [exact Hin|exact E'].
Qed.

Lemma create_then_delete_restores_witness :
  fst (create "alice" (Some "Road trip") 7 bare)
  = send 201 "Playlist created successfully."
  /\ delete_playlist "alice" "Road trip" (snd (create "alice" (Some "Road trip") 7 bare))
     = (send 200 "Playlist deleted successfully.", bare).
Proof.
  apply (create_then_delete_restores "alice" "Road trip" 7 bare).
  - discriminate.
  - intros (p & [] & _).
  - intros i [].
Defined.

(** X13.  Add then remove.  After an addition that answered 201, removing
    the same song from the same playlist answers 200 and gives back the
    store as it was before the addition. *)
Theorem add_then_remove_restores
  (username name : string) (t : Triple.t) (tb : Tables.t)
  (H201 : status (fst (add_song username name t tb)) = 201) :
  remove_song username name t (snd (add_song username name t tb))
  = (send 200 "Song removed from playlist successfully.", tb).
Proof.
  destruct (add_song_created _ _ _ _ H201)
    as (title & artist & album & -> & Ht & Ha & Hal & Ho & Hc & Hni & ->).
  simpl snd.
  match goal with |- remove_song _ _ _ ?tb' = _ =>
    destruct (remove_song_cases username name title artist album tb' Ht Ha Hal)
      as [(Hno & _)|[(_ & Hn & _)|(_ & _ & ->)]]
  end.
  - elim Hno. exact Ho.
  - elim Hn. eexists. split; [simpl; apply in_or_app; right; left; reflexivity|].
    reflexivity.
  - f_equal. simpl Tables.tInclusion.
    rewrite UpdateFacts.delete_snoc_fresh.
    + destruct tb; reflexivity.
    + apply inclusion_matches_iff. reflexivity.
    + intros i Hin.
      destruct (inclusion_matches name username (Triple.make title artist album) i)
        eqn:E'; [|reflexivity].
      apply inclusion_matches_iff in E'. elim Hni. exists i. split; assumption.
Qed.

Lemma add_then_remove_restores_witness :
  remove_song "alice" "Road trip" (Triple.make "Hello" "Adele" "25")
    (snd (add_song "alice" "Road trip" (Triple.make "Hello" "Adele" "25") shelf))
  = (send 200 "Song removed from playlist successfully.", shelf).
Proof.
  apply (add_then_remove_restores "alice" "Road trip"
           (Triple.make "Hello" "Adele" "25") shelf).
  reflexivity.
Defined.

Lemma in_songs_of_playlist (username name : string) (tb : Tables.t) (r : SongRow) :
  In r (songs_of_playlist username name tb) <->
  exists i s,
    In i (Tables.tInclusion tb) /\ In s (Db.tSong (Tables.base tb))
    /\ Inclusion.name i = name /\ Inclusion.username i = username
    /\ Inclusion.songTitle i = Song.songTitle s
    /\ Inclusion.artistName i = Song.artistName s
    /\ Inclusion.albumTitle i = Song.albumTitle s
    /\ r = {| so_songTitle := Song.songTitle s;
              so_artistName := Song.artistName s;
              so_albumTitle := Song.albumTitle s;
              so_duration := Song.duration s;
              so_plays := Song.plays s |}.
Proof.
  unfold songs_of_playlist. rewrite in_map_iff. split.
  - intros ([i s] & Hr & Hin). apply SqlFacts.in_where in Hin.
    destruct Hin as (Hj & Hp). apply SqlFacts.in_join in Hj.
    destruct Hj as (Hi & Hs & Hk). apply FieldFacts.same_triple_eq in Hk.
    apply in_playlist_iff in Hp. destruct Hp as (Hn & Hu).
    destruct Hk as (K1 & K2 & K3). exists i, s.
    repeat split; try assumption. symmetry. exact Hr.
  - intros (i & s & Hi & Hs & Hn & Hu & K1 & K2 & K3 & ->). exists (i, s).
    split; [reflexivity|]. apply SqlFacts.in_where. split.
    + apply SqlFacts.in_join. split; [exact Hi|]. split; [exact Hs|].
      apply FieldFacts.same_triple_eq. repeat split; assumption.
    + apply in_playlist_iff. split; assumption.
Qed.

(** X14.  Songs of a playlist.  The protected listing of the owner and the
    public listing by owner and name answer alike: 404 ['Playlist not
    found.'] exactly when no playlist has that name and owner, and
    otherwise the catalog rows of the songs the playlist includes, each
    inclusion listed with the Song rows of its triple. *)
Theorem playlist_songs_listing (username name : string) (tb : Tables.t) :
  public_playlist_songs username name tb = playlist_songs username name tb
  /\ ((~ owns (Tables.base tb) username name
       /\ playlist_songs username name tb = send 404 "Playlist not found.")
      \/ (owns (Tables.base tb) username name
          /\ exists rows,
              playlist_songs username name tb = ok rows
              /\ forall r, In r rows <->
                           exists i s,
                             In i (Tables.tInclusion tb)
                             /\ In s (Db.tSong (Tables.base tb))
                             /\ Inclusion.name i = name
                             /\ Inclusion.username i = username
                             /\ Inclusion.songTitle i = Song.songTitle s
                             /\ Inclusion.artistName i = Song.artistName s
                             /\ Inclusion.albumTitle i = Song.albumTitle s
                             /\ r = {| so_songTitle := Song.songTitle s;
                                       so_artistName := Song.artistName s;
                                       so_albumTitle := Song.albumTitle s;
                                       so_duration := Song.duration s;
                                       so_plays := Song.plays s |})).
Proof.
  split; [reflexivity|]. unfold playlist_songs.
  destruct (owned_cases username name (Tables.base tb)) as [(-> & Hno)|(-> & Hown)].
  - left. split; [exact Hno|reflexivity].
  - right. split; [exact Hown|]. eexists. split; [reflexivity|].
    apply in_songs_of_playlist.
Qed.

(** X15.  Add then list.  After an addition that answered 201 the listing
    of the playlist answers 200 and holds the catalog row of the added
    song, next to every row it held before. *)
Theorem add_song_then_listed
  (username name : string) (t : Triple.t) (tb : Tables.t)
  (H201 : status (fst (add_song username name t tb)) = 201) :
  exists s rows,
    In s (Db.tSong (Tables.base tb))
    /\ t = Triple.make (Song.songTitle s) (Song.artistName s) (Song.albumTitle s)
    /\ playlist_songs username name (snd (add_song username name t tb)) = ok rows
    /\ In {| so_songTitle := Song.songTitle s;
             so_artistName := Song.artistName s;
             so_albumTitle := Song.albumTitle s;
             so_duration := Song.duration s;
             so_plays := Song.plays s |}
          rows
    /\ forall r, In r (songs_of_playlist username name tb) -> In r rows.
Proof.
  destruct (add_song_created _ _ _ _ H201)
    as (title & artist & album & -> & Ht & Ha & Hal & Ho & Hc & Hni & ->).
  destruct Hc as (s & Hs & <- & <- & <-). simpl snd.
  exists s. eexists. split; [exact Hs|]. split; [reflexivity|].
  unfold playlist_songs. simpl Tables.base.
  destruct (owned_cases username name (Tables.base tb)) as [(_ & Hno)|(-> & _)];
    [contradiction|].
  split; [reflexivity|]. split.
  - apply in_songs_of_playlist. eexists. exists s. simpl.
    split; [apply in_or_app; right; left; reflexivity|].
    repeat split. exact Hs.
  - intros r Hr. apply in_songs_of_playlist in Hr.
    destruct Hr as (i & s' & Hi & Hrest). apply in_songs_of_playlist.
    exists i, s'. split; [simpl; apply in_or_app; left; exact Hi|exact Hrest].
Qed.

Lemma add_song_then_listed_witness :
  exists s rows,
    In s (Db.tSong (Tables.base shelf))
    /\ Triple.make "Hello" "Adele" "25"
       = Triple.make (Song.songTitle s) (Song.artistName s) (Song.albumTitle s)
    /\ playlist_songs "alice" "Road trip"
         (snd (add_song "alice" "Road trip" (Triple.make "Hello" "Adele" "25") shelf))
       = ok rows
    /\ In {| so_songTitle := Song.songTitle s;
             so_artistName := Song.artistName s;
             so_albumTitle := Song.albumTitle s;
             so_duration := Song.duration s;
             so_plays := Song.plays s |}
          rows
    /\ forall r, In r (songs_of_playlist "alice" "Road trip" shelf) -> In r rows.
Proof.
  apply (add_song_then_listed "alice" "Road trip"
           (Triple.make "Hello" "Adele" "25") shelf).
  reflexivity.
Defined.

(** X16.  Create then list.  After a creation that answered 201 the
    caller's playlists are the former ones and the new name with the
    creation timestamp, the list of all playlists is the former rows and
    the new row, and every other user has the playlists they had; each
    list is stated up to the order of its rows, which neither SELECT
    fixes. *)
Theorem create_then_listed
  (username : string) (name : option string) (now : Z) (db : Db.t)
  (H201 : status (fst (create_playlist username name now db)) = 201) :
  exists n mine mine_after everyone,
    name = Some n
    /\ my_playlists username db = ok mine
    /\ my_playlists username (snd (create_playlist username name now db))
       = ok mine_after
    /\ Permutation mine_after ({| pl_name := n; pl_creationDate := now |} :: mine)
    /\ all_playlists (snd (create_playlist username name now db)) = ok everyone
    /\ Permutation everyone
         ({| Playlist.name := n; Playlist.username := username;
             Playlist.creationDate := now |} :: Db.tPlaylist db)
    /\ forall v, v <> username ->
         exists before after,
           my_playlists v db = ok before
           /\ my_playlists v (snd (create_playlist username name now db)) = ok after
           /\ Permutation after before.
Proof.
  destruct (create_result username name now db) as [(Hnot & _)|(n & -> & Hn & Hno & E)];
    [contradiction|].
  rewrite E. simpl snd. exists n. unfold my_playlists, all_playlists.
  simpl Db.tPlaylist. do 3 eexists. split; [reflexivity|].
  split; [reflexivity|]. split; [reflexivity|]. split; [|split; [reflexivity|split]].
  - rewrite UpdateFacts.where_app, map_app. simpl.
    rewrite String.eqb_refl. simpl.
    apply Permutation_sym, Permutation_cons_append.
  - apply Permutation_sym, Permutation_cons_append.
  - intros v Hv. do 2 eexists. split; [reflexivity|]. split; [reflexivity|].
    rewrite UpdateFacts.where_app. simpl.
    destruct (String.eqb_spec username v) as [E'|_]; [congruence|].
    rewrite app_nil_r. apply Permutation_refl.
Qed.

Lemma create_then_listed_witness :
  exists n mine mine_after everyone,
    Some "Road trip" = Some n
    /\ my_playlists "alice" catalog = ok mine
    /\ my_playlists "alice" (snd (create_playlist "alice" (Some "Road trip") 7 catalog))
       = ok mine_after
    /\ Permutation mine_after ({| pl_name := n; pl_creationDate := 7 |} :: mine)
    /\ all_playlists (snd (create_playlist "alice" (Some "Road trip") 7 catalog))
       = ok everyone
    /\ Permutation everyone
         ({| Playlist.name := n; Playlist.username := "alice";
             Playlist.creationDate := 7 |} :: Db.tPlaylist catalog)
    /\ forall v, v <> "alice" ->
         exists before after,
           my_playlists v catalog = ok before
           /\ my_playlists v (snd (create_playlist "alice" (Some "Road trip") 7 catalog))
              = ok after
           /\ Permutation after before.
Proof.
  apply (create_then_listed "alice" (Some "Road trip") 7 catalog). reflexivity.
Defined.

End PlaylistSongFacts.

(* ================================================================== *)
(** * Likes and the list of liked songs *)

Module LikedSongsFacts.
Import Api Http Store Inv Fixtures Samples Likes.
Local Open Scope string_scope.
Local Open Scope list_scope.

Lemma like_created (username : string) (t : Triple.t) (now : Z) (db : Db.t) :
  status (fst (like username t now db)) = 201 ->
  exists title artist album,
    t = Triple.make title artist album
    /\ title <> "" /\ artist <> "" /\ album <> ""
    /\ in_catalog db title artist album
    /\ ~ likes db username title artist album
    /\ snd (like username t now db)
       = Db.with_UserLike db
           (Db.tUserLike db ++ [{| UserLike.username := username;
                                   UserLike.songTitle := title;
                                   UserLike.artistName := artist;
                                   UserLike.albumTitle := album;
                                   UserLike.likeDate := now |}]).
Proof.
  intros H201. destruct (triple_given t) eqn:Hg.
  - destruct (PlaylistSongFacts.triple_given_inv t Hg)
      as (title & artist & album & -> & Ht & Ha & Hal).
    exists title, artist, album.
    destruct (LikeFacts.like_cases username title artist album now db Hg)
      as [(_ & E)|[(_ & _ & E)|(Hc & Hnl & E)]]; rewrite E in H201 |- *;
      try discriminate H201.
    repeat split; assumption.
  - unfold like in H201. rewrite Hg in H201. discriminate H201.
Qed.

Lemma like_not_created (username : string) (t : Triple.t) (now : Z) (db : Db.t) :
  status (fst (like username t now db)) <> 201 ->
  snd (like username t now db) = db.
Proof.
  intros Hnot. unfold like in *.
  destruct (negb (triple_given t)); [reflexivity|].
  destruct (Nat.eqb _ 0); [reflexivity|].
  destruct (0 <? _)%Z; [reflexivity|]. elim Hnot. reflexivity.
Qed.

Lemma unlike_result (username : string) (t : Triple.t) (db : Db.t) :
  (status (fst (unlike username t db)) <> 200 /\ snd (unlike username t db) = db)
  \/ (status (fst (unlike username t db)) = 200
      /\ exists title artist album,
          t = Triple.make title artist album
          /\ likes db username title artist album
          /\ snd (unlike username t db)
             = Db.with_UserLike db
                 (DbUpdate.delete (like_matches username t) (Db.tUserLike db))).
Proof.
  destruct (triple_given t) eqn:Hg.
  - destruct (PlaylistSongFacts.triple_given_inv t Hg)
      as (title & artist & album & -> & Ht & Ha & Hal).
    destruct (LikeFacts.unlike_cases username title artist album db Hg)
      as [(_ & E)|(Hl & E)]; rewrite E.
    + left. split; [discriminate|reflexivity].
    + right. split; [reflexivity|]. exists title, artist, album.
      repeat split. exact Hl.
  - left. unfold unlike. rewrite Hg. split; [discriminate|reflexivity].
Qed.

Lemma in_liked_songs (username : string) (db : Db.t) (r : SongRow) :
  (exists rows, liked_songs username db = ok rows /\ In r rows) <->
  exists ul s,
    In ul (Db.tUserLike db) /\ In s (Db.tSong db)
    /\ UserLike.username ul = username
    /\ UserLike.songTitle ul = Song.songTitle s
    /\ UserLike.artistName ul = Song.artistName s
    /\ UserLike.albumTitle ul = Song.albumTitle s
    /\ r = {| so_songTitle := Song.songTitle s;
              so_artistName := Song.artistName s;
              so_albumTitle := Song.albumTitle s;
              so_duration := Song.duration s;
              so_plays := Song.plays s |}.
Proof.
  unfold liked_songs. split.
  - intros (rows & [= <-] & Hin). apply in_map_iff in Hin.
    destruct Hin as ([ul s] & Hr & Hin). apply SqlFacts.in_where in Hin.
    destruct Hin as (Hj & Hu). apply SqlFacts.in_join in Hj.
    destruct Hj as (Hul & Hs & Hk). apply FieldFacts.same_triple_eq in Hk.
    apply String.eqb_eq in Hu. destruct Hk as (K1 & K2 & K3).
    exists ul, s. repeat split; try assumption. symmetry. exact Hr.
  - intros (ul & s & Hul & Hs & Hu & K1 & K2 & K3 & ->).
    eexists. split; [reflexivity|]. apply in_map_iff. exists (ul, s).
    split; [reflexivity|]. apply SqlFacts.in_where. split.
    + apply SqlFacts.in_join. split; [exact Hul|]. split; [exact Hs|].
      apply FieldFacts.same_triple_eq. repeat split; assumption.
    + apply String.eqb_eq. exact Hu.
Qed.

(** X17.  Like then list.  After a like that answered 201 the list of the
    caller's liked songs holds the catalog row of the liked song, and the
    lists of the other users are as before. *)
Theorem like_then_listed
  (username : string) (t : Triple.t) (now : Z) (db : Db.t)
  (H201 : status (fst (like username t now db)) = 201) :
  (exists s rows,
      In s (Db.tSong db)
      /\ t = Triple.make (Song.songTitle s) (Song.artistName s) (Song.albumTitle s)
      /\ liked_songs username (snd (like username t now db)) = ok rows
      /\ In {| so_songTitle := Song.songTitle s;
               so_artistName := Song.artistName s;
               so_albumTitle := Song.albumTitle s;
               so_duration := Song.duration s;
               so_plays := Song.plays s |}
            rows)
  /\ forall v, v <> username ->
               liked_songs v (snd (like username t now db)) = liked_songs v db.
Proof.
  destruct (like_created _ _ _ _ H201)
    as (title & artist & album & -> & Ht & Ha & Hal & Hc & Hnl & ->).
  split.
  - destruct Hc as (s & Hs & <- & <- & <-). exists s.
    destruct (proj2 (in_liked_songs username
                       (Db.with_UserLike db
                          (Db.tUserLike db
                           ++ [{| UserLike.username := username;
                                  UserLike.songTitle := Song.songTitle s;
                                  UserLike.artistName := Song.artistName s;
                                  UserLike.albumTitle := Song.albumTitle s;
                                  UserLike.likeDate := now |}]))
                       (song_row s))) as (rows & E & Hin).
    + eexists. exists s. split; [simpl; apply in_or_app; right; left; reflexivity|].
      repeat split. exact Hs.
    + exists rows. repeat split; assumption.
  - intros v Hv. unfold liked_songs. simpl Db.tUserLike. simpl Db.tSong.
    unfold Sql.join. rewrite flat_map_app. simpl flat_map. rewrite app_nil_r.
    rewrite UpdateFacts.where_app.
    rewrite (proj2 (SqlFacts.where_nil _ (map _ _))); [rewrite app_nil_r; reflexivity|].
    intros [ul s] Hin. apply in_map_iff in Hin. destruct Hin as (s' & [= <- <-] & _).
    simpl. apply String.eqb_neq. congruence.
Qed.

Lemma like_then_listed_witness :
  (exists s rows,
      In s (Db.tSong catalog)
      /\ Triple.make "Hello" "Adele" "25"
         = Triple.make (Song.songTitle s) (Song.artistName s) (Song.albumTitle s)
      /\ liked_songs "alice"
           (snd (like "alice" (Triple.make "Hello" "Adele" "25") 7 catalog)) = ok rows
      /\ In {| so_songTitle := Song.songTitle s;
               so_artistName := Song.artistName s;
               so_albumTitle := Song.albumTitle s;
               so_duration := Song.duration s;
               so_plays := Song.plays s |}
            rows)
  /\ forall v, v <> "alice" ->
               liked_songs v (snd (like "alice" (Triple.make "Hello" "Adele" "25")
                                        7 catalog))
               = liked_songs v catalog.
Proof.
  apply (like_then_listed "alice" (Triple.make "Hello" "Adele" "25") 7 catalog).
  reflexivity.
Defined.

(** X18.  Unlike then list.  After an unlike that answered 200 the list of
    the caller's liked songs holds no row of the unliked triple. *)
Theorem unlike_then_unlisted
  (username title artist album : string) (db : Db.t)
  (H200 : status (fst (unlike username (Triple.make title artist album) db)) = 200) :
  exists rows,
    liked_songs username (snd (unlike username (Triple.make title artist album) db))
    = ok rows
    /\ forall r, In r rows ->
                 (so_songTitle r, so_artistName r, so_albumTitle r)
                 <> (title, artist, album).
Proof.
  destruct (unlike_result username (Triple.make title artist album) db)
    as [(Hnot & _)|(_ & t' & a' & al' & _ & _ & E)]; [contradiction|].
  eexists. split; [reflexivity|]. intros r Hr Hk.
  assert (Hex : exists rows,
             liked_songs username
               (snd (unlike username (Triple.make title artist album) db)) = ok rows
             /\ In r rows) by (eexists; split; [reflexivity|exact Hr]).
  apply in_liked_songs in Hex. rewrite E in Hex. simpl in Hex.
  destruct Hex as (ul & s & Hul & _ & Hu & K1 & K2 & K3 & ->).
  apply UpdateFacts.in_delete in Hul. destruct Hul as (_ & Hm).
  injection Hk as E1 E2 E3. simpl in E1, E2, E3.
  assert (Hm' : like_matches username (Triple.make title artist album) ul = true).
  { apply LikeFacts.like_matches_iff. unfold is_like.
    repeat split; congruence. }
  congruence.
Qed.

Lemma unlike_then_unlisted_witness :
  exists rows,
    liked_songs "alice" (snd (unlike "alice" (Triple.make "Hello" "Adele" "25")
                                     catalog_liked)) = ok rows
    /\ forall r, In r rows ->
                 (so_songTitle r, so_artistName r, so_albumTitle r)
                 <> ("Hello", "Adele", "25").
Proof.
  apply (unlike_then_unlisted "alice" "Hello" "Adele" "25" catalog_liked).
  reflexivity.
Defined.

(** X19.  The like routes keep the UserLike table well formed: no pair
    (user, song) stored twice and every like naming a catalog song,
    whatever the arguments and the answers of like and unlike. *)
Theorem like_routes_keep_likes_sound (db : Db.t) (Hsound : likes_sound db) :
  (forall username t now, likes_sound (snd (like username t now db)))
  /\ (forall username t, likes_sound (snd (unlike username t db))).
Proof.
  destruct Hsound as (Hnd & Href). split.
  - intros username t now.
    destruct (Z.eq_dec (status (fst (like username t now db))) 201) as [H201|Hnot].
    + destruct (like_created _ _ _ _ H201)
        as (title & artist & album & -> & _ & _ & _ & Hc & Hnl & ->).
      unfold likes_sound. simpl Db.tUserLike. split.
      * apply UpdateFacts.NoDup_map_snoc; [exact Hnd|].
        intros Hin. apply in_map_iff in Hin. destruct Hin as (ul & Hk & Hin).
        injection Hk as K1 K2 K3 K4. apply Hnl. exists ul.
        split; [exact Hin|]. repeat split; assumption.
      * intros ul Hin. apply in_app_or in Hin. destruct Hin as [Hin|[<-|[]]].
        -- destruct (Href ul Hin) as (s & Hs). exists s. exact Hs.
        -- destruct Hc as (s & Hs). exists s. exact Hs.
    + rewrite (like_not_created _ _ _ _ Hnot). split; assumption.
  - intros username t.
    destruct (unlike_result username t db) as [(_ & ->)|(_ & _ & _ & _ & _ & _ & ->)].
    + split; assumption.
    + unfold likes_sound. simpl Db.tUserLike. split.
      * apply UpdateFacts.NoDup_map_filter. exact Hnd.
      * intros ul Hin. apply UpdateFacts.in_delete in Hin.
        destruct (Href ul (proj1 Hin)) as (s & Hs). exists s. exact Hs.
Qed.

Lemma catalog_liked_sound : likes_sound catalog_liked.
Proof.
  split.
  - repeat constructor. intros [].
  - intros ul [<-|[]]. exists hello_adele. repeat split. left. reflexivity.
Qed.

Lemma like_routes_keep_likes_sound_witness :
  likes_sound (snd (like "alice" (Triple.make "Hello" "Lionel Richie" "Cant Slow Down")
                         8 catalog_liked))
  /\ likes_sound (snd (unlike "alice" (Triple.make "Hello" "Adele" "25") catalog_liked)).
Proof.
  destruct (like_routes_keep_likes_sound catalog_liked catalog_liked_sound)
    as (Hlike & Hunlike).
  split; [apply Hlike|apply Hunlike].
Defined.

End LikedSongsFacts.

(* ================================================================== *)
(** * Recommendations and the likes they are computed from *)

Module RecommendLikeFacts.
Import Api Http Store Inv Fixtures Samples.
Local Open Scope string_scope.
Local Open Scope list_scope.

Lemma where_join_left {A B} (p : A -> bool) (on : A -> B -> bool)
  (l : list A) (r : list B) :
  Sql.where_ (fun '(a, _) => p a) (Sql.join on l r) = Sql.join on (Sql.where_ p l) r.
Proof.
  unfold Sql.where_, Sql.join. induction l as [|a t IH]; simpl; [reflexivity|].
  rewrite filter_app, IH.
  assert (E : forall bs : list B,
             filter (fun '(a0, _) => p a0) (map (pair a) bs)
             = if p a then map (pair a) bs else []).
  { induction bs as [|b bs IHb]; simpl.
    - destruct (p a); reflexivity.
    - rewrite IHb. destruct (p a); reflexivity. }
  rewrite E. destruct (p a); reflexivity.
Qed.

Lemma existsb_where {A} (f p : A -> bool) (rows : list A) :
  (forall x, f x = true -> p x = true) ->
  existsb f rows = existsb f (Sql.where_ p rows).
Proof.
  intros Hfp. unfold Sql.where_. induction rows as [|x t IH]; simpl; [reflexivity|].
  destruct (p x) eqn:E; simpl; [rewrite IH; reflexivity|].
  destruct (f x) eqn:Ef; [rewrite (Hfp x Ef) in E; discriminate|exact IH].
Qed.

Lemma where_where {A} (p q : A -> bool) (rows : list A) :
  (forall x, q x = true -> p x = true) ->
  Sql.where_ q (Sql.where_ p rows) = Sql.where_ q rows.
Proof.
  intros Hqp. unfold Sql.where_. induction rows as [|x t IH]; simpl; [reflexivity|].
  destruct (p x) eqn:E; simpl; [rewrite IH; reflexivity|].
  destruct (q x) eqn:Eq; [rewrite (Hqp x Eq) in E; discriminate|exact IH].
Qed.

Lemma liked_genres_of_likes (username : string) (db : Db.t) :
  liked_genres username db
  = Sql.distinct String.eqb
      (map (fun '(_, c2) => Classification.genreName c2)
           (Sql.join (fun ul c2 =>
                        same_triple (UserLike.songTitle ul) (UserLike.artistName ul)
                                    (UserLike.albumTitle ul)
                                    (Classification.songTitle c2)
                                    (Classification.artistName c2)
                                    (Classification.albumTitle c2))
                     (likes_of username db) (Db.tClassification db))).
Proof.
  unfold liked_genres, likes_of.
  rewrite <- (where_join_left (fun ul => String.eqb (UserLike.username ul) username)).
  reflexivity.
Qed.

Lemma not_liked_of_likes (username : string) (db : Db.t) (r : RecFrom) :
  not_liked username db r
  = (let '(s, _, _, _, _) := r in
     negb (existsb (fun ul2 =>
                      (String.eqb (UserLike.username ul2) username
                       && String.eqb (UserLike.songTitle ul2) (Song.songTitle s)
                       && String.eqb (UserLike.artistName ul2) (Song.artistName s)
                       && String.eqb (UserLike.albumTitle ul2) (Song.albumTitle s))%bool)
                   (likes_of username db))).
Proof.
  destruct r as [[[[s c] a] al] g]. unfold not_liked, likes_of. f_equal.
  apply existsb_where. intros ul H.
  rewrite !andb_true_iff in H. apply H.
Qed.

(** The recommendations of a user read the catalog and that user's likes
    only. *)
Lemma recommendation_rows_ext (username : string) (db db' : Db.t) :
  Db.tSong db' = Db.tSong db ->
  Db.tClassification db' = Db.tClassification db ->
  likes_of username db' = likes_of username db ->
  recommendation_rows username db' = recommendation_rows username db.
Proof.
  intros Hs Hc Hl.
  assert (Hfrom : rec_from username db' = rec_from username db).
  { unfold rec_from, liked_artists, liked_albums.
    rewrite !liked_genres_of_likes, Hs, Hc, Hl. reflexivity. }
  assert (Hkept : Sql.where_ (not_liked username db') (rec_from username db')
                  = Sql.where_ (not_liked username db) (rec_from username db)).
  { rewrite Hfrom. unfold Sql.where_. apply filter_ext. intros r.
    rewrite !not_liked_of_likes, Hl. reflexivity. }
  unfold recommendation_rows, rec_groups. rewrite Hkept. reflexivity.
Qed.

(** X20.  A caller without likes gets no recommendation: the route answers
    200 with the empty list. *)
Theorem no_likes_no_recommendations (username : string) (db : Db.t)
  (Hnone : forall ul, In ul (Db.tUserLike db) -> UserLike.username ul <> username) :
  recommendations username db = ok [].
Proof.
  unfold recommendations. f_equal.
  destruct (recommendation_rows username db) as [|r rest] eqn:Hrows; [reflexivity|].
  assert (Hr : In r (recommendation_rows username db))
    by (rewrite Hrows; left; reflexivity).
  destruct (RecommendFacts.row_score username db r Hr) as (Hs & Hpos).
  destruct (RecommendFacts.liked_lists_distinct username db (rr_artistName r))
    as ([Ha|Ha] & _);
    [|apply RecommendFacts.matches_liked_artists in Ha;
      destruct Ha as (ul & Hin & Hu & _); elim (Hnone ul Hin Hu)].
  destruct (RecommendFacts.liked_lists_distinct username db (rr_albumTitle r))
    as (_ & [Hal|Hal] & _);
    [|apply RecommendFacts.matches_liked_albums in Hal;
      destruct Hal as (ul & Hin & Hu & _); elim (Hnone ul Hin Hu)].
  destruct (RecommendFacts.liked_lists_distinct username db (rr_genreName r))
    as (_ & _ & [Hg|Hg]);
    [|apply RecommendFacts.matches_liked_genres in Hg;
      destruct Hg as (ul & c2 & Hin & _ & Hu & _); elim (Hnone ul Hin Hu)].
  rewrite Ha, Hal, Hg in Hs. rewrite Hs in Hpos. discriminate Hpos.
Qed.

Lemma no_likes_no_recommendations_witness :
  recommendations "B" overlap = ok [].
Proof.
  apply (no_likes_no_recommendations "B" overlap).
  intros ul [<-|[<-|[<-|[]]]]; discriminate.
Defined.

(** X21.  The recommendations of a user do not depend on what another user
    likes: a like or an unlike by another user, whatever it answers,
    leaves them unchanged. *)
Theorem recommendations_ignore_other_users (username other : string) (db : Db.t)
  (Hother : other <> username) :
  (forall t now,
      recommendations username (snd (like other t now db))
      = recommendations username db)
  /\ (forall t,
        recommendations username (snd (unlike other t db))
        = recommendations username db).
Proof.
  split.
  - intros t now. unfold recommendations. f_equal.
    destruct (Z.eq_dec (status (fst (like other t now db))) 201) as [H201|Hnot].
    + destruct (LikedSongsFacts.like_created _ _ _ _ H201)
        as (title & artist & album & _ & _ & _ & _ & _ & _ & ->).
      apply recommendation_rows_ext; try reflexivity.
      unfold likes_of. simpl Db.tUserLike. rewrite UpdateFacts.where_app. simpl.
      destruct (String.eqb_spec other username) as [E|_]; [contradiction|].
      apply app_nil_r.
    + rewrite (LikedSongsFacts.like_not_created _ _ _ _ Hnot). reflexivity.
  - intros t. unfold recommendations. f_equal.
    destruct (LikedSongsFacts.unlike_result other t db)
      as [(_ & ->)|(_ & _ & _ & _ & _ & _ & ->)]; [reflexivity|].
    apply recommendation_rows_ext; try reflexivity.
    unfold likes_of. simpl Db.tUserLike. unfold DbUpdate.delete.
    apply where_where. intros ul Hu. apply String.eqb_eq in Hu.
    unfold like_matches.
    destruct (String.eqb_spec (UserLike.username ul) other) as [E|_];
      [congruence|reflexivity].
Qed.

Lemma recommendations_ignore_other_users_witness :
  recommendations "A" (snd (like "B" (Triple.make "Third" "X" "Three") 9 overlap))
  = recommendations "A" overlap.
Proof.
  assert (Hother : "B" <> "A") by discriminate.
  destruct (recommendations_ignore_other_users "A" "B" overlap Hother) as (Hlike & _).
  apply Hlike.
Defined.

(** X22.  Like then recommend.  After a like that answered 201, the liked
    song is in none of the caller's recommendations. *)
Theorem liked_song_leaves_recommendations
  (username title artist album : string) (now : Z) (db : Db.t)
  (H201 : status (fst (like username (Triple.make title artist album) now db)) = 201) :
  forall r,
    In r (recommendation_rows username
            (snd (like username (Triple.make title artist album) now db))) ->
    (rr_songTitle r, rr_artistName r, rr_albumTitle r) <> (title, artist, album).
Proof.
  intros r Hr Hk.
  destruct (LikedSongsFacts.like_created _ _ _ _ H201)
    as (t' & a' & al' & [= <- <- <-] & _ & _ & _ & _ & _ & E).
  rewrite E in Hr.
  destruct (RecommendFacts.row_of_group _ _ r Hr) as (group & Hin & _).
  destruct (RecommendFacts.group_counts _ _ _ _ _ _ _ _ group Hin) as (_ & Hnl & _).
  injection Hk as K1 K2 K3. apply Hnl. eexists.
  split; [simpl; apply in_or_app; right; left; reflexivity|].
  unfold is_like. simpl. repeat split; congruence.
Qed.

Lemma liked_song_leaves_recommendations_witness :
  ~ (exists r,
        In r (recommendation_rows "A"
                (snd (like "A" (Triple.make "Third" "X" "Three") 9 overlap)))
        /\ (rr_songTitle r, rr_artistName r, rr_albumTitle r) = ("Third", "X", "Three")).
Proof.
  intros (r & Hr & Hk).
  apply (liked_song_leaves_recommendations "A" "Third" "X" "Three" 9 overlap
           eq_refl r Hr Hk).
Defined.

Example third_recommended_before_like :
  existsb (fun r => String.eqb (rr_songTitle r) "Third") (recommendation_rows "A" overlap)
  = true.
Proof. reflexivity. Qed.

End RecommendLikeFacts.

(* ================================================================== *)
(** * Search filters *)

Module SearchFilterFacts.
Import Api Http Store Inv Fixtures Samples.
Local Open Scope string_scope.
Local Open Scope list_scope.

Section Search.
Variable sql_like : string -> string -> bool.

(** The four LIKE conditions of a query, in the order the handler adds them. *)
Lemma search_ok_rows (req : Request.t) (db : Db.t) (rows : list SearchRow) :
  search sql_like req db = ok rows ->
  exists extra,
    rows = map search_select
             (Sql.order_by
                (by_plays (search_order (Query.sortOrder (Request.query req))))
                (Sql.where_
                   (fun r =>
                      forallb (fun c => c r)
                        ((like_filter sql_like (Query.songTitle (Request.query req))
                            (fun '(s, _, _, _, _) => Song.songTitle s)
                          ++ like_filter sql_like (Query.artistName (Request.query req))
                               (fun '(_, a, _, _, _) => Artist.artistName a)
                          ++ like_filter sql_like (Query.albumTitle (Request.query req))
                               (fun '(_, _, al, _, _) => Album.albumTitle al)
                          ++ like_filter sql_like (Query.genreName (Request.query req))
                               (fun '(_, _, _, _, g) => Genre.genreName g))
                         ++ extra))
                   (search_from db)))
    /\ (extra = []
        \/ exists id, user_id req = Some id /\ extra = [liked_filter db id]).
Proof using Type.
  unfold search. intros Hok.
  destruct (JS.strict_eq (Query.liked (Request.query req)) "true").
  - destruct (user_id req) as [id|]; [|discriminate Hok].
    injection Hok as <-. exists [liked_filter db id]. split; [reflexivity|].
    right. exists id. split; reflexivity.
  - injection Hok as <-. exists []. rewrite app_nil_r. split; [reflexivity|].
    left. reflexivity.
Qed.

Lemma like_filter_passes (v : string) (col : SearchFrom -> string) (x : SearchFrom) :
  v <> "" ->
  forallb (fun c => c x) (like_filter sql_like (Some v) col) = true ->
  sql_like (col x) ("%" ++ v ++ "%") = true.
Proof using Type.
  intros Hv. unfold like_filter. rewrite (FieldFacts.truthy_some v Hv). simpl.
  rewrite andb_true_r. exact (fun H => H).
Qed.

Lemma in_search_from (db : Db.t) (s : Song.t) (a : Artist.t) (al : Album.t)
  (c : Classification.t) (g : Genre.t) :
  In (s, a, al, c, g) (search_from db) <->
  In s (Db.tSong db) /\ In a (Db.tArtist db) /\ In al (Db.tAlbum db)
  /\ In c (Db.tClassification db) /\ In g (Db.tGenre db)
  /\ Song.artistName s = Artist.artistName a
  /\ Song.albumTitle s = Album.albumTitle al
  /\ Song.artistName s = Album.artistName al
  /\ Song.songTitle s = Classification.songTitle c
  /\ Song.artistName s = Classification.artistName c
  /\ Song.albumTitle s = Classification.albumTitle c
  /\ Classification.genreName c = Genre.genreName g.
Proof using Type.
  unfold search_from.
  rewrite !SqlFacts.in_join, FieldFacts.same_triple_eq, andb_true_iff, !String.eqb_eq.
  split.
  - intros ((((Hs & Ha & E1) & Hal & E2 & E3) & Hc & E4 & E5 & E6) & Hg & E7).
    repeat split; assumption.
  - intros (Hs & Ha & Hal & Hc & Hg & E1 & E2 & E3 & E4 & E5 & E6 & E7).
    repeat split; assumption.
Qed.

(** X23.  Every row a search returns is a row of the catalog joins and
    passes every filter the request gives: for each of songTitle,
    artistName, albumTitle and genreName given as a non-empty value [v],
    the column of the row is LIKE [%v%]. *)
Theorem search_rows_pass_filters
  (req : Request.t) (db : Db.t) (rows : list SearchRow)
  (Hok : search sql_like req db = ok rows) :
  forall r, In r rows ->
    (exists s a al c g,
        In (s, a, al, c, g) (search_from db) /\ r = search_select (s, a, al, c, g))
    /\ (forall v, Query.songTitle (Request.query req) = Some v -> v <> "" ->
                  sql_like (sr_songTitle r) ("%" ++ v ++ "%") = true)
    /\ (forall v, Query.artistName (Request.query req) = Some v -> v <> "" ->
                  sql_like (sr_artistName r) ("%" ++ v ++ "%") = true)
    /\ (forall v, Query.albumTitle (Request.query req) = Some v -> v <> "" ->
                  sql_like (sr_albumTitle r) ("%" ++ v ++ "%") = true)
    /\ (forall v, Query.genreName (Request.query req) = Some v -> v <> "" ->
                  sql_like (sr_genreName r) ("%" ++ v ++ "%") = true).
Proof using Type.
  intros r Hr. destruct (search_ok_rows req db rows Hok) as (extra & -> & _).
  apply in_map_iff in Hr. destruct Hr as (x & <- & Hx).
  apply SqlFacts.in_order_by, SqlFacts.in_where in Hx. destruct Hx as (Hfrom & Hpass).
  rewrite !forallb_app in Hpass. rewrite !andb_true_iff in Hpass.
  destruct Hpass as ((H1 & H2 & H3 & H4) & _).
  destruct x as [[[[s a] al] c] g].
  split; [exists s, a, al, c, g; split; [exact Hfrom|reflexivity]|].
  split; [|split; [|split]]; intros v Hv Hne.
  - rewrite Hv in H1. exact (like_filter_passes v _ _ Hne H1).
  - rewrite Hv in H2. exact (like_filter_passes v _ _ Hne H2).
  - rewrite Hv in H3. exact (like_filter_passes v _ _ Hne H3).
  - rewrite Hv in H4. exact (like_filter_passes v _ _ Hne H4).
Qed.

(** X24.  The liked filter, as the statement applies it.  With
    [liked=true] and an identity the search answers 200; every returned
    row has the title of some like of the user; and, when no other filter
    is given, every joined row of a song the user has liked is returned. *)
Theorem search_liked_keeps_liked_songs
  (req : Request.t) (db : Db.t) (id : string)
  (Hliked : Query.liked (Request.query req) = Some "true")
  (Hid : user_id req = Some id) :
  exists rows,
    search sql_like req db = ok rows
    /\ (forall r, In r rows ->
                  exists ul, In ul (Db.tUserLike db)
                             /\ UserLike.username ul = id
                             /\ UserLike.songTitle ul = sr_songTitle r)
    /\ (JS.truthy (Query.songTitle (Request.query req)) = false ->
        JS.truthy (Query.artistName (Request.query req)) = false ->
        JS.truthy (Query.albumTitle (Request.query req)) = false ->
        JS.truthy (Query.genreName (Request.query req)) = false ->
        forall s a al c g,
          In (s, a, al, c, g) (search_from db) ->
          likes db id (Song.songTitle s) (Song.artistName s) (Song.albumTitle s) ->
          In (search_select (s, a, al, c, g)) rows).
Proof using Type.
  assert (Hfilter : forall x : SearchFrom,
             liked_filter db id x = true <->
             exists ul, In ul (Db.tUserLike db) /\ UserLike.username ul = id
                        /\ UserLike.songTitle ul = sr_songTitle (search_select x)).
  { intros [[[[s a] al] c] g]. unfold liked_filter. simpl sr_songTitle.
    rewrite existsb_exists. split.
    - intros (t & Hin & Ht). apply String.eqb_eq in Ht. apply in_map_iff in Hin.
      destruct Hin as (ul & Hul & Hin). apply SqlFacts.in_where in Hin.
      destruct Hin as (Hin & Hu). apply String.eqb_eq in Hu.
      exists ul. repeat split; congruence.
    - intros (ul & Hin & Hu & Ht). exists (UserLike.songTitle ul).
      split; [|apply String.eqb_eq; congruence].
      apply in_map. apply SqlFacts.in_where. split; [exact Hin|].
      apply String.eqb_eq. exact Hu. }
  unfold search. rewrite Hliked, Hid. simpl JS.strict_eq. cbv iota.
  eexists. split; [reflexivity|]. split.
  - intros r Hr. apply in_map_iff in Hr. destruct Hr as (x & <- & Hx).
    apply SqlFacts.in_order_by, SqlFacts.in_where in Hx. destruct Hx as (_ & Hpass).
    rewrite forallb_app, andb_true_iff in Hpass. destruct Hpass as (_ & Hl).
    simpl in Hl. rewrite andb_true_r in Hl. apply Hfilter. exact Hl.
  - intros H1 H2 H3 H4 s a al c g Hfrom (ul & Hin & Hu & Ht & _).
    apply in_map. apply SqlFacts.in_order_by, SqlFacts.in_where.
    split; [exact Hfrom|]. unfold like_filter. rewrite H1, H2, H3, H4. simpl.
    rewrite andb_true_r. apply (Hfilter (s, a, al, c, g)).
    exists ul. repeat split; assumption.
Qed.

Lemma like_filter_same (v v' : option string) (col : SearchFrom -> string) :
  same_parameter v v' -> like_filter sql_like v col = like_filter sql_like v' col.
Proof using Type.
  intros [->|(H & H')]; [reflexivity|]. unfold like_filter. rewrite H, H'. reflexivity.
Qed.

(** X25.  A parameter given as the empty string is treated as absent: two
    requests with the same identity whose parameters are pairwise equal,
    or both absent or empty, get the same answer. *)
Theorem search_ignores_empty_parameters (req req' : Request.t) (db : Db.t)
  (Huser : Request.user req' = Request.user req)
  (H1 : same_parameter (Query.songTitle (Request.query req))
                       (Query.songTitle (Request.query req')))
  (H2 : same_parameter (Query.artistName (Request.query req))
                       (Query.artistName (Request.query req')))
  (H3 : same_parameter (Query.albumTitle (Request.query req))
                       (Query.albumTitle (Request.query req')))
  (H4 : same_parameter (Query.genreName (Request.query req))
                       (Query.genreName (Request.query req')))
  (H5 : same_parameter (Query.sortOrder (Request.query req))
                       (Query.sortOrder (Request.query req')))
  (H6 : same_parameter (Query.liked (Request.query req))
                       (Query.liked (Request.query req'))) :
  search sql_like req' db = search sql_like req db.
Proof using Type.
  assert (Horder : search_order (Query.sortOrder (Request.query req'))
                   = search_order (Query.sortOrder (Request.query req))).
  { destruct H5 as [->|(H & H')]; [reflexivity|].
    unfold search_order. rewrite H, H'. reflexivity. }
  assert (Hliked : JS.strict_eq (Query.liked (Request.query req')) "true"
                   = JS.strict_eq (Query.liked (Request.query req)) "true").
  { destruct H6 as [->|(H & H')]; [reflexivity|].
    destruct (Query.liked (Request.query req)) as [[|c l]|],
             (Query.liked (Request.query req')) as [[|c' l']|];
      try discriminate H; try discriminate H'; reflexivity. }
  unfold search, user_id.
  rewrite Huser, Horder, Hliked.
  rewrite (like_filter_same _ _ _ H1), (like_filter_same _ _ _ H2),
    (like_filter_same _ _ _ H3), (like_filter_same _ _ _ H4).
  reflexivity.
Qed.

End Search.

Lemma search_rows_pass_filters_witness :
  exists rows,
    search sample_like (anonymous (by_artist "dele")) catalog = ok rows
    /\ rows <> []
    /\ forall r, In r rows -> sample_like (sr_artistName r) "%dele%" = true.
Proof.
  eexists. split; [reflexivity|]. split; [discriminate|].
  intros r Hr.
  destruct (search_rows_pass_filters sample_like (anonymous (by_artist "dele")) catalog
              _ eq_refl r Hr) as (_ & _ & Hartist & _).
  apply (Hartist "dele"); [reflexivity|discriminate].
Defined.

Lemma search_liked_keeps_liked_songs_witness :
  exists rows,
    search sample_like (signed_in "alice" liked_only) catalog_liked = ok rows
    /\ In (search_select (hello_adele, artist_of hello_adele, album_of hello_adele,
                          classified hello_adele "Pop", {| Genre.genreName := "Pop" |}))
          rows.
Proof.
  destruct (search_liked_keeps_liked_songs sample_like (signed_in "alice" liked_only)
              catalog_liked "alice" eq_refl eq_refl) as (rows & E & _ & Hall).
  exists rows. split; [exact E|].
  apply Hall; try reflexivity.
  - apply in_search_from. simpl. repeat split; auto.
  - exists (like_of "alice" hello_adele 7). split; [left; reflexivity|].
    repeat split.
Defined.

Lemma search_ignores_empty_parameters_witness :
  search sample_like (anonymous by_artist_blanks) catalog
  = search sample_like (anonymous (by_artist "dele")) catalog.
Proof.
  apply (search_ignores_empty_parameters sample_like
           (anonymous (by_artist "dele")) (anonymous by_artist_blanks) catalog).
  - reflexivity.
  - right. split; reflexivity.
  - left. reflexivity.
  - left. reflexivity.
  - left. reflexivity.
  - right. split; reflexivity.
  - left. reflexivity.
Defined.

End SearchFilterFacts.

(* ================================================================== *)
(** * The drill-down through the charts *)

Module DrillDownFacts.
Import Api Http Store Inv Fixtures Samples.
Local Open Scope string_scope.
Local Open Scope list_scope.

(** X26.  The drill-down has no dead end: every chart name the first step
    returns has at least one date at the second step, and every date the
    second step returns for it is answered 200 at the third step. *)
Theorem drill_down_never_dead_ends (db : Db.t) (names : list string)
  (Hnames : top_charts db = ok names) :
  forall n, In n names ->
    exists dates,
      top_chart_dates n db = ok dates
      /\ dates <> []
      /\ forall d, In d dates -> exists songs, top_chart_songs n d db = ok songs.
Proof.
  intros n Hn. unfold top_charts in Hnames. injection Hnames as <-.
  rewrite (SqlFacts.in_distinct String.eqb String.eqb_eq) in Hn.
  apply in_map_iff in Hn. destruct Hn as (c & Hc & Hin).
  unfold top_chart_dates. rewrite SqlFacts.order_by_length, length_map.
  assert (Hrow : In c (Sql.where_ (fun c => String.eqb (TopChart.chartName c) n)
                                  (Db.tTopChart db))).
  { apply SqlFacts.in_where. split; [exact Hin|]. apply String.eqb_eq. exact Hc. }
  destruct (Sql.where_ (fun c => String.eqb (TopChart.chartName c) n)
                       (Db.tTopChart db)) as [|c0 rest] eqn:Hq; [contradiction|].
  simpl Nat.eqb. cbv iota. eexists. split; [reflexivity|]. split.
  - intros Hnil.
    assert (Hlen := SqlFacts.order_by_length (Sql.desc (fun d : Z => d))
                      (map TopChart.chartDate (c0 :: rest))).
    rewrite Hnil in Hlen. discriminate Hlen.
  - intros d Hd. apply SqlFacts.in_order_by, in_map_iff in Hd.
    destruct Hd as (c' & Hd & Hc'). rewrite <- Hq in Hc'.
    apply SqlFacts.in_where in Hc'. destruct Hc' as (Hin' & Hn').
    unfold top_chart_songs.
    assert (Hkey : In c' (Sql.where_
                            (fun c => (String.eqb (TopChart.chartName c) n
                                       && Z.eqb (TopChart.chartDate c) d)%bool)
                            (Db.tTopChart db))).
    { apply SqlFacts.in_where. split; [exact Hin'|].
      rewrite Hn', Hd, Z.eqb_refl. reflexivity. }
    destruct (Sql.where_
                (fun c => (String.eqb (TopChart.chartName c) n
                           && Z.eqb (TopChart.chartDate c) d)%bool)
                (Db.tTopChart db)) as [|c1 rest1]; [contradiction|].
    simpl Nat.eqb. cbv iota. eexists. reflexivity.
Qed.

Lemma drill_down_never_dead_ends_witness :
  exists dates,
    top_chart_dates "Weekly" charts = ok dates
    /\ dates <> []
    /\ forall d, In d dates -> exists songs, top_chart_songs "Weekly" d charts = ok songs.
Proof.
  apply (drill_down_never_dead_ends charts ["Weekly"; "Monthly"] eq_refl).
  left. reflexivity.
Defined.

End DrillDownFacts.

(* ================================================================== *)
(** * From login to an authenticated search *)

Module SessionFacts.
Import Api Http Store Inv Fixtures Samples.
Local Open Scope string_scope.
Local Open Scope list_scope.

Section Session.
Variable sql_like : string -> string -> bool.
Variable bcrypt_compare : string -> string -> bool.
Variable jwt_sign : Identity.t -> string -> string -> string.
Variable jwt_verify : string -> string -> string + Decoded.t.
Variable JWT_SECRET : string.

Lemma login_ok_inv (email password : option string) (db : Db.t) (lo : LoginOk) :
  login bcrypt_compare jwt_sign JWT_SECRET email password db = ok lo ->
  exists user,
    In user (Db.tUser db)
    /\ lo = {| token := jwt_sign {| Identity.id := User.username user;
                                    Identity.email := User.email user |}
                                 JWT_SECRET "3h";
               lo_user := {| pu_username := User.username user;
                             pu_email := User.email user;
                             pu_bio := User.bio user |};
               lo_message := "Login successful." |}.
Proof using Type.
  unfold login. destruct (_ || _)%bool; [discriminate|].
  destruct (Sql.where_ _ (Db.tUser db)) as [|user rest] eqn:Hq; [discriminate|].
  destruct (negb (bcrypt_compare _ _)); [discriminate|].
  intros [= <-]. exists user. split; [|reflexivity].
  assert (Hin : In user (user :: rest)) by (left; reflexivity).
  rewrite <- Hq in Hin. apply SqlFacts.in_where in Hin. apply Hin.
Qed.

(** X27.  From login to search.  When verifying a token signed for an
    account gives back its payload, tokens are not empty and usernames are
    not empty, the token of a successful login opens the search route with
    the identity of the account: the route answers what the handler
    answers for a request carrying that username, status 200, so a
    [liked=true] search is not refused, and nothing is written to the
    console. *)
Theorem login_token_opens_search
  (email password : option string) (db : Db.t) (lo : LoginOk)
  (q : Query.t) (console : list string)
  (Hverify : forall user, In user (Db.tUser db) ->
               jwt_verify (jwt_sign {| Identity.id := User.username user;
                                       Identity.email := User.email user |}
                                    JWT_SECRET "3h") JWT_SECRET
               = inr {| Decoded.user :=
                          Some {| Identity.id := User.username user;
                                  Identity.email := User.email user |} |})
  (Hsigned : forall payload, jwt_sign payload JWT_SECRET "3h" <> "")
  (Hnames : forall user, In user (Db.tUser db) -> User.username user <> "")
  (Hlogin : login bcrypt_compare jwt_sign JWT_SECRET email password db = ok lo) :
  search_route sql_like jwt_verify JWT_SECRET
    {| Request.x_auth_token := Some (token lo); Request.user := None;
       Request.query := q |} console db
  = (search sql_like
       {| Request.x_auth_token := Some (token lo);
          Request.user := Some {| Identity.id := pu_username (lo_user lo);
                                  Identity.email := pu_email (lo_user lo) |};
          Request.query := q |} db,
     console)
  /\ status (fst (search_route sql_like jwt_verify JWT_SECRET
                    {| Request.x_auth_token := Some (token lo); Request.user := None;
                       Request.query := q |} console db)) = 200.
Proof using Type.
  destruct (login_ok_inv _ _ _ _ Hlogin) as (user & Hin & ->).
  simpl token. simpl lo_user. simpl pu_username. simpl pu_email.
  assert (E : search_route sql_like jwt_verify JWT_SECRET
                {| Request.x_auth_token :=
                     Some (jwt_sign {| Identity.id := User.username user;
                                       Identity.email := User.email user |}
                                    JWT_SECRET "3h");
                   Request.user := None; Request.query := q |} console db
              = (search sql_like
                   {| Request.x_auth_token :=
                        Some (jwt_sign {| Identity.id := User.username user;
                                          Identity.email := User.email user |}
                                       JWT_SECRET "3h");
                      Request.user := Some {| Identity.id := User.username user;
                                              Identity.email := User.email user |};
                      Request.query := q |} db, console)).
  { unfold search_route, authOptional. simpl Request.x_auth_token.
    rewrite (FieldFacts.truthy_some _ (Hsigned _)). simpl negb. cbv iota.
    simpl JS.value. rewrite (Hverify user Hin). reflexivity. }
  split; [exact E|]. rewrite E. simpl fst.
  match goal with |- context [search sql_like ?r db] =>
    assert (Hid : user_id r = Some (User.username user))
  end.
  { unfold user_id. cbn [Request.user Identity.id].
    rewrite (FieldFacts.truthy_some _ (Hnames user Hin)). reflexivity. }
  unfold search. rewrite Hid.
  destruct (JS.strict_eq _ "true"); reflexivity.
Qed.

End Session.

Lemma login_token_opens_search_witness :
  status (fst (search_route sample_like pair_verify "k"
                 {| Request.x_auth_token := Some "alice:alice@example.org";
                    Request.user := None; Request.query := liked_only |}
                 [] one_user)) = 200.
Proof.
  destruct (login_token_opens_search sample_like sample_compare pair_sign pair_verify "k"
              (Some "alice@example.org") (Some "secret") one_user
              {| token := "alice:alice@example.org";
                 lo_user := {| pu_username := "alice"; pu_email := "alice@example.org";
                               pu_bio := None |};
                 lo_message := "Login successful." |}
              liked_only []) as (_ & H200).
  - intros user [<-|[]]. reflexivity.
  - intros [id email] H. destruct id; discriminate H.
  - intros user [<-|[]]. discriminate.
  - reflexivity.
  - exact H200.
Defined.

End SessionFacts.
